(** * Axolotl RAFT training hub: curation, RAFT synthesis and evaluation

    A shallow embedding of the data-curation core of the web application:
    the CSV importer ([parseCSV], [csvToJson]), the progress snapshot
    ([handleSave], [handleResumeFileLoad]), RAFT sample preparation
    ([handlePrepareRaft]), the judge-output parser and the evaluation loop
    ([parseJudgeOutput], [runEvaluation]) and the correction queue
    ([handleAcceptAsIs], [handleRejectItem], [exportCorrections]).

    JavaScript strings are modelled as [string]; a character is a code
    unit below 256.  Numbers that the code only compares or divides by a
    power of two are rationals.  [Math.random], the comparator-driven
    [Array.prototype.sort] shuffle, the remote search and the judge
    endpoint are inputs of the functions that consume them. *)

From Stdlib Require Import ZArith QArith List String Ascii Bool Lia.
From Stdlib Require Import Permutation DecimalString DecimalNat.
From stdpp Require Import base gmap strings list.
Import ListNotations.

Set Warnings "-register-all".

Local Open Scope string_scope.
Local Open Scope list_scope.

(* ================================================================== *)
(** ** JavaScript primitives used by the application code              *)
(* ================================================================== *)

Module JS.

(** Code units that [String.prototype.trim] and the regex class [\s]
    treat as white space, restricted to code units below 256:
    TAB, LF, VT, FF, CR, SPACE and NBSP. *)
Definition is_ws (c : ascii) : bool :=
  let n := nat_of_ascii c in
  (Nat.eqb n 9 || Nat.eqb n 10 || Nat.eqb n 11 || Nat.eqb n 12 ||
   Nat.eqb n 13 || Nat.eqb n 32 || Nat.eqb n 160)%bool.

Fixpoint trimStart (s : string) : string :=
  match s with
  | EmptyString => EmptyString
  | String c r => if is_ws c then trimStart r else s
  end.

Fixpoint trimEnd (s : string) : string :=
  match s with
  | EmptyString => EmptyString
  | String c r =>
      match trimEnd r with
      | EmptyString => if is_ws c then EmptyString else String c EmptyString
      | r' => String c r'
      end
  end.

(** [s.trim()] *)
Definition trim (s : string) : string := trimEnd (trimStart s).

(** Truthiness of a string value: only the empty string is falsy. *)
Definition truthy (s : string) : bool :=
  match s with EmptyString => false | _ => true end.

(** [a || b] where [a] is a possibly [undefined] string property. *)
Definition or_else (a : option string) (b : string) : string :=
  match a with
  | Some s => if truthy s then s else b
  | None => b
  end.

(** [a || b] where both sides may be [undefined]; the result keeps the
    right operand when the left one is falsy. *)
Definition or_opt (a b : option string) : option string :=
  match a with
  | Some s => if truthy s then Some s else b
  | None => b
  end.

Definition lower_char (c : ascii) : ascii :=
  let n := nat_of_ascii c in
  if ((65 <=? n) && (n <=? 90))%nat then ascii_of_nat (n + 32)
  else if ((192 <=? n) && (n <=? 222) && negb (Nat.eqb n 215))%nat
       then ascii_of_nat (n + 32)
  else c.

(** [s.toLowerCase()] *)
Fixpoint toLowerCase (s : string) : string :=
  match s with
  | EmptyString => EmptyString
  | String c r => String (lower_char c) (toLowerCase r)
  end.

(** [s.replace] with the global double-quote pattern and an empty
    replacement: every double-quote character is removed. *)
Fixpoint remove_quotes (s : string) : string :=
  match s with
  | EmptyString => EmptyString
  | String c r =>
      if Ascii.eqb c "034"%char then remove_quotes r
      else String c (remove_quotes r)
  end.

(** Decimal rendering of a non-negative integer inside a template
    literal. *)
Definition string_of_nat (n : nat) : string :=
  NilEmpty.string_of_uint (Nat.to_uint n).

(** [parts.join(sep)] *)
Fixpoint join (sep : string) (parts : list string) : string :=
  match parts with
  | [] => ""
  | [p] => p
  | p :: rest => p +:+ sep +:+ join sep rest
  end.

(** [s.split('\n')]: always at least one piece. *)
Fixpoint split_lines_aux (s : string) (cur : string) : list string :=
  match s with
  | EmptyString => [cur]
  | String c r =>
      if Ascii.eqb c "010"%char then cur :: split_lines_aux r ""
      else split_lines_aux r (cur +:+ String c "")
  end.

Definition split_lines (s : string) : list string := split_lines_aux s "".

(** [s.slice(0, n)] for [n >= 0] *)
Fixpoint slice0 (n : nat) (s : string) : string :=
  match n, s with
  | O, _ => ""
  | _, EmptyString => ""
  | S k, String c r => String c (slice0 k r)
  end.

End JS.

(* ================================================================== *)
(** ** CSV to JSON converter                                            *)
(* ================================================================== *)

Module Csv.

Definition LF : ascii := "010"%char.
Definition CR : ascii := "013"%char.
Definition DQUOTE : ascii := "034"%char.
Definition COMMA : ascii := ","%char.

(** [currentRow.some(f => f)] *)
Definition some_nonempty (row : list string) : bool := existsb JS.truthy row.

(** End-of-row action shared by the line-ending branches: push the
    trimmed field, keep the row only when some field is non-empty. *)
Definition close_row (rows : list (list string)) (currentRow : list string)
    (currentField : string) : list (list string) :=
  let row := currentRow ++ [JS.trim currentField] in
  if some_nonempty row then rows ++ [row] else rows.

(** The character loop of [parseCSV].  The four mutable locals are the
    accumulator arguments; [csvText[i + 1]] is the head of the rest. *)
Fixpoint parse_loop (s : string) (rows : list (list string))
    (currentRow : list string) (currentField : string) (inQuotes : bool)
    {struct s} : list (list string) * list string * string :=
  match s with
  | EmptyString => (rows, currentRow, currentField)
  | String char rest =>
      if Ascii.eqb char DQUOTE then
        match rest with
        | String nextChar rest' =>
            if (inQuotes && Ascii.eqb nextChar DQUOTE)%bool
            then parse_loop rest' rows currentRow
                   (currentField +:+ String DQUOTE "") inQuotes
            else parse_loop rest rows currentRow currentField (negb inQuotes)
        | EmptyString =>
            parse_loop rest rows currentRow currentField (negb inQuotes)
        end
      else if (Ascii.eqb char COMMA && negb inQuotes)%bool then
        parse_loop rest rows (currentRow ++ [JS.trim currentField]) "" inQuotes
      else if (Ascii.eqb char LF && negb inQuotes)%bool then
        parse_loop rest (close_row rows currentRow currentField) [] "" inQuotes
      else if (Ascii.eqb char CR && negb inQuotes)%bool then
        match rest with
        | String nextChar rest' =>
            if Ascii.eqb nextChar LF
            then parse_loop rest' (close_row rows currentRow currentField)
                   [] "" inQuotes
            else parse_loop rest (close_row rows currentRow currentField)
                   [] "" inQuotes
        | EmptyString =>
            parse_loop rest (close_row rows currentRow currentField)
              [] "" inQuotes
        end
      else parse_loop rest rows currentRow (currentField +:+ String char "")
             inQuotes
  end.

Definition parseCSV (csvText : string) : list (list string) :=
  let '(rows, currentRow, currentField) := parse_loop csvText [] [] "" false in
  if (JS.truthy currentField || (0 <? length currentRow)%nat)%bool
  then close_row rows currentRow currentField
  else rows.

(** A chat message and the two record shapes the converter emits. *)
Record Message := { role : string; content : string }.

Inductive Converted :=
| ShareGPT (messages : list Message)
| RaftRow (instruction context cot_answer : string).

(** [headers.forEach((h, idx) => { row[h] = values[idx] || '' })] *)
Fixpoint fill_row (headers : list string) (idx : nat) (values : list string)
    (row : gmap string string) : gmap string string :=
  match headers with
  | [] => row
  | h :: hs =>
      fill_row hs (S idx) values
        (<[h := JS.or_else (values !! idx) ""]> row)
  end.

Definition nth_field (values : list string) (i : nat) : string :=
  default "" (values !! i).

(** Body of the row loop for a row that passed the length check. *)
Definition convert_row (format : string) (headers values : list string)
    : option Converted :=
  let row := fill_row headers 0 values ∅ in
  if String.eqb format "sharegpt" then
    let question :=
      JS.or_else (row !! "question") (JS.or_else (row !! "prompt")
        (JS.or_else (row !! "input") (JS.or_else (row !! "q")
          (nth_field values 0)))) in
    let answer :=
      JS.or_else (row !! "answer") (JS.or_else (row !! "response")
        (JS.or_else (row !! "output") (JS.or_else (row !! "a")
          (nth_field values 1)))) in
    Some (ShareGPT [ {| role := "user"; content := question |};
                     {| role := "assistant"; content := answer |} ])
  else if String.eqb format "raft" then
    let ctxcol :=
      JS.or_opt (row !! "context") (JS.or_opt (row !! "document")
        (row !! "source")) in
    let hasContextColumn :=
      match ctxcol with Some s => JS.truthy s | None => false end in
    let hasThirdColumn :=
      ((3 <=? length values)%nat && JS.truthy (nth_field values 2))%bool in
    Some (RaftRow
      (JS.or_else (row !! "instruction") (JS.or_else (row !! "question")
         (JS.or_else (row !! "prompt") (nth_field values 0))))
      (if hasContextColumn then default "" ctxcol
       else if hasThirdColumn then nth_field values 1 else "")
      (JS.or_else (row !! "cot_answer") (JS.or_else (row !! "answer")
         (JS.or_else (row !! "response")
            (if hasThirdColumn then nth_field values 2
             else nth_field values 1)))))
  else None.

(** [for (let i = 1; i < rows.length; i++)] over the rows after the
    header, pushing onto [results]. *)
Fixpoint row_loop (format : string) (headers : list string)
    (dataRows : list (list string)) (results : list Converted)
    : list Converted :=
  match dataRows with
  | [] => results
  | values :: more =>
      if (length values <? 2)%nat then row_loop format headers more results
      else
        match convert_row format headers values with
        | Some r => row_loop format headers more (results ++ [r])
        | None => row_loop format headers more results
        end
  end.

Definition csvToJson (csvText : string) (format : string) : list Converted :=
  let rows := parseCSV csvText in
  if (length rows <? 2)%nat then []
  else
    match rows with
    | [] => []
    | header :: dataRows =>
        let headers :=
          map (fun h => JS.remove_quotes (JS.toLowerCase h)) header in
        row_loop format headers dataRows []
    end.

(** The question and the answer a converted record carries. *)
Definition question_of (r : Converted) : string :=
  match r with
  | ShareGPT ms => default "" (content <$> ms !! 0%nat)
  | RaftRow i _ _ => i
  end.

Definition answer_of (r : Converted) : string :=
  match r with
  | ShareGPT ms => default "" (content <$> ms !! 1%nat)
  | RaftRow _ _ a => a
  end.

End Csv.

(* ================================================================== *)
(** ** RAFT preparation                                                 *)
(* ================================================================== *)

Module Raft.

Definition NL : string := String "010"%char "".

(** A candidate document of a RAFT sample. *)
Record Doc := { id : string; content : string; is_oracle : bool }.

(** An accepted item of the training set; a property that is absent on
    the JavaScript object is [None].  A message without content is a
    message with empty content: the code reads contents only under
    [||], which treats both alike. *)
Record Item := {
  messages : option (list Csv.Message);
  question : option string;
  instruction : option string;
  answer : option string;
  cot_answer : option string;
  _id : option string
}.

(** [item.messages?.[k]?.content] *)
Definition message_content (item : Item) (k : nat) : option string :=
  match messages item with
  | Some ms => Csv.content <$> ms !! k
  | None => None
  end.

(** A passage returned by the remote search and the search result. *)
Record Passage := { p_id : string; p_content : string }.
Record SearchResult := { success : bool; documents : list Passage }.

Record RaftConfig := { numDistractors : Z; oracleProbability : Q }.

(** The random choices of one loop iteration: the outcome of the
    comparator-driven sort of the sibling items, the value of
    [Math.random()] compared with the oracle probability, and the outcome
    of the comparator-driven sort of the documents. *)
Record Random := {
  shuffle_items : list Item -> list Item;
  draw : Q;
  shuffle_docs : list Doc -> list Doc
}.

(** A sort driven by an inconsistent comparator still rearranges the
    array it is given. *)
Definition fair (rnd : Random) : Prop :=
  (forall l, Permutation l (shuffle_items rnd l)) /\
  (forall l, Permutation l (shuffle_docs rnd l)).

Definition Qltb (a b : Q) : bool :=
  (Qnum a * Zpos (Qden b) <? Qnum b * Zpos (Qden a))%Z.

Definition generateCotAnswer (question answer : string) (oracleDocNum : nat)
    : string :=
  "Let me analyze the provided documents to answer: " +:+ question +:+ NL +:+
  NL +:+
  "Looking at Document " +:+ JS.string_of_nat oracleDocNum +:+
  ", I find relevant information that addresses this question." +:+ NL +:+
  NL +:+
  "Based on Document " +:+ JS.string_of_nat oracleDocNum +:+
  ", the answer is:" +:+ NL +:+
  NL +:+
  answer.

Definition refusal (question : string) : string :=
  "I've reviewed the provided documents looking for information about: "
  +:+ question +:+ NL +:+
  NL +:+
  "However, none of the documents contain sufficient information to answer this question accurately. I would need additional sources to provide a reliable answer.".

Definition item_question (dataFormat : string) (item : Item) : string :=
  if String.eqb dataFormat "sharegpt"
  then JS.or_else (message_content item 0) ""
  else JS.or_else (instruction item) (JS.or_else (question item) "").

Definition item_answer (dataFormat : string) (item : Item) : string :=
  if String.eqb dataFormat "sharegpt"
  then JS.or_else (message_content item 1) ""
  else JS.or_else (cot_answer item) (JS.or_else (answer item) "").

(** The loop of [createFallbackDistractors] over the first [count]
    shuffled siblings; [i] is the loop index. *)
Fixpoint fallback_loop (dataFormat : string) (shuffled : list Item)
    (i count : nat) : list Doc :=
  match count, shuffled with
  | S k, item :: rest =>
      {| id := "distractor_" +:+ JS.or_else (_id item) (JS.string_of_nat i);
         content := item_question dataFormat item +:+ NL +:+ NL +:+
                    item_answer dataFormat item;
         is_oracle := false |}
      :: fallback_loop dataFormat rest (S i) k
  | _, _ => []
  end.

Definition createFallbackDistractors (rnd : Random) (allItems : list Item)
    (currentIndex : nat) (numDistractors : Z) (dataFormat : string)
    : list Doc :=
  let otherItems := delete currentIndex allItems in
  let shuffled := shuffle_items rnd otherItems in
  fallback_loop dataFormat shuffled 0
    (Z.to_nat (Z.min numDistractors (Z.of_nat (length shuffled)))).

(** [arr.slice(0, n)]: a negative end counts from the end of the array. *)
Definition slice_to {A} (n : Z) (l : list A) : list A :=
  if (0 <=? n)%Z then take (Z.to_nat n) l
  else take (Z.to_nat (Z.of_nat (length l) + n)) l.

(** [documents.findIndex(d => d.is_oracle) + 1]: 0 when there is none. *)
Fixpoint findIndex_oracle (docs : list Doc) : option nat :=
  match docs with
  | [] => None
  | d :: rest =>
      if is_oracle d then Some 0%nat else S <$> findIndex_oracle rest
  end.

Definition oraclePosition (docs : list Doc) : nat :=
  match findIndex_oracle docs with Some i => S i | None => 0 end.

(** [documents.map((doc, idx) => ...)] numbering from [idx]. *)
Fixpoint contextParts (docs : list Doc) (idx : nat) : list string :=
  match docs with
  | [] => []
  | doc :: rest =>
      ("[Document " +:+ JS.string_of_nat (idx + 1) +:+ "]" +:+ NL +:+
       content doc) :: contextParts rest (S idx)
  end.

Definition userContent (docs : list Doc) (question : string) : string :=
  "Based on the following documents, answer the question." +:+ NL +:+
  "If the answer is found in one of the documents, cite it by document number."
  +:+ NL +:+ NL +:+
  JS.join (NL +:+ NL) (contextParts docs 0) +:+ NL +:+
  NL +:+
  "Question: " +:+ question.

(** What one iteration computes before formatting: the local variables
    [distractors], [documents], [cotAnswer] and [includeOracle], whether
    the remote search supplied distractors and whether the sibling
    fallback was called. *)
Record Synthesis := {
  s_question : string;
  s_answer : string;
  s_distractors : list Doc;
  s_documents : list Doc;
  s_cotAnswer : string;
  s_includeOracle : bool;
  s_searchUsed : bool;
  s_toppedUp : bool
}.

(** Body of the loop of [handlePrepareRaft] for the item at index [i], up
    to the choice of documents and answer.  [search] is the result of the
    remote search, consulted only when [connected] (a configured URL and a
    successful connection test). *)
Definition synthesize (acceptedItems : list Item) (cfg : RaftConfig)
    (connected : bool) (search : SearchResult) (rnd : Random)
    (i : nat) (item : Item) : Synthesis :=
  let question :=
    JS.or_else (message_content item 0)
      (JS.or_else (question item) (JS.or_else (instruction item) "")) in
  let answer :=
    JS.or_else (message_content item 1)
      (JS.or_else (answer item) (JS.or_else (cot_answer item) "")) in
  let searchUsed :=
    (connected && success search
     && (0 <? length (documents search))%nat)%bool in
  let distractors0 :=
    if searchUsed
    then map (fun doc => {| id := p_id doc; content := p_content doc;
                            is_oracle := false |})
           (slice_to (numDistractors cfg) (documents search))
    else [] in
  let toppedUp := (Z.of_nat (length distractors0) <? numDistractors cfg)%Z in
  let distractors :=
    if toppedUp
    then distractors0 ++
         createFallbackDistractors rnd acceptedItems i
           (numDistractors cfg - Z.of_nat (length distractors0)) "sharegpt"
    else distractors0 in
  let oracleDoc :=
    {| id := "oracle_" +:+ JS.or_else (_id item) (JS.string_of_nat i);
       content := question +:+ NL +:+ NL +:+ answer;
       is_oracle := true |} in
  let includeOracle := Qltb (draw rnd) (oracleProbability cfg) in
  if includeOracle then
    let documents := shuffle_docs rnd (oracleDoc :: distractors) in
    {| s_question := question; s_answer := answer;
       s_distractors := distractors; s_documents := documents;
       s_cotAnswer :=
         generateCotAnswer question answer (oraclePosition documents);
       s_includeOracle := true; s_searchUsed := searchUsed;
       s_toppedUp := toppedUp |}
  else
    {| s_question := question; s_answer := answer;
       s_distractors := distractors; s_documents := distractors;
       s_cotAnswer := refusal question;
       s_includeOracle := false; s_searchUsed := searchUsed;
       s_toppedUp := toppedUp |}.

(** A prepared training sample as pushed onto [prepared]. *)
Record Prepared := {
  pr_messages : list Csv.Message;
  pr_id : option string;
  _raft_prepared : bool;
  _oracle_included : bool;
  _weaviate_distractors : bool
}.

(** Loop state: [prepared], [weaviateSuccessCount], [fallbackCount]. *)
Record LoopState := {
  prepared : list Prepared;
  weaviateSuccessCount : nat;
  fallbackCount : nat
}.

Definition step (acceptedItems : list Item) (cfg : RaftConfig)
    (connected : bool) (search : SearchResult) (rnd : Random)
    (i : nat) (item : Item) (st : LoopState) : LoopState :=
  let syn := synthesize acceptedItems cfg connected search rnd i item in
  let wsc := if s_searchUsed syn then S (weaviateSuccessCount st)
             else weaviateSuccessCount st in
  let fbc :=
    if (s_toppedUp syn && (0 <? length (s_distractors syn))%nat
        && Nat.eqb wsc 0)%bool
    then S (fallbackCount st) else fallbackCount st in
  {| prepared := prepared st ++
       [ {| pr_messages :=
              [ {| Csv.role := "user";
                   Csv.content :=
                     userContent (s_documents syn) (s_question syn) |};
                {| Csv.role := "assistant"; Csv.content := s_cotAnswer syn |} ];
            pr_id := _id item;
            _raft_prepared := true;
            _oracle_included := s_includeOracle syn;
            _weaviate_distractors := (0 <? wsc)%nat |} ];
     weaviateSuccessCount := wsc;
     fallbackCount := fbc |}.

(** [for (let i = 0; i < acceptedItems.length; i++)]; [env i] gives the
    search result and the random choices met by iteration [i]. *)
Fixpoint prepare_loop (acceptedItems : list Item) (cfg : RaftConfig)
    (connected : bool) (env : nat -> SearchResult * Random)
    (i : nat) (todo : list Item) (st : LoopState) : LoopState :=
  match todo with
  | [] => st
  | item :: rest =>
      prepare_loop acceptedItems cfg connected env (S i) rest
        (step acceptedItems cfg connected (fst (env i)) (snd (env i)) i item st)
  end.

(** [handlePrepareRaft]: an alert when nothing is accepted, otherwise the
    prepared samples stored with [setRaftPreparedData]. *)
Definition handlePrepareRaft (acceptedItems : list Item) (cfg : RaftConfig)
    (connected : bool) (env : nat -> SearchResult * Random)
    : string + list Prepared :=
  match acceptedItems with
  | [] => inl "No accepted items to prepare. Accept some items in Data Review first."
  | _ => inr (prepared (prepare_loop acceptedItems cfg connected env 0
                          acceptedItems
                          {| prepared := []; weaviateSuccessCount := 0;
                             fallbackCount := 0 |}))
  end.

End Raft.

(* ================================================================== *)
(** ** Judge output parser                                              *)
(* ================================================================== *)

Module Judge.

Record Parsed := { score : Z; explanation : string }.

(** The character class [1-5]. *)
Definition is_digit15 (c : ascii) : bool :=
  let n := nat_of_ascii c in ((49 <=? n) && (n <=? 53))%nat.

(** [parseInt] of a one-digit string. *)
Definition parseInt_digit (c : ascii) : Z := Z.of_nat (nat_of_ascii c - 48).

(** The anchored pattern: the whole string is one digit from 1 to 5. *)
Definition single_digit (s : string) : option ascii :=
  match s with
  | String c EmptyString => if is_digit15 c then Some c else None
  | _ => None
  end.

(** Case-insensitive match of one character against a lower-case ASCII
    letter of the pattern. *)
Definition eq_ci (c letter : ascii) : bool :=
  let n := nat_of_ascii c in
  (Ascii.eqb c letter ||
   ((65 <=? n) && (n <=? 90))%nat
   && Ascii.eqb (ascii_of_nat (n + 32)) letter)%bool.

(** Strips a case-insensitive occurrence of [pat] from the front of [s];
    returns the matched text and the rest. *)
Fixpoint prefix_ci (pat s : string) : option (string * string) :=
  match pat, s with
  | EmptyString, _ => Some ("", s)
  | String p pat', String c s' =>
      if eq_ci c p then
        match prefix_ci pat' s' with
        | Some (m, rest) => Some (String c m, rest)
        | None => None
        end
      else None
  | String _ _, EmptyString => None
  end.

(** The class of a colon or white space. *)
Definition is_sep (c : ascii) : bool :=
  (Ascii.eqb c ":"%char || JS.is_ws c)%bool.

(** The longest run of separator characters at the front of [s]. *)
Fixpoint sep_run (s : string) : string * string :=
  match s with
  | String c r =>
      if is_sep c then let '(run, rest) := sep_run r in (String c run, rest)
      else ("", s)
  | EmptyString => ("", "")
  end.

(** The rating pattern anchored at the front of [s]: the word, one or
    more separators, a digit from 1 to 5.  Returns the matched text and
    the captured digit.  Separators and digits are disjoint, so the
    greedy run is the only way to match. *)
Definition rating_at (s : string) : option (string * ascii) :=
  match prefix_ci "rating" s with
  | Some (word, rest) =>
      match sep_run rest with
      | (String c run, String d _) =>
          if is_digit15 d
          then Some (word +:+ String c run +:+ String d "", d)
          else None
      | _ => None
      end
  | None => None
  end.

(** [output.match] with the rating pattern: the leftmost match. *)
Fixpoint rating_match (s : string) : option (string * ascii) :=
  match rating_at s with
  | Some m => Some m
  | None =>
      match s with
      | String _ r => rating_match r
      | EmptyString => None
      end
  end.

Fixpoint is_prefix (p s : string) : bool :=
  match p, s with
  | EmptyString, _ => true
  | String a p', String b s' => (Ascii.eqb a b && is_prefix p' s')%bool
  | String _ _, EmptyString => false
  end.

(** [s.indexOf(needle)]: -1 when absent. *)
Fixpoint indexOf_from (needle s : string) (i : Z) : Z :=
  if is_prefix needle s then i
  else match s with
       | String _ r => indexOf_from needle r (i + 1)
       | EmptyString => (-1)%Z
       end.

Definition indexOf (s needle : string) : Z := indexOf_from needle s 0.

Fixpoint drop_chars (n : nat) (s : string) : string :=
  match n, s with
  | O, _ => s
  | S k, String _ r => drop_chars k r
  | S _, EmptyString => ""
  end.

(** [s.substring(start)]: a negative start is clamped to 0. *)
Definition substring_from (s : string) (start : Z) : string :=
  drop_chars (Z.to_nat (Z.max 0 start)) s.

(** The unanchored pattern [1-5]: the first such digit. *)
Fixpoint first_digit15 (s : string) : option ascii :=
  match s with
  | String c r => if is_digit15 c then Some c else first_digit15 r
  | EmptyString => None
  end.

Definition NL : string := String "010"%char "".

Definition parseJudgeOutput (output : string) : Parsed :=
  let lines := JS.split_lines (JS.trim output) in
  let firstLine := JS.trim (default "" (lines !! 0%nat)) in
  match single_digit firstLine with
  | Some d =>
      {| score := parseInt_digit d;
         explanation := JS.trim (JS.join NL (drop 1 lines)) |}
  | None =>
      match rating_match output with
      | Some (m0, d) =>
          {| score := parseInt_digit d;
             explanation :=
               JS.trim (substring_from output
                          (indexOf output m0 + Z.of_nat (String.length m0))) |}
      | None =>
          match first_digit15 (JS.slice0 50 output) with
          | Some d => {| score := parseInt_digit d; explanation := output |}
          | None => {| score := 3; explanation := output |}
          end
      end
  end.

(** Which rung of the ladder decides an output. *)
Inductive Rung := FirstLine | RatingPattern | EarlyDigit | Default.

Definition rung (output : string) : Rung :=
  let lines := JS.split_lines (JS.trim output) in
  let firstLine := JS.trim (default "" (lines !! 0%nat)) in
  match single_digit firstLine with
  | Some _ => FirstLine
  | None =>
      match rating_match output with
      | Some _ => RatingPattern
      | None =>
          match first_digit15 (JS.slice0 50 output) with
          | Some _ => EarlyDigit
          | None => Default
          end
      end
  end.

End Judge.

(* ================================================================== *)
(** ** Evaluation and flagging                                          *)
(* ================================================================== *)

Module Evaluation.

(** A normalized model response, as built by [handleLoadResponses]. *)
Record Response := {
  _id : string;
  question : string;
  expected_answer : string;
  model_response : string
}.

(** An evaluation result: the response's own fields, with [_status]
    overwritten, and the fields the evaluation adds.  [_correctedAnswer]
    is absent until a correction is saved. *)
Record EvalResult := {
  source : Response;
  _evalScore : Q;
  _rawScore : Z;
  _evalExplanation : string;
  _status : string;
  _correctedAnswer : option string
}.

Record EvalConfig := {
  judgeEndpoint : string;
  judgeApiKey : string;
  scoreThreshold : Q
}.

(** The [output] property of the judge's JSON reply. *)
Inductive Output :=
| OutMissing
| OutString (s : string)
| OutObject (response text : option string)
| OutOther.

(** What happens inside the [try] block up to the parsed reply: the
    request, or the decoding of its body, throws with a message, or a
    JSON reply arrives. *)
Inductive JudgeOutcome :=
| Throws (message : string)
| Replies (output : Output).

(** Message of the TypeError raised by [output.trim()] on a value that
    is not a string. *)
Definition trim_type_error : string := "output.trim is not a function".

(** [data.output?.response || data.output?.text || data.output || ''];
    [None] when the selected value is not a string. *)
Definition judgeOutput (o : Output) : option string :=
  match o with
  | OutMissing => Some ""
  | OutString s => Some s
  | OutObject r t =>
      match JS.or_opt r t with
      | Some s => if JS.truthy s then Some s else None
      | None => None
      end
  | OutOther => None
  end.

Definition normalize (score : Z) : Q := (inject_Z (score - 1) / 4)%Q.

Definition scored (item : Response) (threshold : Q) (p : Judge.Parsed)
    : EvalResult :=
  let normalizedScore := normalize (Judge.score p) in
  {| source := item;
     _evalScore := normalizedScore;
     _rawScore := Judge.score p;
     _evalExplanation := Judge.explanation p;
     _status := if Raft.Qltb normalizedScore threshold then "flagged"
                else "passed";
     _correctedAnswer := None |}.

Definition failed (item : Response) (message : string) : EvalResult :=
  {| source := item;
     _evalScore := 0;
     _rawScore := 1;
     _evalExplanation := "Error: " +:+ message;
     _status := "error";
     _correctedAnswer := None |}.

(** One iteration of the loop: the [try] block and its [catch]. *)
Definition evaluate_one (threshold : Q) (outcome : JudgeOutcome)
    (item : Response) : EvalResult :=
  match outcome with
  | Throws message => failed item message
  | Replies o =>
      match judgeOutput o with
      | Some text => scored item threshold (Judge.parseJudgeOutput text)
      | None => failed item trim_type_error
      end
  end.

(** [for (let i = 0; i < modelResponses.length; i++)], pushing onto
    [results]; [judge i item] is what the call for iteration [i] does. *)
Fixpoint eval_loop (threshold : Q) (judge : nat -> Response -> JudgeOutcome)
    (i : nat) (todo : list Response) (results : list EvalResult)
    : list EvalResult :=
  match todo with
  | [] => results
  | item :: rest =>
      eval_loop threshold judge (S i) rest
        (results ++ [evaluate_one threshold (judge i item) item])
  end.

(** [runEvaluation]: an alert and no results when there is nothing to
    evaluate or the judge is not configured, else the results stored
    with [setEvalResults]. *)
Definition runEvaluation (modelResponses : list Response) (cfg : EvalConfig)
    (judge : nat -> Response -> JudgeOutcome) : string + list EvalResult :=
  match modelResponses with
  | [] => inl "Load model responses first"
  | _ =>
      if (negb (JS.truthy (judgeEndpoint cfg)) ||
          negb (JS.truthy (judgeApiKey cfg)))%bool
      then inl "Configure judge endpoint and API key first"
      else inr (eval_loop (scoreThreshold cfg) judge 0 modelResponses [])
  end.

End Evaluation.

(* ================================================================== *)
(** ** Correction review queue                                          *)
(* ================================================================== *)

Module Review.

Import Evaluation.

(** Component state: the shared [evalResults] and the cursor
    [flaggedIndex]. *)
Record State := { evalResults : list EvalResult; flaggedIndex : nat }.

Definition in_queue (r : EvalResult) : bool :=
  (String.eqb (_status r) "flagged" || String.eqb (_status r) "corrected")%bool.

Definition flaggedItems (rs : list EvalResult) : list EvalResult :=
  List.filter in_queue rs.

Definition currentFlagged (st : State) : option EvalResult :=
  flaggedItems (evalResults st) !! flaggedIndex st.

Definition with_status (r : EvalResult) (status : string) : EvalResult :=
  {| source := source r; _evalScore := _evalScore r;
     _rawScore := _rawScore r; _evalExplanation := _evalExplanation r;
     _status := status; _correctedAnswer := _correctedAnswer r |}.

(** [evalResults.map(item => item._id === id ? {...item, _status} : item)] *)
Definition set_status (id status : string) (rs : list EvalResult)
    : list EvalResult :=
  map (fun item => if String.eqb (_id (source item)) id
                   then with_status item status else item) rs.

(** Cursor movement shared by accept and reject, computed from the
    queue of the render in which the handler was created. *)
Definition move_cursor (flaggedIndex queueLength : nat) : nat :=
  if (Z.of_nat flaggedIndex <? Z.of_nat queueLength - 1)%Z
  then flaggedIndex + 1
  else if (0 <? flaggedIndex)%nat then flaggedIndex - 1
  else flaggedIndex.

Definition dismiss (status : string) (st : State) : State :=
  match currentFlagged st with
  | None => st
  | Some cur =>
      {| evalResults := set_status (_id (source cur)) status (evalResults st);
         flaggedIndex :=
           move_cursor (flaggedIndex st)
             (length (flaggedItems (evalResults st))) |}
  end.

Definition handleAcceptAsIs (st : State) : State := dismiss "accepted" st.
Definition handleRejectItem (st : State) : State := dismiss "rejected" st.

(** The Next button of the queue view. *)
Definition next_button (st : State) : State :=
  {| evalResults := evalResults st;
     flaggedIndex :=
       Z.to_nat (Z.min (Z.of_nat (length (flaggedItems (evalResults st))) - 1)
                       (Z.of_nat (flaggedIndex st) + 1)) |}.

(** The cursor designates a record of the queue. *)
Definition cursor_in_range (st : State) : bool :=
  (flaggedIndex st <? length (flaggedItems (evalResults st)))%nat.

(** An exported chat message; [content] is absent when the record has
    no such property. *)
Record ExportMessage := { role : string; content : option string }.

Inductive ExportOutcome :=
| NothingToExport (alert : string)
| Exported (exportData : list (list ExportMessage)) (notification : string).

Definition reshape (item : EvalResult) : list ExportMessage :=
  [ {| role := "user"; content := Some (question (source item)) |};
    {| role := "assistant"; content := _correctedAnswer item |} ].

Definition exportCorrections (rs : list EvalResult) : ExportOutcome :=
  let corrected :=
    List.filter (fun r => String.eqb (_status r) "corrected") rs in
  match corrected with
  | [] => NothingToExport "No corrections to export"
  | _ =>
      Exported (map reshape corrected)
        ("Exported " +:+ JS.string_of_nat (length corrected) +:+ " corrections")
  end.

End Review.

(* ================================================================== *)
(** ** Progress snapshot of the review store                            *)
(* ================================================================== *)

Module Store.

(** JSON documents.  The records of the store are JSON data: they come
    from [JSON.parse] or from the CSV converter, extended with string
    properties.  [JSON.stringify] followed by [JSON.parse] is the
    platform's and returns such a document unchanged, so a saved blob is
    identified with the document it denotes. *)
Inductive json :=
| JNull
| JBool (b : bool)
| JNum (n : Z)
| JStr (s : string)
| JArr (items : list json)
| JObj (props : list (string * json)).

(** Truthiness of a JSON value. *)
Definition truthy (v : json) : bool :=
  match v with
  | JNull => false
  | JBool b => b
  | JNum n => negb (n =? 0)%Z
  | JStr s => JS.truthy s
  | JArr _ | JObj _ => true
  end.

Fixpoint assoc (k : string) (props : list (string * json)) : option json :=
  match props with
  | [] => None
  | (k', v) :: rest => if String.eqb k k' then Some v else assoc k rest
  end.

(** Reading one of the snapshot properties: [None] is [undefined];
    reading a property of [null] throws. *)
Inductive Read := ReadThrows | ReadValue (v : option json).

Definition get (v : json) (k : string) : Read :=
  match v with
  | JNull => ReadThrows
  | JObj props => ReadValue (assoc k props)
  | _ => ReadValue None
  end.

(** State of the data review component that the snapshot concerns. *)
Record State := {
  trainingData : list json;
  fileInfo : json;
  currentIndex : Z;
  editMode : bool;
  editedAnswer : string
}.

(** Effects of a save.  The pending edit is handed to
    [updateCurrentAnswer], which queues a state update; the snapshot is
    built from the [trainingData] this call was created with. *)
Record SaveEffects := {
  flushedEdit : option string;
  localStorageItem : json;
  download : json;
  downloadName : string;
  notification : string
}.

Definition saveData (now : string) (st : State) : json :=
  JObj [ ("data", JArr (trainingData st));
         ("fileInfo", fileInfo st);
         ("currentIndex", JNum (currentIndex st));
         ("savedAt", JStr now) ].

(** [handleSave]; [now] is the ISO time stamp of the call.  Nothing
    happens on an empty store. *)
Definition handleSave (now : string) (st : State) : option SaveEffects :=
  match trainingData st with
  | [] => None
  | _ =>
      Some {| flushedEdit := if editMode st then Some (editedAnswer st)
                             else None;
              localStorageItem := saveData now st;
              download := saveData now st;
              downloadName :=
                "training_progress_" +:+ JS.slice0 10 now +:+ ".json";
              notification := "Progress saved!" |}
  end.

(** The text of the chosen file, as [JSON.parse] sees it. *)
Inductive Content :=
| Unparsable (message : string)
| Document (v : json).

Inductive RestoreOutcome :=
| NoFile
| RestoreFailed (alert : string)
| Malformed
| Restored (st : State).

Definition default_fileInfo (name : string) : json :=
  JObj [ ("name", JStr name); ("type", JStr "JSON");
         ("converted", JBool false) ].

(** [v || d] on an optional JSON value. *)
Definition or_json (v : option json) (d : json) : json :=
  match v with
  | Some x => if truthy x then x else d
  | None => d
  end.

(** [handleResumeFileLoad] together with the reader's [onload].  The
    state is typed, so a snapshot whose [data] is not an array or whose
    [currentIndex] is not a number is reported as [Malformed].
    [cur] is the state being replaced. *)
Definition handleResumeFileLoad (file : option (string * Content))
    (cur : State) : RestoreOutcome :=
  match file with
  | None => NoFile
  | Some (name, Unparsable message) =>
      RestoreFailed ("Failed to restore progress: " +:+ message)
  | Some (name, Document saved) =>
      match get saved "data", get saved "fileInfo",
            get saved "currentIndex" with
      | ReadValue data, ReadValue info, ReadValue index =>
          match or_json data (JArr []), or_json index (JNum 0) with
          | JArr records, JNum i =>
              Restored {| trainingData := records;
                          fileInfo := or_json info (default_fileInfo name);
                          currentIndex := i;
                          editMode := false;
                          editedAnswer := editedAnswer cur |}
          | _, _ => Malformed
          end
      | _, _, _ =>
          RestoreFailed
            "Failed to restore progress: Cannot read properties of null"
      end
  end.

End Store.

(* ================================================================== *)
(** ** Corrections and navigation in the review queue                   *)
(* ================================================================== *)

Module Metrics.

Import Evaluation.

Definition with_correction (r : EvalResult) (text : string) : EvalResult :=
  {| source := source r; _evalScore := _evalScore r;
     _rawScore := _rawScore r; _evalExplanation := _evalExplanation r;
     _status := "corrected"; _correctedAnswer := Some text |}.

(** What a click on Save Correction leaves: the queue state, the text of
    the correction editor and whether the toast was shown. *)
Record Saved := {
  state : Review.State;
  editedCorrection : string;
  notified : bool
}.

(** [handleSaveCorrection], with the editor text as an argument. *)
Definition handleSaveCorrection (text : string) (st : Review.State) : Saved :=
  match Review.currentFlagged st with
  | None => {| state := st; editedCorrection := text; notified := false |}
  | Some cur =>
      if negb (JS.truthy (JS.trim text))
      then {| state := st; editedCorrection := text; notified := false |}
      else
        let updated :=
          map (fun item =>
                 if String.eqb (_id (source item)) (_id (source cur))
                 then with_correction item text else item)
              (Review.evalResults st) in
        let n := length (Review.flaggedItems (Review.evalResults st)) in
        if (Z.of_nat (Review.flaggedIndex st) <? Z.of_nat n - 1)%Z
        then {| state := {| Review.evalResults := updated;
                            Review.flaggedIndex := Review.flaggedIndex st + 1 |};
                editedCorrection := "";
                notified := true |}
        else {| state := {| Review.evalResults := updated;
                            Review.flaggedIndex := Review.flaggedIndex st |};
                editedCorrection := text;
                notified := true |}
  end.

(** The Previous button of the queue view. *)
Definition prev_button (st : Review.State) : Review.State :=
  {| Review.evalResults := Review.evalResults st;
     Review.flaggedIndex :=
       Z.to_nat (Z.max 0 (Z.of_nat (Review.flaggedIndex st) - 1)) |}.

(** The counts of the evaluation summary.  The average score, a decimal
    string rounded to three places, is left out. *)
Record Stats := {
  total : nat;
  flagged : nat;
  passed : nat;
  errors : nat;
  scoreDistribution : list nat
}.

Definition count_status (status : string) (rs : list EvalResult) : nat :=
  length (List.filter (fun r => String.eqb (_status r) status) rs).

Definition count_score (s : Z) (rs : list EvalResult) : nat :=
  length (List.filter (fun r => (_rawScore r =? s)%Z) rs).

(** [stats]: [None] stands for [null], when there is no result. *)
Definition stats (evalResults : list EvalResult) : option Stats :=
  match evalResults with
  | [] => None
  | _ =>
      Some {| total := length evalResults;
              flagged := count_status "flagged" evalResults;
              passed := count_status "passed" evalResults;
              errors := count_status "error" evalResults;
              scoreDistribution :=
                map (fun s => count_score s evalResults)
                    [1%Z; 2%Z; 3%Z; 4%Z; 5%Z] |}
  end.

End Metrics.

(* ================================================================== *)
(** ** RAFT preparation utilities: the stand-alone sample builder       *)
(* ================================================================== *)

Module RaftUtil.

Import Raft.





End RaftUtil.

(* ================================================================== *)
(** ** Remote passage search                                            *)
(* ================================================================== *)

Module Search.

(** One entry of the GraphQL result list; an absent property is [None]. *)
Record Hit := {
  h_content : option string;
  h_text : option string;
  h_id : option string;
  h_distance : option Q
}.

Record Document := { id : string; content : string; distance : option Q }.

(** What the request does: the fetch or the decoding of the body
    throws, the status is not ok, the body reports errors (with the
    message of the first one, if any), or a body arrives whose result
    list for the collection is given ([None] when it is missing). *)
Inductive Reply :=
| Fails (message : string)
| NotOk (status : nat)
| Errors (first : option string)
| Body (results : option (list Hit)).

Record Outcome := {
  success : bool;
  documents : list Document;
  error : option string
}.

Record Config := { url : string; collection : string }.

(** [s.includes(needle)] *)
Fixpoint includes (s needle : string) : bool :=
  (Judge.is_prefix needle s ||
   match s with
   | String _ r => includes r needle
   | EmptyString => false
   end)%bool.

(** The map step; [fresh] is the random suffix drawn for this entry. *)
Definition to_document (fresh : string) (item : Hit) : Document :=
  {| id := JS.or_else (h_id item) ("wv_" +:+ fresh);
     content := JS.or_else (h_content item) (JS.or_else (h_text item) "");
     distance := h_distance item |}.

(** The filter step. *)
Definition keep (excludeContent : string) (doc : Document) : bool :=
  if (JS.truthy excludeContent &&
      includes (JS.toLowerCase (content doc))
               (JS.slice0 100 (JS.toLowerCase excludeContent)))%bool
  then false
  else (0 <? String.length (content doc))%nat.

Fixpoint map_hits (fresh : nat -> string) (i : nat) (hits : list Hit)
    : list Document :=
  match hits with
  | [] => []
  | h :: rest => to_document (fresh i) h :: map_hits fresh (S i) rest
  end.

(** [searchWeaviate], from the reply on.  The query text only enters the
    request. *)
Definition searchWeaviate (cfg : Config) (excludeContent : string)
    (fresh : nat -> string) (reply : Reply) : Outcome :=
  if (negb (JS.truthy (url cfg)) || negb (JS.truthy (collection cfg)))%bool
  then {| success := false; documents := [];
          error := Some "Weaviate not configured" |}
  else
    match reply with
    | Fails message =>
        {| success := false; documents := []; error := Some message |}
    | NotOk status =>
        {| success := false; documents := [];
           error := Some ("Weaviate request failed: " +:+
                          JS.string_of_nat status) |}
    | Errors first =>
        {| success := false; documents := [];
           error := Some (JS.or_else first "GraphQL error") |}
    | Body results =>
        {| success := true;
           documents :=
             List.filter (keep excludeContent)
               (map_hits fresh 0 (default [] results));
           error := None |}
    end.

(** The result as [handlePrepareRaft] reads it. *)
Definition to_result (o : Outcome) : Raft.SearchResult :=
  {| Raft.success := success o;
     Raft.documents :=
       map (fun d => {| Raft.p_id := id d; Raft.p_content := content d |})
           (documents o) |}.

End Search.

(* ================================================================== *)
(** ** Data review: import, decisions, statistics and export            *)
(* ================================================================== *)

Module DataReview.

Import Store.

(** A computation that may stop on a TypeError, as reading a property
    of [null] does. *)
Inductive Result (A : Type) :=
| Ok (a : A)
| TypeError.
Arguments Ok {A} a.
Arguments TypeError {A}.

Definition is_null (v : json) : bool :=
  match v with JNull => true | _ => false end.

(** The properties a spread copies: those of an object, the indexed
    elements of an array, the characters of a string, nothing
    otherwise. *)
Fixpoint index_props (i : nat) (l : list json) : list (string * json) :=
  match l with
  | [] => []
  | x :: rest => (JS.string_of_nat i, x) :: index_props (S i) rest
  end.

Fixpoint chars (s : string) : list json :=
  match s with
  | EmptyString => []
  | String c r => JStr (String c "") :: chars r
  end.

Definition own_props (v : json) : list (string * json) :=
  match v with
  | JObj props => props
  | JArr items => index_props 0 items
  | JStr s => index_props 0 (chars s)
  | _ => []
  end.

(** [v.k] for a value that is not [null] and a name [k] other than
    length; [None] is [undefined]. *)
Definition prop (v : json) (k : string) : option json := assoc k (own_props v).

(** [v[i]] for a value that is not [null]. *)
Definition index (v : json) (i : nat) : option json :=
  assoc (JS.string_of_nat i) (own_props v).

(** Defining a property in an object literal after a spread: the value
    is replaced in place when the name is there, appended otherwise. *)
Fixpoint set_prop (k : string) (v : json) (props : list (string * json))
    : list (string * json) :=
  match props with
  | [] => [(k, v)]
  | (k', v') :: rest =>
      if String.eqb k k' then (k', v) :: rest
      else (k', v') :: set_prop k v rest
  end.

(** [item._status === status] for an item that is not [null]. *)
Definition status_is (status : string) (item : json) : bool :=
  match prop item "_status" with
  | Some (JStr s) => String.eqb s status
  | _ => false
  end.

(** [`item_${Date.now()}_${index}`] *)
Definition fresh_id (now index : nat) : string :=
  "item_" +:+ JS.string_of_nat now +:+ "_" +:+ JS.string_of_nat index.

(** One element of [initializeWithStatus]; [now] is the clock read
    for this element. *)
Definition init_item (now index : nat) (item : json) : Result json :=
  if is_null item then TypeError
  else
    Ok (JObj
          (set_prop "_status" (or_json (prop item "_status") (JStr "pending"))
             (set_prop "_id"
                (or_json (prop item "_id") (JStr (fresh_id now index)))
                (own_props item)))).

Fixpoint init_from (now : nat -> nat) (index : nat) (data : list json)
    : Result (list json) :=
  match data with
  | [] => Ok []
  | item :: rest =>
      match init_item (now index) index item with
      | TypeError => TypeError
      | Ok first =>
          match init_from now (S index) rest with
          | TypeError => TypeError
          | Ok others => Ok (first :: others)
          end
      end
  end.

Definition initializeWithStatus (now : nat -> nat) (data : list json)
    : Result (list json) :=
  init_from now 0 data.

(** [item.messages?.[k]?.content] *)
Definition message_content (item : json) (k : nat) : option json :=
  match prop item "messages" with
  | None | Some JNull => None
  | Some ms =>
      match index ms k with
      | None | Some JNull => None
      | Some m => prop m "content"
      end
  end.

Definition getQuestion (item : json) : json :=
  if negb (truthy item) then JStr ""
  else or_json (message_content item 0)
         (or_json (prop item "question")
            (or_json (prop item "instruction") (JStr ""))).

Definition getAnswer (item : json) : json :=
  if negb (truthy item) then JStr ""
  else or_json (message_content item 1)
         (or_json (prop item "answer")
            (or_json (prop item "cot_answer") (JStr ""))).

(** [arr[i]] for an integer index. *)
Definition at_index (l : list json) (i : Z) : option json :=
  if (0 <=? i)%Z then l !! Z.to_nat i else None.

(** [arr[i] = v] on a copy, for an index below the length; a negative
    index adds no element. *)
Definition set_index (l : list json) (i : Z) (v : json) : list json :=
  if (0 <=? i)%Z then <[Z.to_nat i := v]> l else l.

Definition is_Some_json (v : option json) : bool :=
  match v with Some _ => true | None => false end.

(** The copy of the current item with the new answer.  The first
    message is kept; where the array has no first element the hole is
    written as [null], which is how it is serialised and how it reads
    under [?.]. *)
Definition with_answer (current : json) (newAnswer : string) : json :=
  let props := own_props current in
  match assoc "messages" props with
  | Some ms =>
      if truthy ms
      then JObj (set_prop "messages"
                   (JArr [ default JNull (index ms 0);
                           JObj [ ("role", JStr "assistant");
                                  ("content", JStr newAnswer) ] ])
                   props)
      else if is_Some_json (assoc "cot_answer" props)
           then JObj (set_prop "cot_answer" (JStr newAnswer) props)
           else JObj (set_prop "answer" (JStr newAnswer) props)
  | None =>
      if is_Some_json (assoc "cot_answer" props)
      then JObj (set_prop "cot_answer" (JStr newAnswer) props)
      else JObj (set_prop "answer" (JStr newAnswer) props)
  end.

(** [updateCurrentAnswer]: the argument of its [setTrainingData], or
    [None] when there is no current item. *)
Definition updateCurrentAnswer (st : State) (newAnswer : string)
    : option (list json) :=
  match at_index (trainingData st) (currentIndex st) with
  | Some current =>
      if truthy current
      then Some (set_index (trainingData st) (currentIndex st)
                   (with_answer current newAnswer))
      else None
  | None => None
  end.

(** The copy of an item with a status. *)
Definition with_status (item : option json) (status : string) : json :=
  JObj (set_prop "_status" (JStr status)
          (match item with Some v => own_props v | None => [] end)).

(** The record set after a handler: the argument of the last
    [setTrainingData] it called. *)
Definition last_set (current : list json) (queued : list (list json))
    : list json :=
  List.last queued current.

Definition advance (currentIndex : Z) (len : nat) : Z :=
  if (currentIndex <? Z.of_nat len - 1)%Z then (currentIndex + 1)%Z
  else currentIndex.

Definition out_of_range (st : State) : bool :=
  match trainingData st with
  | [] => true
  | _ => (Z.of_nat (length (trainingData st)) <=? currentIndex st)%Z
  end.

(** [handleAccept].  In edit mode the edit is passed to
    [updateCurrentAnswer] first; the array the handler then builds starts
    from the records it was created with. *)
Definition handleAccept (st : State) : State :=
  if out_of_range st then st
  else
    let edits :=
      if editMode st
      then match updateCurrentAnswer st (editedAnswer st) with
           | Some data => [data]
           | None => []
           end
      else [] in
    let updatedData :=
      set_index (trainingData st) (currentIndex st)
        (with_status (at_index (trainingData st) (currentIndex st))
           (if editMode st then "edited" else "accepted")) in
    {| trainingData := last_set (trainingData st) (edits ++ [updatedData]);
       fileInfo := fileInfo st;
       currentIndex := advance (currentIndex st) (length (trainingData st));
       editMode := false;
       editedAnswer := editedAnswer st |}.

(** [handleReject] *)
Definition handleReject (st : State) : State :=
  if out_of_range st then st
  else
    let updatedData :=
      set_index (trainingData st) (currentIndex st)
        (with_status (at_index (trainingData st) (currentIndex st))
           "rejected") in
    {| trainingData := last_set (trainingData st) [updatedData];
       fileInfo := fileInfo st;
       currentIndex := advance (currentIndex st) (length (trainingData st));
       editMode := false;
       editedAnswer := editedAnswer st |}.

Inductive Outcome :=
| Unchanged
| Alerted (message : string)
| Threw
| Updated (st : State).

(** The copy made by Accept All: a pending status becomes accepted, any
    other status is written back as it is.  A property written with the
    value [undefined] reads as an absent one and is left out when the
    item is serialised, so it is not added. *)
Definition accept_pending (item : json) : json :=
  if status_is "pending" item
  then JObj (set_prop "_status" (JStr "accepted") (own_props item))
  else match prop item "_status" with
       | Some s => JObj (set_prop "_status" s (own_props item))
       | None => JObj (own_props item)
       end.

(** [handleAcceptAll]; [confirmed] is the answer to the dialog. *)
Definition handleAcceptAll (confirmed : bool) (st : State) : Outcome :=
  match trainingData st with
  | [] => Unchanged
  | data =>
      if existsb is_null data then Threw
      else if Nat.eqb (length (List.filter (status_is "pending") data)) 0
      then Alerted "All items have already been reviewed."
      else if confirmed
      then Updated {| trainingData := map accept_pending data;
                      fileInfo := fileInfo st;
                      currentIndex := currentIndex st;
                      editMode := editMode st;
                      editedAnswer := editedAnswer st |}
      else Unchanged
  end.

Record Stats := {
  total : nat;
  accepted : nat;
  edited : nat;
  rejected : nat;
  pending : nat;
  reviewed : nat
}.

Definition count (status : string) (data : list json) : nat :=
  length (List.filter (status_is status) data).

(** [stats], computed on every render. *)
Definition stats (data : list json) : Result Stats :=
  if existsb is_null data then TypeError
  else Ok {| total := length data;
             accepted := count "accepted" data;
             edited := count "edited" data;
             rejected := count "rejected" data;
             pending := count "pending" data;
             reviewed := count "accepted" data + count "edited" data
                         + count "rejected" data |}.

Fixpoint remove_prop (k : string) (props : list (string * json))
    : list (string * json) :=
  match props with
  | [] => []
  | (k', v) :: rest =>
      if String.eqb k k' then remove_prop k rest
      else (k', v) :: remove_prop k rest
  end.

(** The rest of an item once [_id] and [_status] are taken out. *)
Definition strip (item : json) : json :=
  JObj (remove_prop "_status" (remove_prop "_id" (own_props item))).

(** [exportAsJsonl], up to the serialisation of the exported items. *)
Inductive Export :=
| NothingDone
| ExportThrew
| ExportAlerted (message : string)
| Exported (exportData : list json) (fileName : string).

Definition exportAsJsonl (data : list json) : Export :=
  match data with
  | [] => NothingDone
  | _ =>
      if existsb is_null data then ExportThrew
      else
        match map strip
                (List.filter
                   (fun item => (status_is "accepted" item
                                 || status_is "edited" item)%bool) data) with
        | [] => ExportAlerted
                  "No accepted items to export. Accept some items first."
        | exportData => Exported exportData "training_data.jsonl"
        end
  end.

(** A converted CSV record as the object [csvToJson] builds. *)
Definition message_json (m : Csv.Message) : json :=
  JObj [ ("role", JStr (Csv.role m)); ("content", JStr (Csv.content m)) ].

Definition of_converted (r : Csv.Converted) : json :=
  match r with
  | Csv.ShareGPT ms => JObj [ ("messages", JArr (map message_json ms)) ]
  | Csv.RaftRow i c a =>
      JObj [ ("instruction", JStr i); ("context", JStr c);
             ("cot_answer", JStr a) ]
  end.

(** [name.endsWith(suffix)] *)
Definition endsWith (name suffix : string) : bool :=
  Judge.is_prefix suffix
    (Judge.drop_chars (String.length name - String.length suffix) name)
  && (String.length suffix <=? String.length name)%nat.

Inductive UploadOutcome :=
| NoUpload
| UploadAlerted (message : string)
| UploadThrew (st : State)
| Uploaded (st : State).

Definition file_info (name type : string) (converted : bool) : json :=
  JObj [ ("name", JStr name); ("type", JStr type);
         ("converted", JBool converted) ].

Section Upload.

(** [JSON.parse]: the error message or the parsed document. *)
Variable parse : string -> string + json.

Fixpoint parse_lines (lines : list string) : string + list json :=
  match lines with
  | [] => inr []
  | line :: rest =>
      match parse line with
      | inl message => inl message
      | inr v =>
          match parse_lines rest with
          | inl message => inl message
          | inr vs => inr (v :: vs)
          end
      end
  end.

(** The records of a JSON or JSON-lines file. *)
Definition json_data (name content : string) : string + list json :=
  if endsWith name ".jsonl"
  then parse_lines (JS.split_lines (JS.trim content))
  else match parse content with
       | inl message => inl message
       | inr (JArr items) => inr items
       | inr v => inr [v]
       end.

Definition load (now : nat -> nat) (data : list json) (st : State)
    : UploadOutcome :=
  match initializeWithStatus now data with
  | TypeError => UploadThrew st
  | Ok initialized =>
      Uploaded {| trainingData := initialized;
                  fileInfo := fileInfo st;
                  currentIndex := 0;
                  editMode := false;
                  editedAnswer := editedAnswer st |}
  end.

Definition with_fileInfo (info : json) (st : State) : State :=
  {| trainingData := trainingData st; fileInfo := info;
     currentIndex := currentIndex st; editMode := editMode st;
     editedAnswer := editedAnswer st |}.

(** [handleFileUpload] with the reader's [onload]; [file] is the chosen
    file, its name and its text. *)
Definition handleFileUpload (now : nat -> nat)
    (file : option (string * string)) (st : State) : UploadOutcome :=
  match file with
  | None => NoUpload
  | Some (name, content) =>
      if endsWith name ".csv"
      then load now (map of_converted (Csv.csvToJson content "sharegpt"))
             (with_fileInfo (file_info name "CSV" true) st)
      else if (endsWith name ".json" || endsWith name ".jsonl")%bool
      then match json_data name content with
           | inl message => UploadAlerted ("Invalid JSON file: " +:+ message)
           | inr data =>
               load now data (with_fileInfo (file_info name "JSON" false) st)
           end
      else load now [] st
  end.

End Upload.

End DataReview.

(* ================================================================== *)
(** ** Loading model responses for evaluation                           *)
(* ================================================================== *)

Module Responses.

Import Store DataReview.

(** [`resp_${i}`] *)
Definition resp_id (i : nat) : string := "resp_" +:+ JS.string_of_nat i.

(** One element of the normalisation. *)
Definition normalize (i : nat) (item : json) : Result json :=
  if is_null item then TypeError
  else
    Ok (JObj
          [ ("_id",
             or_json (prop item "_id")
               (or_json (prop item "id") (JStr (resp_id i))));
            ("question",
             or_json (prop item "question")
               (or_json (message_content item 0)
                  (or_json (prop item "instruction") (JStr ""))));
            ("expected_answer",
             or_json (prop item "expected_answer")
               (or_json (prop item "expected")
                  (or_json (prop item "answer")
                     (or_json (message_content item 1)
                        (or_json (prop item "cot_answer") (JStr ""))))));
            ("model_response",
             or_json (prop item "model_response")
               (or_json (prop item "response")
                  (or_json (prop item "generated") (JStr ""))));
            ("_status", JStr "pending") ]).

Fixpoint normalize_from (i : nat) (responses : list json)
    : Result (list json) :=
  match responses with
  | [] => Ok []
  | item :: rest =>
      match normalize i item with
      | TypeError => TypeError
      | Ok first =>
          match normalize_from (S i) rest with
          | TypeError => TypeError
          | Ok others => Ok (first :: others)
          end
      end
  end.

Inductive LoadOutcome :=
| NoFile
| LoadAlerted (message : string)
| Loaded (modelResponses evalResults : list json) (notification : string).

(** [handleLoadResponses] with the reader's [onload].  [parse] is
    [JSON.parse]; [typeError] is the message of the error raised by
    reading a property of [null]. *)
Definition handleLoadResponses (parse : string -> string + json)
    (typeError : string) (file : option (string * string)) : LoadOutcome :=
  match file with
  | None => NoFile
  | Some (name, content) =>
      match json_data parse name content with
      | inl message => LoadAlerted ("Failed to load responses: " +:+ message)
      | inr responses =>
          match normalize_from 0 responses with
          | TypeError =>
              LoadAlerted ("Failed to load responses: " +:+ typeError)
          | Ok normalized =>
              Loaded normalized []
                ("Loaded " +:+ JS.string_of_nat (length normalized) +:+
                 " model responses")
          end
      end
  end.

End Responses.

(* ================================================================== *)
(** ** Predicates and inputs used in the statements                     *)
(* ================================================================== *)

Definition NL : string := String Csv.LF "".

(** A field wrapped in double quotes, for writing inputs. *)
Definition quoted (s : string) : string :=
  String Csv.DQUOTE (s +:+ String Csv.DQUOTE "").

(** A parsed row with at least one non-empty field. *)
Definition good_row (row : list string) : Prop := Csv.some_nonempty row = true.

(** A string that trimming leaves unchanged. *)
Definition trimmed (f : string) : Prop := JS.trim f = f.

(** A value that is empty or one of the fields of a row. *)
Definition from_fields (values : list string) (v : string) : Prop :=
  v = "" \/ v ∈ values.

(** The text holds neither a line feed nor a carriage return. *)
Fixpoint no_line_break (s : string) : bool :=
  match s with
  | EmptyString => true
  | String c r =>
      (negb (Ascii.eqb c Csv.LF) && negb (Ascii.eqb c Csv.CR)
       && no_line_break r)%bool
  end.

(** The header names the row loop of [csvToJson] works with. *)
Definition headers_of (csvText : string) : list string :=
  map (fun h => JS.remove_quotes (JS.toLowerCase h))
      (default [] (Csv.parseCSV csvText !! 0%nat)).

(** A header line and two quoted rows, the second with a line break
    inside its first field. *)
Definition csv_multiline : string :=
  "question,answer" +:+ NL +:+
  quoted "What is X?" +:+ "," +:+ quoted "X is Y" +:+ NL +:+
  quoted ("Multi" +:+ NL +:+ "line Q") +:+ "," +:+ quoted "Short A".

(** A header line followed by a row whose second field is empty. *)
Definition csv_empty_answer : string := "question,answer" +:+ NL +:+ "hello,".

(** A single data line without a header line. *)
Definition csv_single_line : string := "What is X?,X is Y".

(** A decimal digit, and a string of decimal digits. *)
Definition is_decimal (c : ascii) : bool :=
  let n := nat_of_ascii c in ((48 <=? n) && (n <=? 57))%nat.

Fixpoint all_decimal (s : string) : bool :=
  match s with
  | EmptyString => true
  | String c r => (is_decimal c && all_decimal r)%bool
  end.

(** A document that is not tagged as the oracle. *)
Definition not_oracle (d : Raft.Doc) : Prop := Raft.is_oracle d = false.

(** Two accepted chat items, a configuration and random choices used to
    run the synthesis: the sorts reverse their input, and the draw is
    one half or nine tenths. *)
Definition chat_item (name q a : string) : Raft.Item :=
  {| Raft.messages := Some [ {| Csv.role := "user"; Csv.content := q |};
                             {| Csv.role := "assistant"; Csv.content := a |} ];
     Raft.question := None; Raft.instruction := None; Raft.answer := None;
     Raft.cot_answer := None; Raft._id := Some name |}.

Definition two_items : list Raft.Item :=
  [ chat_item "item_1" "What is X?" "X is Y";
    chat_item "item_2" "What is Z?" "Z is W" ].

Definition default_raftConfig : Raft.RaftConfig :=
  {| Raft.numDistractors := 3; Raft.oracleProbability := 8 # 10 |}.

Definition reversing (draw : Q) : Raft.Random :=
  {| Raft.shuffle_items := @rev Raft.Item; Raft.draw := draw;
     Raft.shuffle_docs := @rev Raft.Doc |}.

Definition no_search : Raft.SearchResult :=
  {| Raft.success := false; Raft.documents := [] |}.

(** The four judge replies of the parser scenario. *)
Definition reply_first_line : string := "4" +:+ NL +:+ "Good answer".
Definition reply_rating : string := "Some preamble. Rating: 2. Needs work.".
Definition reply_bare : string := "3".
Definition reply_no_signal : string := "no numeric signal here".

(** A run of colons and white space. *)
Fixpoint all_sep (s : string) : bool :=
  match s with
  | EmptyString => true
  | String c r => (Judge.is_sep c && all_sep r)%bool
  end.

(** A text the rating pattern matches in full, capturing [d]: the word in
    any case, a non-empty run of separators, and the digit. *)
Definition rating_text (m : string) (d : ascii) : Prop :=
  exists word run,
    m = word +:+ run +:+ String d "" /\
    Judge.prefix_ci "rating" word = Some (word, "") /\
    run <> "" /\ all_sep run = true /\ Judge.is_digit15 d = true.

(** What the ladder of the judge parser promises for one output: the
    rung that decides it is the first that applies, and the score and the
    explanation are the ones of that rung. *)
Definition ladder_holds (output : string) : Prop :=
  let firstLine :=
    JS.trim (default "" (JS.split_lines (JS.trim output) !! 0%nat)) in
  match Judge.rung output with
  | Judge.FirstLine =>
      exists d, Judge.single_digit firstLine = Some d /\
                firstLine = String d "" /\
                Judge.is_digit15 d = true /\
                Judge.score (Judge.parseJudgeOutput output)
                  = Judge.parseInt_digit d
  | Judge.RatingPattern =>
      Judge.single_digit firstLine = None /\
      exists m d pre post,
        Judge.rating_match output = Some (m, d) /\
        rating_text m d /\
        output = pre +:+ m +:+ post /\
        Judge.parseJudgeOutput output =
          {| Judge.score := Judge.parseInt_digit d;
             Judge.explanation := JS.trim post |}
  | Judge.EarlyDigit =>
      Judge.single_digit firstLine = None /\
      Judge.rating_match output = None /\
      exists d, Judge.first_digit15 (JS.slice0 50 output) = Some d /\
                Judge.parseJudgeOutput output =
                  {| Judge.score := Judge.parseInt_digit d;
                     Judge.explanation := output |}
  | Judge.Default =>
      Judge.single_digit firstLine = None /\
      Judge.rating_match output = None /\
      Judge.first_digit15 (JS.slice0 50 output) = None /\
      Judge.parseJudgeOutput output =
        {| Judge.score := 3; Judge.explanation := output |}
  end.

(** A response to evaluate and a configured judge. *)
Definition sample_response (name : string) : Evaluation.Response :=
  {| Evaluation._id := name;
     Evaluation.question := "What is X?";
     Evaluation.expected_answer := "X is Y";
     Evaluation.model_response := "X is Z" |}.

Definition configured (threshold : Q) : Evaluation.EvalConfig :=
  {| Evaluation.judgeEndpoint := "endpoint"; Evaluation.judgeApiKey := "key";
     Evaluation.scoreThreshold := threshold |}.

(** A judge whose call times out on the record at index 1 and answers
    with a bare 4 on the others. *)
Definition flaky_judge (i : nat) (item : Evaluation.Response)
    : Evaluation.JudgeOutcome :=
  if Nat.eqb i 1 then Evaluation.Throws "timeout"
  else Evaluation.Replies (Evaluation.OutString "4").

(** The identifier of an evaluation result. *)
Definition result_id (r : Evaluation.EvalResult) : string :=
  Evaluation._id (Evaluation.source r).

(** Evaluation results with a given status, for the review queue. *)
Definition result_with (name status : string) (corrected : option string)
    : Evaluation.EvalResult :=
  {| Evaluation.source := sample_response name;
     Evaluation._evalScore := 25 # 100;
     Evaluation._rawScore := 2;
     Evaluation._evalExplanation := "Mostly incorrect";
     Evaluation._status := status;
     Evaluation._correctedAnswer := corrected |}.

(** A queue of two flagged records with the cursor on the first. *)
Definition two_flagged : Review.State :=
  {| Review.evalResults := [ result_with "resp_0" "flagged" None;
                             result_with "resp_1" "flagged" None ];
     Review.flaggedIndex := 0 |}.

(** One corrected and one flagged record. *)
Definition corrected_and_flagged : list Evaluation.EvalResult :=
  [ result_with "resp_0" "corrected" (Some "X is Y indeed");
    result_with "resp_1" "flagged" None ].

(** Review stores: an empty one, and one with two pending records and
    the cursor on the second. *)
Definition pending_record (name q a : string) : Store.json :=
  Store.JObj
    [ ("messages",
       Store.JArr
         [ Store.JObj [("role", Store.JStr "user"); ("content", Store.JStr q)];
           Store.JObj [("role", Store.JStr "assistant");
                       ("content", Store.JStr a)] ]);
      ("_id", Store.JStr name);
      ("_status", Store.JStr "pending") ].

Definition empty_store : Store.State :=
  {| Store.trainingData := []; Store.fileInfo := Store.JNull;
     Store.currentIndex := 0; Store.editMode := false;
     Store.editedAnswer := "" |}.

Definition two_record_store : Store.State :=
  {| Store.trainingData := [ pending_record "item_0" "What is X?" "X is Y";
                             pending_record "item_1" "What is Z?" "Z is W" ];
     Store.fileInfo := Store.JNull;
     Store.currentIndex := 1; Store.editMode := false;
     Store.editedAnswer := "" |}.

Definition save_time : string := "2026-01-01T00:00:00.000Z".


(** A queue of two flagged records with the cursor on the second. *)
Definition two_flagged_at_last : Review.State :=
  {| Review.evalResults := Review.evalResults two_flagged;
     Review.flaggedIndex := 1 |}.

(** The text of the document built from an item. *)
Definition document_text (dataFormat : string) (item : Raft.Item) : string :=
  Raft.item_question dataFormat item +:+ Raft.NL +:+ Raft.NL +:+
  Raft.item_answer dataFormat item.

(** The remote search supplied distractors to iteration [j]. *)
Definition remote_used (connected : bool)
    (env : nat -> Raft.SearchResult * Raft.Random) (j : nat) : bool :=
  (connected && Raft.success (fst (env j))
   && (0 <? length (Raft.documents (fst (env j))))%nat)%bool.

(** The number of passages the remote search offers to an iteration. *)
Definition remote_offer (connected : bool) (search : Raft.SearchResult) : nat :=
  if (connected && Raft.success search)%bool
  then length (Raft.documents search) else 0.

(** Three accepted items, and an environment in which only iteration 1
    gets a remote passage. *)
Definition three_items : list Raft.Item :=
  two_items ++ [chat_item "item_3" "What is U?" "U is V"].

Definition one_passage : Raft.SearchResult :=
  {| Raft.success := true;
     Raft.documents := [ {| Raft.p_id := "wv_1";
                            Raft.p_content := "An unrelated passage" |} ] |}.

Definition search_at_one (j : nat) : Raft.SearchResult * Raft.Random :=
  (if Nat.eqb j 1 then one_passage else no_search, reversing (9 # 10)).

(** Writing a table as CSV text with every field quoted: a quote inside
    a field is doubled, fields are joined by commas and rows by the line
    ending. *)
Fixpoint escape_quotes (f : string) : string :=
  match f with
  | EmptyString => EmptyString
  | String c r =>
      if Ascii.eqb c Csv.DQUOTE
      then String Csv.DQUOTE (String Csv.DQUOTE (escape_quotes r))
      else String c (escape_quotes r)
  end.

Definition quote_field (f : string) : string :=
  String Csv.DQUOTE (escape_quotes f +:+ String Csv.DQUOTE "").

Fixpoint render_row (fields : list string) : string :=
  match fields with
  | [] => ""
  | [f] => quote_field f
  | f :: rest => quote_field f +:+ String Csv.COMMA (render_row rest)
  end.

Fixpoint render_rows (eol : string) (rows : list (list string)) : string :=
  match rows with
  | [] => ""
  | [r] => render_row r
  | r :: rest => render_row r +:+ eol +:+ render_rows eol rest
  end.

(** The three line endings the parser knows. *)
Definition line_ending (eol : string) : Prop :=
  eol = String Csv.LF "" \/
  eol = String Csv.CR (String Csv.LF "") \/
  eol = String Csv.CR "".

(** The text is empty or does not start with a double quote. *)
Definition no_quote_head (s : string) : bool :=
  match s with
  | EmptyString => true
  | String c _ => negb (Ascii.eqb c Csv.DQUOTE)
  end.

(** A table with a comma, a quote and a line break inside its fields. *)
Definition tricky_table : list (list string) :=
  [ ["question"; "answer"];
    ["Who said " +:+ quoted "hi" +:+ ", and when?"; "  Nobody  "];
    ["Two" +:+ NL +:+ "lines"; ""] ].

(** The column names that can hold the question and the answer. *)
Definition question_aliases : list string := ["question"; "prompt"; "input"; "q"].
Definition answer_aliases : list string := ["answer"; "response"; "output"; "a"].

(** [i] is the last position of [name] among the headers. *)
Definition last_position (headers : list string) (name : string) (i : nat)
    : Prop :=
  headers !! i = Some name /\
  forall k, i < k -> headers !! k <> Some name.

(** A file whose answer column comes first. *)
Definition csv_answer_first : string :=
  "Answer,Notes,QUESTION" +:+ NL +:+ "X is Y,checked,What is X?".

(** Records as they arrive from a file: a chat record without internal
    fields, one that already has an id, and a bare string. *)
Definition chat_record (question answer : string) : Store.json :=
  Store.JObj
    [ ("messages",
       Store.JArr
         [ Store.JObj [ ("role", Store.JStr "user");
                        ("content", Store.JStr question) ];
           Store.JObj [ ("role", Store.JStr "assistant");
                        ("content", Store.JStr answer) ] ]) ].

Definition identified_record : Store.json :=
  Store.JObj [ ("question", Store.JStr "Q"); ("answer", Store.JStr "A");
               ("_id", Store.JStr "row-7") ].

Definition incoming_records : list Store.json :=
  [ chat_record "What is X?" "X is Y"; identified_record;
    Store.JStr "note" ].

Definition fixed_clock (t : nat) : nat -> nat := fun _ => t.

(** A record under review with a given status. *)
Definition reviewed_record (id status question answer : string)
    : Store.json :=
  Store.JObj [ ("question", Store.JStr question);
               ("answer", Store.JStr answer);
               ("_id", Store.JStr id); ("_status", Store.JStr status) ].

Definition review_records : list Store.json :=
  [ reviewed_record "a" "pending" "Q1" "A1";
    reviewed_record "b" "edited" "Q2" "A2";
    reviewed_record "c" "pending" "Q3" "A3" ].

Definition review_state (cursor : Z) (editing : bool) (edit : string)
    : Store.State :=
  {| Store.trainingData := review_records;
     Store.fileInfo := Store.JNull;
     Store.currentIndex := cursor;
     Store.editMode := editing;
     Store.editedAnswer := edit |}.

(** The status of an item is one of the four the review uses. *)
Definition known_status (item : Store.json) : bool :=
  DataReview.status_is "pending" item || DataReview.status_is "accepted" item
  || DataReview.status_is "edited" item
  || DataReview.status_is "rejected" item.

(** Every record has a known status and the cursor is on a record. *)
Definition reviewable (st : Store.State) : bool :=
  forallb known_status (Store.trainingData st)
  && (0 <=? Store.currentIndex st)%Z
  && (Store.currentIndex st <? Z.of_nat (length (Store.trainingData st)))%Z.

(** One decision of the reviewer on the current record, and a run of
    decisions. *)
Definition decide (st : Store.State) (accept : bool) : Store.State :=
  if accept then DataReview.handleAccept st else DataReview.handleReject st.

Definition review (decisions : list bool) (st : Store.State) : Store.State :=
  fold_left decide decisions st.

Definition decided (item : Store.json) (accept : bool) : Store.json :=
  DataReview.with_status (Some item)
    (if accept then "accepted" else "rejected").

Definition is_object (v : Store.json) : bool :=
  match v with Store.JObj _ => true | _ => false end.

(** [item._status === 'accepted' || item._status === 'edited'] *)
Definition kept_for_export (item : Store.json) : bool :=
  DataReview.status_is "accepted" item || DataReview.status_is "edited" item.

(** A record that has both a short and a reasoned answer, under edit. *)
Definition two_answers_record : Store.json :=
  Store.JObj [ ("instruction", Store.JStr "Q");
               ("answer", Store.JStr "short");
               ("cot_answer", Store.JStr "long") ].

Definition two_answers_state : Store.State :=
  {| Store.trainingData := [two_answers_record];
     Store.fileInfo := Store.JNull;
     Store.currentIndex := 0;
     Store.editMode := true;
     Store.editedAnswer := "" |}.

(** What Accept All leaves in place of an object. *)
Definition accepted_if_pending (item : Store.json) : Store.json :=
  if DataReview.status_is "pending" item
  then DataReview.with_status (Some item) "accepted"
  else item.

(** The records a run of decisions accepts, as they are exported. *)
Definition accepted_exports (data : list Store.json) (decisions : list bool)
    : list Store.json :=
  map (fun p => DataReview.strip (decided p.1 true))
    (List.filter snd (zip data decisions)).

(** A value under [||] that lets the next alternative through. *)
Definition falsy (v : option Store.json) : bool :=
  match v with
  | Some x => negb (Store.truthy x)
  | None => true
  end.

(** A responses file with two records, given as the outcome of parsing
    it. *)
Definition parsed_responses : Store.json :=
  Store.JArr
    [ Store.JObj [ ("id", Store.JStr "r-1");
                   ("question", Store.JStr "Q1");
                   ("expected", Store.JStr "E1");
                   ("response", Store.JStr "M1");
                   ("_status", Store.JStr "flagged") ];
      chat_record "Q2" "E2" ].

Definition parse_responses : string -> string + Store.json :=
  fun _ => inr parsed_responses.

(* ================================================================== *)
(** * Properties                                                        *)
(* ================================================================== *)

(** ** Strings *)

Lemma truthy_nonempty (s : string) : JS.truthy s = true <-> s <> "".
Proof. destruct s; simpl; split; congruence. Qed.

Lemma or_else_truthy (o : option string) (d : string) :
  JS.truthy d = true -> JS.truthy (JS.or_else o d) = true.
Proof.
  intros Hd. destruct o as [s|]; simpl; [|exact Hd].
  destruct (JS.truthy s) eqn:Hs; [exact Hs | exact Hd].
Qed.

(** Induction on a string for loops that consume one or two characters
    per iteration. *)
Lemma string_ind_skip (P : string -> Prop) :
  P "" ->
  (forall c s, P s -> (forall c' s', s = String c' s' -> P s') ->
               P (String c s)) ->
  forall s, P s.
Proof.
  intros H0 Hstep s.
  assert (H : P s /\ (forall c' s', s = String c' s' -> P s')).
  { induction s as [|c s [IH1 IH2]].
    - split; [exact H0 | intros c' s' E; discriminate E].
    - split.
      + apply Hstep; assumption.
      + intros c' s' E. injection E as _ ->. exact IH1. }
  exact (proj1 H).
Qed.

(** ** The CSV parser keeps only rows with a non-empty field *)

Lemma close_row_good rows currentRow currentField :
  Forall good_row rows ->
  Forall good_row (Csv.close_row rows currentRow currentField).
Proof.
  intros H. unfold Csv.close_row.
  destruct (Csv.some_nonempty (currentRow ++ [JS.trim currentField])) eqn:E;
    [|exact H].
  apply Forall_app. split; [exact H|]. constructor; [exact E | constructor].
Qed.

Lemma parse_loop_good s :
  forall rows currentRow currentField inQuotes,
    Forall good_row rows ->
    Forall good_row
      (Csv.parse_loop s rows currentRow currentField inQuotes).1.1.
Proof.
  induction s as [|c s IH IH2] using string_ind_skip;
    intros rows cr cf q Hrows; [exact Hrows|].
  simpl.
  destruct (Ascii.eqb c Csv.DQUOTE).
  { destruct s as [|n s'].
    - simpl. exact Hrows.
    - destruct (q && Ascii.eqb n Csv.DQUOTE)%bool.
      + apply (IH2 n s' eq_refl). exact Hrows.
      + apply IH. exact Hrows. }
  destruct (Ascii.eqb c Csv.COMMA && negb q)%bool; [apply IH; exact Hrows|].
  destruct (Ascii.eqb c Csv.LF && negb q)%bool;
    [apply IH, close_row_good, Hrows|].
  destruct (Ascii.eqb c Csv.CR && negb q)%bool; [|apply IH; exact Hrows].
  destruct s as [|n s'].
  - simpl. apply close_row_good, Hrows.
  - destruct (Ascii.eqb n Csv.LF).
    + apply (IH2 n s' eq_refl), close_row_good, Hrows.
    + apply IH, close_row_good, Hrows.
Qed.

Lemma parseCSV_good (csvText : string) :
  Forall good_row (Csv.parseCSV csvText).
Proof.
  unfold Csv.parseCSV.
  pose proof (parse_loop_good csvText [] [] "" false (List.Forall_nil _)) as H.
  destruct (Csv.parse_loop csvText [] [] "" false) as [[rows cr] cf].
  simpl in H.
  destruct (JS.truthy cf || (0 <? length cr)%nat)%bool;
    [apply close_row_good, H | exact H].
Qed.

(** ** Trimming is idempotent, and parsed fields are trimmed *)

Lemma trimEnd_idem (s : string) : JS.trimEnd (JS.trimEnd s) = JS.trimEnd s.
Proof.
  induction s as [|c r IH]; [reflexivity|]. cbn [JS.trimEnd].
  destruct (JS.trimEnd r) as [|d r'] eqn:E.
  - destruct (JS.is_ws c) eqn:Hc; cbn; [reflexivity | rewrite Hc; reflexivity].
  - cbn [JS.trimEnd] in *. rewrite IH. reflexivity.
Qed.

Lemma trimEnd_keeps_head (c : ascii) (r : string) :
  JS.is_ws c = false -> exists r', JS.trimEnd (String c r) = String c r'.
Proof.
  intros Hc. cbn [JS.trimEnd].
  destruct (JS.trimEnd r); [rewrite Hc|]; eauto.
Qed.

Lemma trimStart_head (s : string) :
  JS.trimStart s = "" \/
  exists c r, JS.trimStart s = String c r /\ JS.is_ws c = false.
Proof.
  induction s as [|c r IH]; [left; reflexivity|]. cbn [JS.trimStart].
  destruct (JS.is_ws c) eqn:Hc; [exact IH | right; eauto].
Qed.

Lemma trim_idem (s : string) : JS.trim (JS.trim s) = JS.trim s.
Proof.
  unfold JS.trim.
  destruct (trimStart_head s) as [E | (c & r & E & Hc)]; rewrite E.
  - reflexivity.
  - destruct (trimEnd_keeps_head c r Hc) as [r' E'].
    rewrite E'. cbn [JS.trimStart]. rewrite Hc, <- E'. apply trimEnd_idem.
Qed.

Lemma close_row_trimmed rows currentRow currentField :
  Forall (Forall trimmed) rows -> Forall trimmed currentRow ->
  Forall (Forall trimmed) (Csv.close_row rows currentRow currentField).
Proof.
  intros Hrows Hrow. unfold Csv.close_row.
  destruct (Csv.some_nonempty _); [|exact Hrows].
  apply Forall_app. split; [exact Hrows|].
  constructor; [|constructor].
  apply Forall_app. split; [exact Hrow|].
  constructor; [apply trim_idem | constructor].
Qed.

Lemma parse_loop_trimmed s :
  forall rows currentRow currentField inQuotes,
    Forall (Forall trimmed) rows -> Forall trimmed currentRow ->
    Forall (Forall trimmed)
      (Csv.parse_loop s rows currentRow currentField inQuotes).1.1 /\
    Forall trimmed
      (Csv.parse_loop s rows currentRow currentField inQuotes).1.2.
Proof.
  induction s as [|c s IH IH2] using string_ind_skip;
    intros rows cr cf q Hrows Hrow; [split; assumption|].
  assert (Hpush : Forall trimmed (cr ++ [JS.trim cf])).
  { apply Forall_app. split; [exact Hrow|].
    constructor; [apply trim_idem | constructor]. }
  pose proof (close_row_trimmed rows cr cf Hrows Hrow) as Hclose.
  pose proof (List.Forall_nil trimmed) as Hnil.
  cbn [Csv.parse_loop].
  destruct (Ascii.eqb c Csv.DQUOTE).
  { destruct s as [|n s'].
    - cbn. split; assumption.
    - destruct (q && Ascii.eqb n Csv.DQUOTE)%bool.
      + apply (IH2 n s' eq_refl); assumption.
      + apply IH; assumption. }
  destruct (Ascii.eqb c Csv.COMMA && negb q)%bool; [apply IH; assumption|].
  destruct (Ascii.eqb c Csv.LF && negb q)%bool; [apply IH; assumption|].
  destruct (Ascii.eqb c Csv.CR && negb q)%bool; [|apply IH; assumption].
  destruct s as [|n s'].
  - cbn. split; assumption.
  - destruct (Ascii.eqb n Csv.LF).
    + apply (IH2 n s' eq_refl); assumption.
    + apply IH; assumption.
Qed.

Lemma parseCSV_trimmed (csvText : string) :
  Forall (Forall trimmed) (Csv.parseCSV csvText).
Proof.
  unfold Csv.parseCSV.
  destruct (parse_loop_trimmed csvText [] [] "" false
              (List.Forall_nil _) (List.Forall_nil _)) as [H1 H2].
  destruct (Csv.parse_loop csvText [] [] "" false) as [[rows cr] cf].
  cbn in H1, H2.
  destruct (JS.truthy cf || (0 <? length cr)%nat)%bool;
    [apply close_row_trimmed; assumption | exact H1].
Qed.

(** Every value stored in the row object is empty or a field of the
    row. *)
Lemma fill_row_from_fields (values : list string) headers :
  forall idx (row : gmap string string) k v,
    (forall k' v', row !! k' = Some v' -> from_fields values v') ->
    Csv.fill_row headers idx values row !! k = Some v ->
    from_fields values v.
Proof.
  induction headers as [|h hs IH]; intros idx row k v Hrow Hk;
    cbn [Csv.fill_row] in Hk; [exact (Hrow _ _ Hk)|].
  apply (IH _ _ _ _) in Hk; [exact Hk|].
  intros k' v' Hk'. apply lookup_insert_Some in Hk' as [[_ <-] | [_ Hk']];
    [|exact (Hrow _ _ Hk')].
  destruct (values !! idx) as [f|] eqn:Ef; cbn; [|left; reflexivity].
  destruct (JS.truthy f); [|left; reflexivity].
  right. exact (list_elem_of_lookup_2 _ _ _ Ef).
Qed.

Lemma or_else_from_fields values (row : gmap string string) k d :
  (forall k' v', row !! k' = Some v' -> from_fields values v') ->
  from_fields values d ->
  from_fields values (JS.or_else (row !! k) d).
Proof.
  intros Hrow Hd. destruct (row !! k) as [v|] eqn:E; cbn; [|exact Hd].
  destruct (JS.truthy v); [exact (Hrow _ _ E) | exact Hd].
Qed.

Lemma nth_field_from_fields values i :
  from_fields values (Csv.nth_field values i).
Proof.
  unfold Csv.nth_field. destruct (values !! i) as [f|] eqn:E; cbn.
  - right. exact (list_elem_of_lookup_2 _ _ _ E).
  - left. reflexivity.
Qed.

Lemma from_fields_trimmed values v :
  Forall trimmed values -> from_fields values v -> trimmed v.
Proof.
  intros H [-> | Hin]; [reflexivity|].
  rewrite Forall_forall in H. exact (H _ Hin).
Qed.

Lemma convert_row_sharegpt_trimmed headers values r :
  Forall trimmed values ->
  Csv.convert_row "sharegpt" headers values = Some r ->
  trimmed (Csv.question_of r) /\ trimmed (Csv.answer_of r).
Proof.
  intros Hv. unfold Csv.convert_row.
  change (String.eqb "sharegpt" "sharegpt") with true. cbv iota.
  intros [= <-]. cbn [Csv.question_of Csv.answer_of].
  assert (Hrow : forall k' v',
             Csv.fill_row headers 0 values ∅ !! k' = Some v' ->
             from_fields values v').
  { intros k' v' Hk. apply (fill_row_from_fields _ _ _ _ _ _) in Hk;
      [exact Hk|]. intros k0 v0 H0. rewrite lookup_empty in H0. discriminate. }
  split; apply (from_fields_trimmed values _ Hv); cbn;
    repeat apply or_else_from_fields; try exact Hrow;
    apply nth_field_from_fields.
Qed.

(** ** The row loop of the converter *)

Lemma convert_row_sharegpt headers values r :
  Csv.convert_row "sharegpt" headers values = Some r ->
  (Csv.nth_field values 0 <> "" -> Csv.question_of r <> "") /\
  (Csv.nth_field values 1 <> "" -> Csv.answer_of r <> "").
Proof.
  unfold Csv.convert_row.
  change (String.eqb "sharegpt" "sharegpt") with true. cbv iota.
  intros [= <-]. cbn [Csv.question_of Csv.answer_of].
  split; intros H; apply truthy_nonempty; cbn;
    repeat apply or_else_truthy; apply truthy_nonempty, H.
Qed.

Lemma row_loop_sharegpt headers data :
  forall acc,
  exists rs,
    Csv.row_loop "sharegpt" headers data acc = acc ++ rs /\
    Forall2 (fun values r =>
               2 <= length values /\
               Csv.convert_row "sharegpt" headers values = Some r)
      (filter (fun v : list string => 2 <= length v) data) rs.
Proof.
  induction data as [|values more IH]; intros acc.
  - exists []. split; [symmetry; apply app_nil_r | constructor].
  - cbn [Csv.row_loop].
    destruct (length values <? 2)%nat eqn:Hlen.
    + apply Nat.ltb_lt in Hlen.
      destruct (IH acc) as (rs & E & F). exists rs. split; [exact E|].
      rewrite filter_cons_False by lia. exact F.
    + apply Nat.ltb_ge in Hlen.
      destruct (Csv.convert_row "sharegpt" headers values) as [r|] eqn:Hc.
      * destruct (IH (acc ++ [r])) as (rs & E & F). exists (r :: rs).
        split; [rewrite E, <- app_assoc; reflexivity|].
        rewrite filter_cons_True by lia. constructor; [split|]; assumption.
      * unfold Csv.convert_row in Hc.
        change (String.eqb "sharegpt" "sharegpt") with true in Hc.
        discriminate Hc.
Qed.

Lemma row_loop_length format headers data :
  forall acc,
    length (Csv.row_loop format headers data acc) <= length acc + length data.
Proof.
  induction data as [|values more IH]; intros acc; cbn [Csv.row_loop length].
  - lia.
  - destruct (length values <? 2)%nat.
    + specialize (IH acc). lia.
    + destruct (Csv.convert_row format headers values).
      * specialize (IH (acc ++ [c])). rewrite length_app in IH.
        cbn [length] in IH. lia.
      * specialize (IH acc). lia.
Qed.

(** ** A text without line breaks parses to at most one row *)

Lemma parse_loop_single_line s :
  forall rows currentRow currentField inQuotes,
    no_line_break s = true ->
    (Csv.parse_loop s rows currentRow currentField inQuotes).1.1 = rows.
Proof.
  induction s as [|c s IH IH2] using string_ind_skip;
    intros rows cr cf q Hs; [reflexivity|].
  cbn [no_line_break] in Hs.
  apply andb_prop in Hs as [Hc Hs]. apply andb_prop in Hc as [Hlf Hcr].
  apply negb_true_iff in Hlf, Hcr.
  cbn [Csv.parse_loop]. rewrite Hlf, Hcr. cbn [andb].
  destruct (Ascii.eqb c Csv.DQUOTE).
  { destruct s as [|n s'].
    - reflexivity.
    - destruct (q && Ascii.eqb n Csv.DQUOTE)%bool.
      + apply (IH2 n s' eq_refl).
        cbn [no_line_break] in Hs. apply andb_prop in Hs as [_ Hs]. exact Hs.
      + apply IH. exact Hs. }
  destruct (Ascii.eqb c Csv.COMMA && negb q)%bool; apply IH; exact Hs.
Qed.

Lemma close_row_length rows currentRow currentField :
  length (Csv.close_row rows currentRow currentField) <= S (length rows).
Proof.
  unfold Csv.close_row.
  destruct (Csv.some_nonempty _); [rewrite length_app; cbn; lia | lia].
Qed.

Lemma single_line_at_most_one_row (csvText : string) :
  no_line_break csvText = true -> length (Csv.parseCSV csvText) < 2.
Proof.
  intros Hs. unfold Csv.parseCSV.
  pose proof (parse_loop_single_line csvText [] [] "" false Hs) as H.
  destruct (Csv.parse_loop csvText [] [] "" false) as [[rows cr] cf].
  cbn in H. subst rows.
  destruct (JS.truthy cf || (0 <? length cr)%nat)%bool.
  - pose proof (close_row_length [] cr cf). cbn [length] in *. lia.
  - cbn. lia.
Qed.

(** ** Imported records *)

Lemma Forall2_with_left {A B} (P : A -> Prop) (R : A -> B -> Prop) l k :
  Forall P l -> Forall2 R l k -> Forall2 (fun a b => P a /\ R a b) l k.
Proof.
  intros HP HR. induction HR as [|a b l k Hab HR IH]; [constructor|].
  inversion HP as [|? ? Ha Hl]; subst.
  constructor; [split; assumption | exact (IH Hl)].
Qed.

(** C3 (as amended).  The records the importer emits are, in order, the
    parsed rows after the header that have at least two fields; a parsed
    row always has a non-empty field, its fields are trimmed, and a row
    with fewer than two fields yields no record.  The question and the
    answer of a record are trimmed; the question is non-empty when the
    first field of its row is, and the answer is non-empty when the
    second field is. *)
Theorem csv_records_from_rows (csvText : string) :
  Forall good_row (Csv.parseCSV csvText) /\
  Forall (Forall trimmed) (Csv.parseCSV csvText) /\
  Forall2
    (fun values r =>
       2 <= length values /\
       Csv.convert_row "sharegpt" (headers_of csvText) values = Some r /\
       trimmed (Csv.question_of r) /\ trimmed (Csv.answer_of r) /\
       (Csv.nth_field values 0 <> "" -> Csv.question_of r <> "") /\
       (Csv.nth_field values 1 <> "" -> Csv.answer_of r <> ""))
    (filter (fun v : list string => 2 <= length v)
            (drop 1 (Csv.parseCSV csvText)))
    (Csv.csvToJson csvText "sharegpt").
Proof.
  split; [apply parseCSV_good|]. split; [apply parseCSV_trimmed|].
  pose proof (parseCSV_trimmed csvText) as Htrim.
  unfold Csv.csvToJson, headers_of.
  destruct (Csv.parseCSV csvText) as [|header data]; [constructor|].
  destruct data as [|d data]; [constructor|].
  cbn [length Nat.ltb Nat.leb drop lookup list_lookup default].
  destruct (row_loop_sharegpt
              (map (fun h => JS.remove_quotes (JS.toLowerCase h)) header)
              (d :: data) []) as (rs & E & F).
  rewrite E. cbn [app].
  assert (Hdata : Forall (Forall trimmed)
            (filter (fun v : list string => 2 <= length v) (d :: data))).
  { apply Forall_forall. intros v Hv.
    apply list_elem_of_filter in Hv as [_ Hv].
    rewrite Forall_forall in Htrim. apply Htrim. right. exact Hv. }
  eapply Forall2_impl; [exact (Forall2_with_left _ _ _ _ Hdata F)|].
  intros values r (Hv & Hlen & Hc).
  split; [exact Hlen|]. split; [exact Hc|].
  destruct (convert_row_sharegpt_trimmed _ _ _ Hv Hc) as [Hq Ha].
  split; [exact Hq|]. split; [exact Ha|].
  exact (convert_row_sharegpt _ _ _ Hc).
Qed.

(** A quoted field keeps its line break and stays in one row. *)
Example csv_multiline_two_records :
  Csv.csvToJson csv_multiline "sharegpt" =
    [ Csv.ShareGPT [ {| Csv.role := "user"; Csv.content := "What is X?" |};
                     {| Csv.role := "assistant"; Csv.content := "X is Y" |} ];
      Csv.ShareGPT [ {| Csv.role := "user";
                        Csv.content := "Multi" +:+ NL +:+ "line Q" |};
                     {| Csv.role := "assistant"; Csv.content := "Short A" |} ] ].
Proof. vm_compute. reflexivity. Qed.

(** C3, counterexample.  A row with two fields of which only the first
    is non-empty is not dropped: it becomes a record whose answer is
    empty. *)
Lemma csv_empty_answer_is_emitted :
  Csv.parseCSV csv_empty_answer = [["question"; "answer"]; ["hello"; ""]] /\
  Csv.csvToJson csv_empty_answer "sharegpt" =
    [ Csv.ShareGPT [ {| Csv.role := "user"; Csv.content := "hello" |};
                     {| Csv.role := "assistant"; Csv.content := "" |} ] ] /\
  ~ (forall r, r ∈ Csv.csvToJson csv_empty_answer "sharegpt" ->
               Csv.question_of r <> "" /\ Csv.answer_of r <> "").
Proof.
  assert (E : Csv.csvToJson csv_empty_answer "sharegpt" =
    [ Csv.ShareGPT [ {| Csv.role := "user"; Csv.content := "hello" |};
                     {| Csv.role := "assistant"; Csv.content := "" |} ] ])
    by (vm_compute; reflexivity).
  split; [vm_compute; reflexivity|]. split; [exact E|].
  intros H. rewrite E in H.
  destruct (H _ (list_elem_of_here _ _)) as [_ Ha]. apply Ha. reflexivity.
Qed.

Lemma csv_fewer_than_two_rows (csvText format : string) :
  length (Csv.parseCSV csvText) < 2 -> Csv.csvToJson csvText format = [].
Proof.
  intros H. unfold Csv.csvToJson. apply Nat.ltb_lt in H. rewrite H. reflexivity.
Qed.

(** The records are fewer than the parsed rows, for every text. *)
Lemma csv_records_fewer_than_rows (csvText format : string) :
  length (Csv.csvToJson csvText format) <= length (Csv.parseCSV csvText) - 1.
Proof.
  unfold Csv.csvToJson.
  destruct (Csv.parseCSV csvText) as [|header data]; [cbn; lia|].
  destruct (length (header :: data) <? 2)%nat; [cbn; lia|].
  pose proof (row_loop_length format
    (map (fun h => JS.remove_quotes (JS.toLowerCase h)) header) data []) as H.
  cbn [length] in *. lia.
Qed.

(** An empty text or a single line imports nothing. *)
Lemma csv_single_line_imports_nothing (csvText format : string) :
  no_line_break csvText = true -> Csv.csvToJson csvText format = [].
Proof.
  intros H.
  exact (csv_fewer_than_two_rows csvText format
           (single_line_at_most_one_row csvText H)).
Qed.

(** The row loop pushes, in order, the conversion of every row that has
    two fields or more. *)
Lemma row_loop_converted format headers data :
  forall acc,
    Csv.row_loop format headers data acc
    = acc ++ omap (Csv.convert_row format headers)
               (filter (fun v : list string => 2 <= length v) data).
Proof.
  induction data as [|values more IH]; intros acc; cbn [Csv.row_loop].
  - symmetry. apply app_nil_r.
  - destruct (Nat.ltb_spec (length values) 2) as [Hlen|Hlen].
    + rewrite filter_cons_False by lia. apply IH.
    + rewrite filter_cons_True by lia. cbn [omap list_omap].
      destruct (Csv.convert_row format headers values) as [r|].
      * rewrite IH, <- app_assoc. reflexivity.
      * apply IH.
Qed.

(** C10.  The first parsed row is the header and never becomes a
    record, for every text and format: the records are the conversions
    of the rows after the first that have two fields or more, read under
    the column names of the first row, so there are always fewer records
    than parsed rows.  A text that parses to fewer than two rows imports
    nothing, and an empty text or a single line, even a well-formed
    question and answer line, parses to fewer than two rows. *)
Theorem csv_first_row_is_header (csvText format : string) :
  Csv.csvToJson csvText format
  = omap (Csv.convert_row format (headers_of csvText))
      (filter (fun v : list string => 2 <= length v)
         (drop 1 (Csv.parseCSV csvText))) /\
  length (Csv.csvToJson csvText format) <= length (Csv.parseCSV csvText) - 1 /\
  (length (Csv.parseCSV csvText) < 2 -> Csv.csvToJson csvText format = []) /\
  (no_line_break csvText = true ->
   length (Csv.parseCSV csvText) < 2 /\ Csv.csvToJson csvText format = []).
Proof.
  split; [|split; [apply csv_records_fewer_than_rows|split]].
  - unfold Csv.csvToJson, headers_of.
    destruct (Csv.parseCSV csvText) as [|header data]; [reflexivity|].
    destruct data as [|d data]; [reflexivity|].
    cbn [length Nat.ltb Nat.leb drop lookup list_lookup default].
    rewrite row_loop_converted. reflexivity.
  - exact (csv_fewer_than_two_rows csvText format).
  - intros H. split.
    + exact (single_line_at_most_one_row csvText H).
    + exact (csv_single_line_imports_nothing csvText format H).
Qed.

Lemma csv_first_row_is_header_witness :
  Csv.parseCSV csv_single_line = [["What is X?"; "X is Y"]] /\
  length (Csv.parseCSV csv_single_line) < 2 /\
  Csv.csvToJson csv_single_line "sharegpt" = [].
Proof.
  split; [vm_compute; reflexivity|].
  apply (proj2 (proj2 (proj2
           (csv_first_row_is_header csv_single_line "sharegpt")))).
  vm_compute. reflexivity.
Defined.

(** ** Decimal rendering and the answer template *)

Lemma string_of_uint_decimal (d : Decimal.uint) :
  all_decimal (NilEmpty.string_of_uint d) = true.
Proof. induction d; cbn; [reflexivity | assumption ..]. Qed.

Lemma string_of_nat_inj (n m : nat) :
  JS.string_of_nat n = JS.string_of_nat m -> n = m.
Proof.
  unfold JS.string_of_nat. intros H.
  apply Unsigned.to_uint_inj.
  assert (E : Some (Nat.to_uint n) = Some (Nat.to_uint m)).
  { rewrite <- !NilEmpty.usu. rewrite H. reflexivity. }
  congruence.
Qed.

Lemma append_cancel_l (a x y : string) : a +:+ x = a +:+ y -> x = y.
Proof.
  induction a as [|c a IH]; cbn; intros H; [exact H|].
  injection H as H. exact (IH H).
Qed.

(** Two runs of digits followed by the same non-digit are equal. *)
Lemma decimal_prefix_unique (a : string) :
  forall (b : string) (c : ascii) (x y : string),
    all_decimal a = true -> all_decimal b = true -> is_decimal c = false ->
    a +:+ String c x = b +:+ String c y -> a = b /\ x = y.
Proof.
  induction a as [|d a IH]; intros [|e b] c x y Ha Hb Hc H; cbn in *.
  - injection H as H. split; [reflexivity | exact H].
  - injection H as -> _. apply andb_prop in Hb as [Hb _]. congruence.
  - injection H as -> _. apply andb_prop in Ha as [Ha _]. congruence.
  - injection H as -> H.
    apply andb_prop in Ha as [_ Ha]. apply andb_prop in Hb as [_ Hb].
    destruct (IH b c x y Ha Hb Hc H) as [-> ->]. split; reflexivity.
Qed.


(** ** Distractors are never tagged as the oracle *)

Lemma fallback_loop_not_oracle dataFormat shuffled :
  forall i count,
    Forall not_oracle (Raft.fallback_loop dataFormat shuffled i count).
Proof.
  induction shuffled as [|item rest IH]; intros i [|k]; cbn;
    try constructor; [reflexivity | apply IH].
Qed.

Lemma fallback_not_oracle rnd allItems currentIndex numDistractors dataFormat :
  Forall not_oracle
    (Raft.createFallbackDistractors rnd allItems currentIndex numDistractors
       dataFormat).
Proof. apply fallback_loop_not_oracle. Qed.

Lemma distractors_not_oracle acceptedItems cfg connected search rnd i item :
  Forall not_oracle
    (Raft.s_distractors
       (Raft.synthesize acceptedItems cfg connected search rnd i item)).
Proof.
  assert (H0 : forall l : list Raft.Passage,
             Forall not_oracle
               (map (fun doc => {| Raft.id := Raft.p_id doc;
                                   Raft.content := Raft.p_content doc;
                                   Raft.is_oracle := false |}) l)).
  { intros l. apply Forall_map, Forall_forall. intros; reflexivity. }
  unfold Raft.synthesize.
  destruct (Raft.Qltb (Raft.draw rnd) (Raft.oracleProbability cfg));
    cbn [Raft.s_distractors];
    (match goal with |- Forall _ (if ?c then _ else _) => destruct c end;
     [apply Forall_app; split; [|apply fallback_not_oracle]|]);
    (match goal with |- Forall _ (if ?c then _ else _) => destruct c end;
     [apply H0 | constructor]).
Qed.

(** ** Position of the oracle in a rearranged document list *)



Lemma reversing_fair (draw : Q) : Raft.fair (reversing draw).
Proof. split; intros l; apply Permutation_rev. Qed.


(** ** RAFT samples *)



(** With reversing sorts the oracle of the first of two items lands
    second, and the answer cites Document 2. *)
Example oracle_lands_second :
  let syn := Raft.synthesize two_items default_raftConfig false no_search
               (reversing (1 # 2)) 0 (chat_item "item_1" "What is X?" "X is Y") in
  map Raft.is_oracle (Raft.s_documents syn) = [false; true] /\
  Raft.s_cotAnswer syn = Raft.generateCotAnswer "What is X?" "X is Y" 2.
Proof. vm_compute. split; reflexivity. Qed.

(** Every iteration pushes one sample carrying the documents and the
    answer chosen by [synthesize]. *)
Lemma step_pushes_sample acceptedItems cfg connected search rnd i item st :
  let syn := Raft.synthesize acceptedItems cfg connected search rnd i item in
  exists p,
    Raft.prepared
      (Raft.step acceptedItems cfg connected search rnd i item st)
      = Raft.prepared st ++ [p] /\
    Raft._oracle_included p = Raft.s_includeOracle syn /\
    Raft.pr_messages p =
      [ {| Csv.role := "user";
           Csv.content :=
             Raft.userContent (Raft.s_documents syn) (Raft.s_question syn) |};
        {| Csv.role := "assistant"; Csv.content := Raft.s_cotAnswer syn |} ].
Proof.
  intros syn. eexists. unfold Raft.step. cbn [Raft.prepared].
  split; [reflexivity|]. split; reflexivity.
Qed.

(** C7.  When the oracle-inclusion draw fails, the documents of the
    sample are the distractors, none of them is tagged as the oracle, and
    the answer is the fixed refusal text: the sentence that the documents
    were reviewed for the question, an empty line, and the sentence that
    none of them contains sufficient information.  With no distractor at
    all (a single accepted item and no remote search) the sample has zero
    documents and the handler still returns it, with that answer. *)
Theorem oracle_excluded_sample
    (acceptedItems : list Raft.Item) (cfg : Raft.RaftConfig)
    (connected : bool) (search : Raft.SearchResult) (rnd : Raft.Random)
    (i : nat) (item : Raft.Item) :
  Raft.fair rnd ->
  Raft.Qltb (Raft.draw rnd) (Raft.oracleProbability cfg) = false ->
  let syn := Raft.synthesize acceptedItems cfg connected search rnd i item in
  (Raft.s_includeOracle syn = false /\
   Raft.s_documents syn = Raft.s_distractors syn /\
   Forall not_oracle (Raft.s_documents syn) /\
   Raft.s_cotAnswer syn
   = "I've reviewed the provided documents looking for information about: "
     +:+ Raft.s_question syn +:+ NL +:+ NL +:+
     "However, none of the documents contain sufficient information to answer this question accurately. I would need additional sources to provide a reliable answer.") /\
  (forall env,
      env 0 = (search, rnd) ->
      exists p,
        Raft.handlePrepareRaft [item] cfg false env = inr [p] /\
        Raft._oracle_included p = false /\
        Raft.pr_messages p =
          [ {| Csv.role := "user";
               Csv.content := Raft.userContent [] (Raft.s_question syn) |};
            {| Csv.role := "assistant";
               Csv.content :=
                 "I've reviewed the provided documents looking for information about: "
                 +:+ Raft.s_question syn +:+ NL +:+ NL +:+
                 "However, none of the documents contain sufficient information to answer this question accurately. I would need additional sources to provide a reliable answer." |} ]).
Proof.
  intros [Hfair _] Hdraw syn. split.
  - pose proof (distractors_not_oracle acceptedItems cfg connected search rnd
                  i item) as Hds.
    subst syn. unfold Raft.synthesize in *. rewrite Hdraw in *.
    cbv zeta in *.
    cbn [Raft.s_includeOracle Raft.s_documents Raft.s_cotAnswer
         Raft.s_question Raft.s_distractors] in *.
    repeat split; [exact Hds].
  - intros env Henv.
    assert (Hnil : Raft.shuffle_items rnd [] = [])
      by (apply Permutation_nil, Hfair).
    unfold Raft.handlePrepareRaft, Raft.prepare_loop. rewrite Henv.
    cbn [fst snd].
    destruct (step_pushes_sample [item] cfg false search rnd 0 item
                {| Raft.prepared := []; Raft.weaviateSuccessCount := 0;
                   Raft.fallbackCount := 0 |}) as (p & Ep & Ei & Em).
    exists p. rewrite Ep. cbn [Raft.prepared app].
    split; [reflexivity|].
    revert Ei Em. subst syn.
    unfold Raft.synthesize. rewrite Hdraw. cbv zeta.
    cbn [Raft.s_includeOracle Raft.s_documents Raft.s_cotAnswer
         Raft.s_question andb].
    unfold Raft.createFallbackDistractors.
    cbn [delete list_delete]. rewrite Hnil.
    cbn [length Z.of_nat app map].
    assert (Hloop : forall fmt n, Raft.fallback_loop fmt [] 0 n = [])
      by (intros fmt [|n]; reflexivity).
    rewrite Hloop.
    destruct (_ <? Raft.numDistractors cfg)%Z; intros Ei Em;
      (split; [exact Ei | exact Em]).
Qed.

Lemma oracle_excluded_sample_witness :
  Raft.fair (reversing (9 # 10)) /\
  Raft.Qltb (9 # 10) (8 # 10) = false /\
  Forall not_oracle
    (Raft.s_documents
       (Raft.synthesize two_items default_raftConfig false no_search
          (reversing (9 # 10)) 0 (chat_item "item_1" "What is X?" "X is Y"))).
Proof.
  split; [apply reversing_fair|]. split; [reflexivity|].
  exact (proj1 (proj2 (proj2 (proj1
    (oracle_excluded_sample two_items default_raftConfig false no_search
       (reversing (9 # 10)) 0 (chat_item "item_1" "What is X?" "X is Y")
       (reversing_fair (9 # 10)) eq_refl))))).
Defined.

(** ** Judge output parser *)

(** The rating pattern ignores case and accepts any run of colons and
    white space; a digit early in the text is the third rung. *)
Example judge_rating_upper_case :
  Judge.parseJudgeOutput "Overall RATING 5 out of 5" =
    {| Judge.score := 5; Judge.explanation := "out of 5" |}.
Proof. vm_compute. reflexivity. Qed.

Example judge_early_digit :
  Judge.parseJudgeOutput "I give it a 2." =
    {| Judge.score := 2; Judge.explanation := "I give it a 2." |} /\
  Judge.rung "I give it a 2." = Judge.EarlyDigit.
Proof. vm_compute. split; reflexivity. Qed.

(** *** The rating pattern and the text after it *)

Lemma append_cons (c : ascii) (a b : string) :
  String c a +:+ b = String c (a +:+ b).
Proof. reflexivity. Qed.

Lemma append_assoc (a b c : string) : (a +:+ b) +:+ c = a +:+ (b +:+ c).
Proof.
  induction a as [|x a IH]; [reflexivity|].
  change (String x ((a +:+ b) +:+ c) = String x (a +:+ (b +:+ c))).
  rewrite IH. reflexivity.
Qed.

Lemma append_empty_r (a : string) : a +:+ "" = a.
Proof.
  induction a as [|x a IH]; [reflexivity|].
  change (String x (a +:+ "") = String x a). rewrite IH. reflexivity.
Qed.

Lemma prefix_ci_split pat :
  forall s w rest,
    Judge.prefix_ci pat s = Some (w, rest) ->
    s = w +:+ rest /\ forall x, Judge.prefix_ci pat (w +:+ x) = Some (w, x).
Proof.
  induction pat as [|p pat IH]; intros s w rest H; cbn [Judge.prefix_ci] in H.
  - injection H as <- <-. split; [reflexivity | intros x; reflexivity].
  - destruct s as [|c s]; [discriminate|].
    destruct (Judge.eq_ci c p) eqn:Hc; [|discriminate].
    destruct (Judge.prefix_ci pat s) as [[m r]|] eqn:E; [|discriminate].
    injection H as <- <-. destruct (IH _ _ _ E) as [-> Hx].
    split; [reflexivity|]. intros x. rewrite append_cons.
    cbn [Judge.prefix_ci]. rewrite Hc, Hx. reflexivity.
Qed.

Lemma sep_run_split s :
  forall run rest,
    Judge.sep_run s = (run, rest) -> s = run +:+ rest /\ all_sep run = true.
Proof.
  induction s as [|c s IH]; intros run rest H; cbn [Judge.sep_run] in H.
  - injection H as <- <-. split; reflexivity.
  - destruct (Judge.is_sep c) eqn:Hc.
    + destruct (Judge.sep_run s) as [run' rest'] eqn:E.
      injection H as <- <-. destruct (IH _ _ eq_refl) as [-> Hr].
      split; [reflexivity|]. cbn [all_sep]. rewrite Hc, Hr. reflexivity.
    + injection H as <- <-. split; reflexivity.
Qed.

Lemma sep_run_stop run :
  forall d x,
    all_sep run = true -> Judge.is_sep d = false ->
    Judge.sep_run (run +:+ String d x) = (run, String d x).
Proof.
  induction run as [|c run IH]; intros d x Hr Hd.
  - change ("" +:+ String d x) with (String d x).
    cbn [Judge.sep_run]. rewrite Hd. reflexivity.
  - cbn [all_sep] in Hr. apply andb_prop in Hr as [Hc Hr].
    rewrite append_cons. cbn [Judge.sep_run].
    rewrite Hc, (IH d x Hr Hd). reflexivity.
Qed.

Lemma digit15_not_sep (d : ascii) :
  Judge.is_digit15 d = true -> Judge.is_sep d = false.
Proof.
  destruct d as [[] [] [] [] [] [] [] []]; vm_compute; congruence.
Qed.

(** A match at the front of a text depends on the matched text only. *)
Lemma rating_at_split s m d :
  Judge.rating_at s = Some (m, d) ->
  rating_text m d /\
  (exists post, s = m +:+ post) /\
  (forall x, Judge.rating_at (m +:+ x) = Some (m, d)).
Proof.
  unfold Judge.rating_at.
  destruct (Judge.prefix_ci "rating" s) as [[word rest]|] eqn:E1;
    [|discriminate].
  destruct (Judge.sep_run rest) as [[|c run] [|e tl]] eqn:E2;
    try discriminate.
  destruct (Judge.is_digit15 e) eqn:E3; [|discriminate].
  intros [= <- <-].
  destruct (prefix_ci_split _ _ _ _ E1) as [-> Hword].
  destruct (sep_run_split _ _ _ E2) as [-> Hrun].
  split; [|split].
  - exists word, (String c run). split; [reflexivity|].
    split; [rewrite <- (append_empty_r word) at 1; apply Hword|].
    split; [discriminate|]. split; [exact Hrun | exact E3].
  - exists tl. rewrite !append_assoc. reflexivity.
  - intros x. rewrite !append_assoc. rewrite Hword.
    change (String e "" +:+ x) with (String e x).
    rewrite (sep_run_stop (String c run) e x Hrun (digit15_not_sep e E3)).
    rewrite E3. rewrite <- !append_assoc. reflexivity.
Qed.

Lemma is_prefix_app m : forall x, Judge.is_prefix m (m +:+ x) = true.
Proof.
  induction m as [|c m IH]; intros x; [reflexivity|].
  rewrite append_cons. cbn [Judge.is_prefix].
  rewrite Ascii.eqb_refl. apply IH.
Qed.

Lemma is_prefix_split m :
  forall s, Judge.is_prefix m s = true -> exists x, s = m +:+ x.
Proof.
  induction m as [|c m IH]; intros s H; cbn [Judge.is_prefix] in H;
    [exists s; reflexivity|].
  destruct s as [|e s]; [discriminate|].
  apply andb_prop in H as [Hc H]. apply Ascii.eqb_eq in Hc as ->.
  destruct (IH s H) as [x ->]. exists x. reflexivity.
Qed.

Lemma indexOf_from_prefix m s i :
  Judge.is_prefix m s = true -> Judge.indexOf_from m s i = i.
Proof. intros H. destruct s; cbn [Judge.indexOf_from]; rewrite H; reflexivity. Qed.

Lemma rating_match_found s :
  forall m d,
    Judge.rating_match s = Some (m, d) ->
    exists s0, Judge.rating_at s0 = Some (m, d).
Proof.
  induction s as [|c s IH]; intros m d; cbn [Judge.rating_match].
  - destruct (Judge.rating_at "") as [[m' d']|] eqn:E; [|discriminate].
    intros [= <- <-]. eauto.
  - destruct (Judge.rating_at (String c s)) as [[m' d']|] eqn:E.
    + intros [= <- <-]. eauto.
    + apply IH.
Qed.

(** The leftmost match splits the text, and the first occurrence of the
    matched text is the match itself. *)
Lemma rating_match_split s :
  forall m d i,
    Judge.rating_match s = Some (m, d) ->
    exists pre post,
      s = pre +:+ m +:+ post /\
      Judge.indexOf_from m s i = (i + Z.of_nat (String.length pre))%Z.
Proof.
  induction s as [|c s IH]; intros m d i; cbn [Judge.rating_match].
  - destruct (Judge.rating_at "") as [[m' d']|] eqn:E; [|discriminate].
    vm_compute in E. discriminate E.
  - destruct (Judge.rating_at (String c s)) as [[m' d']|] eqn:E.
    + intros [= <- <-].
      destruct (rating_at_split _ _ _ E) as (_ & [post Hs] & _).
      exists "", post. split; [exact Hs|].
      rewrite (indexOf_from_prefix m' (String c s) i)
        by (rewrite Hs; apply is_prefix_app).
      cbn [String.length Z.of_nat]. lia.
    + intros Hm.
      destruct (IH m d (i + 1)%Z Hm) as (pre & post & Hs & Hi).
      exists (String c pre), post. split; [rewrite Hs; reflexivity|].
      assert (Hno : Judge.is_prefix m (String c s) = false).
      { destruct (Judge.is_prefix m (String c s)) eqn:Hp; [|reflexivity].
        destruct (is_prefix_split _ _ Hp) as [x Hx].
        destruct (rating_match_found _ _ _ Hm) as [s0 H0].
        destruct (rating_at_split _ _ _ H0) as (_ & _ & Hall).
        rewrite Hx, Hall in E. discriminate E. }
      cbn [Judge.indexOf_from]. rewrite Hno, Hi.
      cbn [String.length]. lia.
Qed.

Lemma drop_chars_app a :
  forall n b, Judge.drop_chars (String.length a + n) (a +:+ b)
              = Judge.drop_chars n b.
Proof.
  induction a as [|c a IH]; intros n b; [reflexivity|].
  rewrite append_cons. cbn [String.length Nat.add Judge.drop_chars]. apply IH.
Qed.

Lemma length_append (a b : string) :
  String.length (a +:+ b) = String.length a + String.length b.
Proof.
  induction a as [|c a IH]; [reflexivity|].
  change (S (String.length (a +:+ b)) = S (String.length a) + String.length b).
  rewrite IH. reflexivity.
Qed.

(** On the rating rung the explanation is the text after the match. *)
Lemma rating_rung_explanation output m d :
  Judge.rating_match output = Some (m, d) ->
  rating_text m d /\
  exists pre post,
    output = pre +:+ m +:+ post /\
    Judge.substring_from output
      (Judge.indexOf output m + Z.of_nat (String.length m)) = post.
Proof.
  intros Hm.
  destruct (rating_match_found _ _ _ Hm) as [s0 H0].
  destruct (rating_at_split _ _ _ H0) as (Htext & _ & _).
  split; [exact Htext|].
  destruct (rating_match_split output m d 0 Hm) as (pre & post & Hs & Hi).
  exists pre, post. split; [exact Hs|].
  unfold Judge.substring_from, Judge.indexOf. rewrite Hi.
  replace (Z.to_nat (Z.max 0 (0 + Z.of_nat (String.length pre)
                              + Z.of_nat (String.length m))))
    with (String.length (pre +:+ m) + 0) by (rewrite length_append; lia).
  rewrite Hs at 1. rewrite <- append_assoc. apply drop_chars_app.
Qed.

Lemma single_digit_shape s d :
  Judge.single_digit s = Some d ->
  s = String d "" /\ Judge.is_digit15 d = true.
Proof.
  destruct s as [|c [|]]; cbn; try discriminate.
  destruct (Judge.is_digit15 c) eqn:E; [|discriminate].
  intros [= <-]. split; [reflexivity | exact E].
Qed.

(** The ladder, rung by rung. *)
Lemma judge_ladder (output : string) : ladder_holds output.
Proof.
  unfold ladder_holds, Judge.rung, Judge.parseJudgeOutput.
  set (firstLine := JS.trim _).
  destruct (Judge.single_digit firstLine) as [d|] eqn:E1.
  { destruct (single_digit_shape _ _ E1) as [Hs Hd]. eauto 6. }
  destruct (Judge.rating_match output) as [[m d]|] eqn:E2.
  { destruct (rating_rung_explanation output m d E2)
      as (Htext & pre & post & Hs & He).
    split; [reflexivity|]. exists m, d, pre, post.
    rewrite He. auto. }
  destruct (Judge.first_digit15 (JS.slice0 50 output)) as [d|]; eauto 6.
Qed.

(** C2.  The four literal judge outputs parse to the scores 4, 2, 3 and
    3, each decided by the expected rung of the ladder: the first line,
    the rating pattern, the first line again, and the default with the
    whole text as the explanation.  For every output the first rung that
    applies decides: a first line that is one digit from 1 to 5, else the
    rating pattern, else a digit from 1 to 5 among the first 50
    characters, else the score 3 with the whole text. *)
Theorem judge_parser_literal_outputs :
  (Judge.parseJudgeOutput reply_first_line =
     {| Judge.score := 4; Judge.explanation := "Good answer" |} /\
   Judge.rung reply_first_line = Judge.FirstLine) /\
  (Judge.parseJudgeOutput reply_rating =
     {| Judge.score := 2; Judge.explanation := ". Needs work." |} /\
   Judge.rung reply_rating = Judge.RatingPattern) /\
  (Judge.parseJudgeOutput reply_bare =
     {| Judge.score := 3; Judge.explanation := "" |} /\
   Judge.rung reply_bare = Judge.FirstLine) /\
  (Judge.parseJudgeOutput reply_no_signal =
     {| Judge.score := 3; Judge.explanation := reply_no_signal |} /\
   Judge.rung reply_no_signal = Judge.Default) /\
  (forall output, ladder_holds output).
Proof.
  split; [vm_compute; split; reflexivity|].
  split; [vm_compute; split; reflexivity|].
  split; [vm_compute; split; reflexivity|].
  split; [vm_compute; split; reflexivity|].
  exact judge_ladder.
Qed.

(** Every score the parser returns is between 1 and 5. *)
Lemma parseInt_digit_range (d : ascii) :
  Judge.is_digit15 d = true -> (1 <= Judge.parseInt_digit d <= 5)%Z.
Proof.
  unfold Judge.is_digit15, Judge.parseInt_digit. intros H.
  apply andb_prop in H as [H1 H2].
  apply Nat.leb_le in H1, H2. lia.
Qed.

Lemma single_digit_is_digit s d :
  Judge.single_digit s = Some d -> Judge.is_digit15 d = true.
Proof. intros H. exact (proj2 (single_digit_shape s d H)). Qed.

Lemma rating_at_is_digit s m d :
  Judge.rating_at s = Some (m, d) -> Judge.is_digit15 d = true.
Proof.
  unfold Judge.rating_at.
  destruct (Judge.prefix_ci "rating" s) as [[word rest]|]; [|discriminate].
  destruct (Judge.sep_run rest) as [[|c run] [|e tl]]; try discriminate.
  destruct (Judge.is_digit15 e) eqn:E; [|discriminate].
  intros [= _ <-]. exact E.
Qed.

Lemma rating_match_is_digit s :
  forall m d, Judge.rating_match s = Some (m, d) -> Judge.is_digit15 d = true.
Proof.
  induction s as [|c s IH]; intros m d; cbn [Judge.rating_match].
  - destruct (Judge.rating_at "") as [[m' d']|] eqn:E; [|discriminate].
    intros [= -> ->]. exact (rating_at_is_digit _ _ _ E).
  - destruct (Judge.rating_at (String c s)) as [[m' d']|] eqn:E.
    + intros [= -> ->]. exact (rating_at_is_digit _ _ _ E).
    + apply IH.
Qed.

Lemma first_digit15_is_digit s :
  forall d, Judge.first_digit15 s = Some d -> Judge.is_digit15 d = true.
Proof.
  induction s as [|c s IH]; intros d; cbn; [discriminate|].
  destruct (Judge.is_digit15 c) eqn:E; [intros [= <-]; exact E | apply IH].
Qed.

Lemma parseJudgeOutput_score_range (output : string) :
  (1 <= Judge.score (Judge.parseJudgeOutput output) <= 5)%Z.
Proof.
  unfold Judge.parseJudgeOutput.
  destruct (Judge.single_digit _) as [d|] eqn:E1.
  { apply parseInt_digit_range, (single_digit_is_digit _ _ E1). }
  destruct (Judge.rating_match output) as [[m d]|] eqn:E2.
  { apply parseInt_digit_range, (rating_match_is_digit _ _ _ E2). }
  destruct (Judge.first_digit15 _) as [d|] eqn:E3.
  { apply parseInt_digit_range, (first_digit15_is_digit _ _ E3). }
  cbn. lia.
Qed.

(** ** Evaluation and flagging *)

Lemma Qltb_lt (a b : Q) : Raft.Qltb a b = true <-> Qlt a b.
Proof. unfold Raft.Qltb, Qlt. apply Z.ltb_lt. Qed.

Lemma normalize_formula (score : Z) :
  Qeq (Evaluation.normalize score) ((inject_Z score - 1) / 4).
Proof.
  unfold Evaluation.normalize. apply Qdiv_comp; [|reflexivity].
  unfold Qeq, Qminus, Qplus, inject_Z. cbn. lia.
Qed.

Lemma normalize_range (score : Z) :
  (1 <= score <= 5)%Z ->
  Qle 0 (Evaluation.normalize score) /\ Qle (Evaluation.normalize score) 1.
Proof.
  intros H. unfold Evaluation.normalize, Qle, Qdiv, Qmult, Qinv, inject_Z.
  cbn. lia.
Qed.

(** C5.  A record whose judge reply is parsed gets
    normalizedScore = (rawScore - 1) / 4, which lies in [0,1] because the
    raw score lies in 1..5; its status is flagged exactly when the
    normalized score is below the threshold and passed otherwise.  Raw
    scores 1 and 5 give 0 and 1; with threshold 0.7 the normalized scores
    0.5 and 0.75 give flagged and passed. *)
Theorem scoring_and_flagging
    (item : Evaluation.Response) (threshold : Q) (o : Evaluation.Output)
    (text : string) :
  Evaluation.judgeOutput o = Some text ->
  let r := Evaluation.evaluate_one threshold (Evaluation.Replies o) item in
  (Evaluation._rawScore r = Judge.score (Judge.parseJudgeOutput text) /\
   (1 <= Evaluation._rawScore r <= 5)%Z /\
   Qeq (Evaluation._evalScore r)
       ((inject_Z (Evaluation._rawScore r) - 1) / 4) /\
   Qle 0 (Evaluation._evalScore r) /\ Qle (Evaluation._evalScore r) 1 /\
   (Evaluation._status r = "flagged" <->
    Qlt (Evaluation._evalScore r) threshold) /\
   (Evaluation._status r = "passed" <->
    ~ Qlt (Evaluation._evalScore r) threshold)) /\
  (Qeq (Evaluation.normalize 1) 0 /\ Qeq (Evaluation.normalize 5) 1 /\
   Qeq (Evaluation.normalize 3) (5 # 10) /\
   Qeq (Evaluation.normalize 4) (75 # 100) /\
   Evaluation._status
     (Evaluation.evaluate_one (7 # 10)
        (Evaluation.Replies (Evaluation.OutString "3")) item) = "flagged" /\
   Evaluation._status
     (Evaluation.evaluate_one (7 # 10)
        (Evaluation.Replies (Evaluation.OutString "4")) item) = "passed").
Proof.
  intros Ho r. split.
  - subst r. unfold Evaluation.evaluate_one. rewrite Ho.
    unfold Evaluation.scored.
    cbn [Evaluation._rawScore Evaluation._evalScore Evaluation._status].
    pose proof (parseJudgeOutput_score_range text) as Hr.
    set (score := Judge.score (Judge.parseJudgeOutput text)) in *.
    split; [reflexivity|]. split; [exact Hr|].
    split; [apply normalize_formula|].
    split; [apply (normalize_range score Hr)|].
    split; [apply (normalize_range score Hr)|].
    destruct (Raft.Qltb (Evaluation.normalize score) threshold) eqn:E.
    + apply Qltb_lt in E. split; split; try done.
    + assert (Hn : ~ Qlt (Evaluation.normalize score) threshold).
      { intros Hlt. apply Qltb_lt in Hlt. congruence. }
      split; split; try done.
  - repeat split.
Qed.

Lemma scoring_and_flagging_witness :
  Evaluation.judgeOutput (Evaluation.OutObject (Some "Rating: 2") None)
    = Some "Rating: 2" /\
  Evaluation._rawScore (Evaluation.evaluate_one (7 # 10)
     (Evaluation.Replies (Evaluation.OutObject (Some "Rating: 2") None))
     (sample_response "resp_0")) = 2%Z /\
  Evaluation._status (Evaluation.evaluate_one (7 # 10)
     (Evaluation.Replies (Evaluation.OutObject (Some "Rating: 2") None))
     (sample_response "resp_0")) = "flagged".
Proof.
  split; [reflexivity|].
  destruct (scoring_and_flagging (sample_response "resp_0") (7 # 10)
              (Evaluation.OutObject (Some "Rating: 2") None) "Rating: 2" eq_refl)
    as [(Hraw & _ & _ & _ & _ & Hflag & _) _].
  split.
  - rewrite Hraw. vm_compute. reflexivity.
  - apply Hflag. vm_compute. reflexivity.
Defined.

(** The loop pushes one result per response, in order. *)
Lemma eval_loop_spec threshold judge (todo : list Evaluation.Response) :
  forall i results,
    Evaluation.eval_loop threshold judge i todo results =
    results ++
    imap (fun k item =>
            Evaluation.evaluate_one threshold (judge (i + k) item) item)
         todo.
Proof.
  induction todo as [|item rest IH]; intros i results;
    cbn [Evaluation.eval_loop].
  - cbn. symmetry. apply app_nil_r.
  - rewrite IH, <- app_assoc. cbn [imap app]. rewrite Nat.add_0_r.
    do 2 f_equal. apply imap_ext. intros k x _. cbn.
    rewrite Nat.add_succ_r. reflexivity.
Qed.

Lemma evaluate_one_source threshold outcome item :
  Evaluation.source (Evaluation.evaluate_one threshold outcome item) = item.
Proof.
  destruct outcome as [message | o]; cbn; [reflexivity|].
  destruct (Evaluation.judgeOutput o); reflexivity.
Qed.

(** C4 (as amended).  With a configured judge and a non-empty batch, the
    evaluation returns exactly one result per input record, in input
    order; a record whose judge call fails gets status error, raw score
    1, normalized score 0 and the failure message prefixed by the word
    Error and a colon as its explanation, and every other record is
    still evaluated. *)
Theorem evaluation_batch_results
    (modelResponses : list Evaluation.Response) (cfg : Evaluation.EvalConfig)
    (judge : nat -> Evaluation.Response -> Evaluation.JudgeOutcome) :
  modelResponses <> [] ->
  Evaluation.judgeEndpoint cfg <> "" -> Evaluation.judgeApiKey cfg <> "" ->
  exists results,
    Evaluation.runEvaluation modelResponses cfg judge = inr results /\
    length results = length modelResponses /\
    forall i item,
      modelResponses !! i = Some item ->
      exists r,
        results !! i = Some r /\
        Evaluation.source r = item /\
        r = Evaluation.evaluate_one (Evaluation.scoreThreshold cfg)
              (judge i item) item /\
        (forall message,
            judge i item = Evaluation.Throws message ->
            Evaluation._status r = "error" /\
            Evaluation._rawScore r = 1%Z /\
            Evaluation._evalScore r = 0%Q /\
            Evaluation._evalExplanation r = "Error: " +:+ message).
Proof.
  intros Hne He Hk.
  apply truthy_nonempty in He, Hk.
  unfold Evaluation.runEvaluation. rewrite He, Hk. cbn [negb orb].
  destruct modelResponses as [|first others]; [contradiction|].
  rewrite eval_loop_spec. cbn [app Nat.add].
  eexists. split; [reflexivity|]. split; [apply length_imap|].
  intros i item Hi. rewrite list_lookup_imap, Hi.
  cbn [fmap option_fmap option_map].
  eexists. split; [reflexivity|].
  split; [apply evaluate_one_source|]. split; [reflexivity|].
  intros message Hj. rewrite Hj. cbn. repeat split.
Qed.

Lemma evaluation_batch_results_witness :
  Evaluation.judgeEndpoint (configured (7 # 10)) <> "" /\
  Evaluation.judgeApiKey (configured (7 # 10)) <> "" /\
  exists results,
    Evaluation.runEvaluation
      [sample_response "resp_0"; sample_response "resp_1";
       sample_response "resp_2"] (configured (7 # 10)) flaky_judge
      = inr results /\
    length results = 3 /\
    map Evaluation._status results = ["passed"; "error"; "passed"].
Proof.
  split; [discriminate|]. split; [discriminate|].
  destruct (evaluation_batch_results
              [sample_response "resp_0"; sample_response "resp_1";
               sample_response "resp_2"] (configured (7 # 10)) flaky_judge)
    as (results & Hrun & Hlen & _).
  - discriminate.
  - discriminate.
  - discriminate.
  - exists results. split; [exact Hrun|]. split; [exact Hlen|].
    vm_compute in Hrun. injection Hrun as <-. reflexivity.
Defined.

(** C4, counterexample.  When the judge call of a record throws with the
    message timeout, the explanation of its result is not that message:
    it is the message after a prefix. *)
Lemma evaluation_error_explanation_is_prefixed :
  exists r,
    Evaluation.runEvaluation [sample_response "resp_0"] (configured (7 # 10))
      (fun _ _ => Evaluation.Throws "timeout") = inr [r] /\
    Evaluation._status r = "error" /\
    Evaluation._evalExplanation r = "Error: timeout" /\
    Evaluation._evalExplanation r <> "timeout".
Proof.
  eexists. split; [vm_compute; reflexivity|].
  cbn. repeat split. discriminate.
Qed.

(** ** Correction review queue *)

Lemma filter_corrected (rs : list Evaluation.EvalResult) :
  List.filter (fun r => String.eqb (Evaluation._status r) "corrected") rs =
  filter (fun r => Evaluation._status r = "corrected") rs.
Proof.
  induction rs as [|r rs IH]; [reflexivity|]. cbn [List.filter].
  destruct (String.eqb_spec (Evaluation._status r) "corrected") as [E|E].
  - rewrite filter_cons_True by exact E. rewrite IH. reflexivity.
  - rewrite filter_cons_False by exact E. exact IH.
Qed.

(** C8.  The export holds exactly the records with status corrected, in
    stored order, each reshaped as a user message with the question and
    an assistant message with the corrected answer; when there is none,
    nothing is exported and an alert says so.  Over one corrected and one
    flagged record the export is the single corrected pair. *)
Theorem export_corrections_exactly_corrected (rs : list Evaluation.EvalResult) :
  match Review.exportCorrections rs with
  | Review.NothingToExport alert =>
      filter (fun r => Evaluation._status r = "corrected") rs = [] /\
      Forall (fun r => Evaluation._status r <> "corrected") rs /\
      alert = "No corrections to export"
  | Review.Exported exportData notification =>
      exportData =
        map Review.reshape
          (filter (fun r => Evaluation._status r = "corrected") rs) /\
      length exportData =
        length (filter (fun r => Evaluation._status r = "corrected") rs) /\
      exportData <> []
  end /\
  Review.exportCorrections corrected_and_flagged =
    Review.Exported
      [ [ {| Review.role := "user"; Review.content := Some "What is X?" |};
          {| Review.role := "assistant";
             Review.content := Some "X is Y indeed" |} ] ]
      "Exported 1 corrections".
Proof.
  split; [|vm_compute; reflexivity].
  unfold Review.exportCorrections. rewrite filter_corrected.
  destruct (filter (fun r => Evaluation._status r = "corrected") rs)
    as [|c cs] eqn:E.
  - split; [reflexivity|]. split; [|reflexivity].
    apply Forall_forall. intros r Hr Hs.
    assert (Hin : r ∈ filter (fun r => Evaluation._status r = "corrected") rs)
      by (apply list_elem_of_filter; split; assumption).
    rewrite E in Hin. inversion Hin.
  - split; [reflexivity|]. split; [apply length_map | discriminate].
Qed.

(** The Next button of the queue view keeps the cursor inside a
    non-empty queue. *)
Lemma next_button_in_range (st : Review.State) :
  Review.flaggedItems (Review.evalResults st) <> [] ->
  Review.cursor_in_range (Review.next_button st) = true.
Proof.
  intros Hne. unfold Review.cursor_in_range, Review.next_button.
  cbn [Review.evalResults Review.flaggedIndex].
  destruct (Review.flaggedItems (Review.evalResults st)) as [|r q];
    [contradiction|].
  apply Nat.ltb_lt. cbn [length]. lia.
Qed.

(** C9, the code at the failing input.  With two flagged records and the
    cursor on the first, accepting (or rejecting) the current record
    leaves one record in the queue and moves the cursor to index 1, which
    is outside that queue. *)
Theorem dismiss_moves_cursor_out_of_range :
  Review.cursor_in_range two_flagged = true /\
  (Review.flaggedIndex (Review.handleAcceptAsIs two_flagged) = 1 /\
   length (Review.flaggedItems
             (Review.evalResults (Review.handleAcceptAsIs two_flagged))) = 1 /\
   Review.currentFlagged (Review.handleAcceptAsIs two_flagged) = None /\
   Review.cursor_in_range (Review.handleAcceptAsIs two_flagged) = false) /\
  (Review.flaggedIndex (Review.handleRejectItem two_flagged) = 1 /\
   length (Review.flaggedItems
             (Review.evalResults (Review.handleRejectItem two_flagged))) = 1 /\
   Review.currentFlagged (Review.handleRejectItem two_flagged) = None /\
   Review.cursor_in_range (Review.handleRejectItem two_flagged) = false).
Proof. vm_compute. repeat split. Qed.

(** ** Extent of the cursor slip *)

Lemma queue_after_set_status (rs : list Evaluation.EvalResult)
    (id status : string) :
  status <> "flagged" -> status <> "corrected" ->
  Review.flaggedItems (Review.set_status id status rs) =
  List.filter (fun r => negb (String.eqb (result_id r) id))
    (Review.flaggedItems rs).
Proof.
  intros Hf Hc.
  assert (Hout : forall r,
             Review.in_queue (Review.with_status r status) = false).
  { intros r. unfold Review.in_queue. cbn.
    apply orb_false_iff. split; apply String.eqb_neq; assumption. }
  unfold Review.flaggedItems, Review.set_status.
  induction rs as [|r rs IH]; [reflexivity|]. cbn [map List.filter].
  fold (result_id r).
  destruct (String.eqb (result_id r) id) eqn:E.
  - rewrite Hout, IH. destruct (Review.in_queue r); [|reflexivity].
    cbn [List.filter]. rewrite E. reflexivity.
  - destruct (Review.in_queue r); [|exact IH].
    cbn [List.filter]. rewrite E, IH. reflexivity.
Qed.

Lemma filter_other_ids_all (q : list Evaluation.EvalResult) (id : string) :
  ~ In id (map result_id q) ->
  List.filter (fun r => negb (String.eqb (result_id r) id)) q = q.
Proof.
  induction q as [|r q IH]; intros Hn; [reflexivity|]. cbn [List.filter].
  destruct (String.eqb_spec (result_id r) id) as [E|E].
  - exfalso. apply Hn. left. exact E.
  - cbn [negb]. rewrite IH; [reflexivity|]. intros H. apply Hn. right. exact H.
Qed.

Lemma length_filter_other_ids (q : list Evaluation.EvalResult)
    (cur : Evaluation.EvalResult) :
  List.NoDup (map result_id q) -> In cur q ->
  S (length (List.filter
               (fun r => negb (String.eqb (result_id r) (result_id cur))) q))
  = length q.
Proof.
  induction q as [|r q IH]; intros Hnd Hin; [contradiction|].
  cbn [map] in Hnd. apply List.NoDup_cons_iff in Hnd as [Hr Hnd].
  cbn [List.filter]. destruct Hin as [-> | Hin].
  - rewrite String.eqb_refl. cbn [negb length].
    rewrite filter_other_ids_all by exact Hr. reflexivity.
  - destruct (String.eqb_spec (result_id r) (result_id cur)) as [E|E].
    + exfalso. apply Hr. rewrite E. apply in_map. exact Hin.
    + cbn [negb length]. rewrite (IH Hnd Hin). reflexivity.
Qed.

(** When the identifiers of the queue are distinct, accepting or
    rejecting the current record keeps the cursor inside the queue
    exactly when at least two records follow it, or when it is the last
    record and not the first: the cursor leaves the queue from the
    second-to-last record, and from the only record of a queue. *)
Lemma dismiss_cursor_in_range_iff
    (status : string) (st : Review.State) (cur : Evaluation.EvalResult) :
  status = "accepted" \/ status = "rejected" ->
  List.NoDup (map result_id (Review.flaggedItems (Review.evalResults st))) ->
  Review.currentFlagged st = Some cur ->
  let n := length (Review.flaggedItems (Review.evalResults st)) in
  let k := Review.flaggedIndex st in
  S (length (Review.flaggedItems
               (Review.evalResults (Review.dismiss status st)))) = n /\
  (Review.cursor_in_range (Review.dismiss status st) = true <->
   k + 2 < n \/ (k + 1 = n /\ 0 < k)).
Proof.
  intros Hs Hnd Hcur n k.
  assert (Hf : status <> "flagged") by (destruct Hs as [-> | ->]; discriminate).
  assert (Hc : status <> "corrected")
    by (destruct Hs as [-> | ->]; discriminate).
  unfold Review.cursor_in_range, Review.dismiss. rewrite Hcur.
  cbn [Review.evalResults Review.flaggedIndex].
  fold (result_id cur). rewrite (queue_after_set_status _ _ _ Hf Hc).
  unfold Review.currentFlagged in Hcur.
  pose proof (lookup_lt_Some _ _ _ Hcur) as Hk.
  pose proof (length_filter_other_ids _ cur Hnd
                (proj1 (list_elem_of_In _ _)
                   (list_elem_of_lookup_2 _ _ _ Hcur))) as Hlen.
  fold n in Hlen, Hk. fold k in Hk. fold n. fold k.
  split; [exact Hlen|].
  rewrite Nat.ltb_lt. unfold Review.move_cursor.
  destruct (Z.ltb_spec (Z.of_nat k) (Z.of_nat n - 1)) as [H1|H1].
  - lia.
  - destruct (Nat.ltb_spec 0 k); lia.
Qed.

(** ** Progress snapshot *)

(** C6 (as amended).  On a non-empty store the save produces a snapshot,
    the same document for the download and for the local storage, and
    restoring that snapshot over any current state gives back the record
    set and the cursor position the save was taken from. *)
Theorem snapshot_round_trip
    (now name : string) (st cur : Store.State) :
  Store.trainingData st <> [] ->
  exists eff restored,
    Store.handleSave now st = Some eff /\
    Store.localStorageItem eff = Store.download eff /\
    Store.handleResumeFileLoad
      (Some (name, Store.Document (Store.download eff))) cur
      = Store.Restored restored /\
    Store.trainingData restored = Store.trainingData st /\
    Store.currentIndex restored = Store.currentIndex st /\
    Store.editMode restored = false.
Proof.
  intros Hne. unfold Store.handleSave.
  destruct (Store.trainingData st) as [|r rs] eqn:Hdata; [contradiction|].
  eexists.
  exists {| Store.trainingData := r :: rs;
            Store.fileInfo :=
              Store.or_json (Some (Store.fileInfo st))
                (Store.default_fileInfo name);
            Store.currentIndex := Store.currentIndex st;
            Store.editMode := false;
            Store.editedAnswer := Store.editedAnswer cur |}.
  split; [reflexivity|].
  cbn [Store.localStorageItem Store.download Store.trainingData
       Store.currentIndex Store.editMode].
  split; [reflexivity|]. split; [|repeat split].
  unfold Store.handleResumeFileLoad, Store.saveData. rewrite Hdata.
  cbn [Store.get Store.assoc String.eqb Ascii.eqb Bool.eqb].
  cbn [Store.or_json Store.truthy].
  destruct (Z.eqb_spec (Store.currentIndex st) 0) as [Hi|Hi]; cbn [negb].
  - rewrite Hi. reflexivity.
  - reflexivity.
Qed.

Lemma snapshot_round_trip_witness :
  Store.trainingData two_record_store <> [] /\
  exists eff restored,
    Store.handleSave save_time two_record_store = Some eff /\
    Store.handleResumeFileLoad
      (Some ("training_progress_2026-01-01.json",
             Store.Document (Store.download eff))) empty_store
      = Store.Restored restored /\
    Store.trainingData restored = Store.trainingData two_record_store /\
    Store.currentIndex restored = 1%Z.
Proof.
  split; [discriminate|].
  destruct (snapshot_round_trip save_time "training_progress_2026-01-01.json"
              two_record_store empty_store)
    as (eff & restored & Hs & _ & Hr & Hd & Hi & _); [discriminate|].
  exists eff, restored. repeat split; assumption.
Defined.

(** C6, counterexample.  On an empty record set the save returns before
    building a snapshot: there is no blob to restore. *)
Lemma snapshot_of_empty_store_is_absent :
  Store.trainingData empty_store = [] /\
  Store.handleSave save_time empty_store = None /\
  ~ (exists eff, Store.handleSave save_time empty_store = Some eff).
Proof.
  split; [reflexivity|]. split; [reflexivity|].
  intros [eff H]. discriminate H.
Qed.

(* ================================================================== *)
(** * Further properties of the code                                    *)
(* ================================================================== *)

(** ** Saving a correction *)

Lemma in_queue_with_correction (r : Evaluation.EvalResult) (text : string) :
  Review.in_queue (Metrics.with_correction r text) = true.
Proof. reflexivity. Qed.

(** Marking records as corrected never shortens the queue. *)
Lemma queue_grows_with_corrections (rs : list Evaluation.EvalResult)
    (id text : string) :
  length (Review.flaggedItems rs) <=
  length (Review.flaggedItems
            (map (fun item =>
                    if String.eqb (result_id item) id
                    then Metrics.with_correction item text else item) rs)).
Proof.
  unfold Review.flaggedItems.
  induction rs as [|r rs IH]; [reflexivity|]. cbn [map List.filter].
  destruct (String.eqb (result_id r) id).
  - rewrite in_queue_with_correction. cbn [length].
    destruct (Review.in_queue r); cbn [length]; lia.
  - destruct (Review.in_queue r); cbn [length]; lia.
Qed.

(** X1.  Saving a correction keeps the cursor inside the review queue:
    the corrected record stays in the queue, so the advance computed from
    the old queue length is still in range (unlike accept and reject). *)
Theorem save_correction_keeps_cursor (text : string) (st : Review.State) :
  Review.cursor_in_range st = true ->
  Review.cursor_in_range (Metrics.state (Metrics.handleSaveCorrection text st))
    = true.
Proof.
  intros Hin. unfold Metrics.handleSaveCorrection.
  destruct (Review.currentFlagged st) as [cur|]; [|exact Hin].
  destruct (negb (JS.truthy (JS.trim text))); [exact Hin|].
  unfold Review.cursor_in_range in *. apply Nat.ltb_lt in Hin.
  pose proof (queue_grows_with_corrections (Review.evalResults st)
                (result_id cur) text) as Hgrow.
  unfold result_id in Hgrow.
  destruct (Z.ltb_spec (Z.of_nat (Review.flaggedIndex st))
              (Z.of_nat (length (Review.flaggedItems (Review.evalResults st)))
               - 1)) as [H|H];
    cbn [Metrics.state Review.evalResults Review.flaggedIndex];
    apply Nat.ltb_lt; lia.
Qed.

Lemma save_correction_keeps_cursor_witness :
  Review.cursor_in_range two_flagged = true /\
  Review.flaggedIndex
    (Metrics.state (Metrics.handleSaveCorrection "X is Y indeed" two_flagged))
    = 1 /\
  Review.cursor_in_range
    (Metrics.state (Metrics.handleSaveCorrection "X is Y indeed" two_flagged))
    = true.
Proof.
  split; [reflexivity|]. split; [reflexivity|].
  apply (save_correction_keeps_cursor "X is Y indeed" two_flagged).
  reflexivity.
Defined.

(** X2.  A saved correction is exported: after Save Correction with a
    text that is not blank, the corrections export is not empty and holds
    the pair made of the current record's question and the text as typed;
    a blank text changes nothing. *)
Theorem saved_correction_is_exported
    (text : string) (st : Review.State) (cur : Evaluation.EvalResult) :
  Review.currentFlagged st = Some cur ->
  (JS.trim text <> "" ->
   exists exportData notification,
     Review.exportCorrections
       (Review.evalResults
          (Metrics.state (Metrics.handleSaveCorrection text st)))
     = Review.Exported exportData notification /\
     In [ {| Review.role := "user";
             Review.content := Some (Evaluation.question (Evaluation.source cur)) |};
          {| Review.role := "assistant"; Review.content := Some text |} ]
        exportData) /\
  (JS.trim text = "" ->
   Metrics.state (Metrics.handleSaveCorrection text st) = st).
Proof.
  intros Hcur. unfold Metrics.handleSaveCorrection. rewrite Hcur. split.
  - intros Htext. apply truthy_nonempty in Htext. rewrite Htext. cbn [negb].
    set (updated := map _ (Review.evalResults st)).
    assert (Hin : In (Metrics.with_correction cur text)
                     (List.filter
                        (fun r => String.eqb (Evaluation._status r) "corrected")
                        updated)).
    { apply filter_In. split; [|reflexivity].
      unfold Review.currentFlagged in Hcur.
      apply list_elem_of_lookup_2, list_elem_of_In in Hcur.
      unfold Review.flaggedItems in Hcur. apply filter_In in Hcur as [Hcur _].
      subst updated. apply in_map_iff. exists cur.
      rewrite String.eqb_refl. split; [reflexivity | exact Hcur]. }
    assert (Hexp : forall k,
               exists exportData notification,
                 Review.exportCorrections
                   (Review.evalResults
                      {| Review.evalResults := updated;
                         Review.flaggedIndex := k |})
                 = Review.Exported exportData notification /\
                 In [ {| Review.role := "user";
                         Review.content :=
                           Some (Evaluation.question (Evaluation.source cur)) |};
                      {| Review.role := "assistant";
                         Review.content := Some text |} ] exportData).
    { intros k. cbn [Review.evalResults]. unfold Review.exportCorrections.
      destruct (List.filter _ updated) as [|c cs] eqn:E; [contradiction|].
      eexists. eexists. split; [reflexivity|].
      apply (in_map Review.reshape) in Hin. exact Hin. }
    destruct (_ <? _)%Z; cbn [Metrics.state]; apply Hexp.
  - intros Htext. rewrite Htext. reflexivity.
Qed.

Lemma saved_correction_is_exported_witness :
  Review.currentFlagged two_flagged = Some (result_with "resp_0" "flagged" None) /\
  JS.trim "X is Y indeed" <> "" /\
  exists exportData notification,
    Review.exportCorrections
      (Review.evalResults
         (Metrics.state (Metrics.handleSaveCorrection "X is Y indeed" two_flagged)))
    = Review.Exported exportData notification /\
    In [ {| Review.role := "user"; Review.content := Some "What is X?" |};
         {| Review.role := "assistant";
            Review.content := Some "X is Y indeed" |} ] exportData.
Proof.
  split; [reflexivity|]. split; [vm_compute; discriminate|].
  apply (proj1 (saved_correction_is_exported "X is Y indeed" two_flagged
                  (result_with "resp_0" "flagged" None) eq_refl)).
  vm_compute. discriminate.
Defined.

(** ** Cursor of the review queue *)

(** Without the identifier at position [k], a queue of distinct
    identifiers is the queue with position [k] deleted. *)
Lemma filter_other_ids_delete (q : list Evaluation.EvalResult) :
  forall (k : nat) (cur : Evaluation.EvalResult),
    List.NoDup (map result_id q) ->
    q !! k = Some cur ->
    List.filter (fun r => negb (String.eqb (result_id r) (result_id cur))) q
    = delete k q.
Proof.
  induction q as [|r q IH]; intros k cur Hnd Hk; [discriminate Hk|].
  cbn [map] in Hnd. apply List.NoDup_cons_iff in Hnd as [Hr Hnd].
  destruct k as [|k]; cbn in Hk; cbn [List.filter].
  - injection Hk as ->. rewrite String.eqb_refl. cbn [negb].
    exact (filter_other_ids_all q (result_id cur) Hr).
  - destruct (String.eqb_spec (result_id r) (result_id cur)) as [E|E].
    + exfalso. apply Hr. rewrite E. apply in_map.
      apply list_elem_of_In. exact (list_elem_of_lookup_2 _ _ _ Hk).
    + cbn [negb]. rewrite (IH k cur Hnd Hk). reflexivity.
Qed.

Lemma set_status_keeps_record (rs : list Evaluation.EvalResult)
    (cur : Evaluation.EvalResult) (status : string) :
  In cur rs ->
  In (Review.with_status cur status)
    (Review.set_status (result_id cur) status rs).
Proof.
  intros Hin. unfold Review.set_status. apply in_map_iff. exists cur.
  fold (result_id cur). rewrite String.eqb_refl.
  split; [reflexivity | exact Hin].
Qed.

(** X3.  With distinct identifiers in the queue, accepting or rejecting
    the current record removes exactly that record from the queue: the
    new queue is the old one with the position of the cursor deleted,
    while the record stays among the results with its new status.  The
    cursor is inside the new queue exactly when at least two records
    followed it or when it was on the last record and not on the first. *)
Theorem cursor_after_dismiss
    (status : string) (st : Review.State) (cur : Evaluation.EvalResult) :
  status = "accepted" \/ status = "rejected" ->
  List.NoDup (map result_id (Review.flaggedItems (Review.evalResults st))) ->
  Review.currentFlagged st = Some cur ->
  Review.flaggedItems (Review.evalResults (Review.dismiss status st))
  = delete (Review.flaggedIndex st)
      (Review.flaggedItems (Review.evalResults st)) /\
  In (Review.with_status cur status)
    (Review.evalResults (Review.dismiss status st)) /\
  S (length (Review.flaggedItems
               (Review.evalResults (Review.dismiss status st))))
  = length (Review.flaggedItems (Review.evalResults st)) /\
  (Review.cursor_in_range (Review.dismiss status st) = true <->
   Review.flaggedIndex st + 2
     < length (Review.flaggedItems (Review.evalResults st)) \/
   (Review.flaggedIndex st + 1
      = length (Review.flaggedItems (Review.evalResults st)) /\
    0 < Review.flaggedIndex st)).
Proof.
  intros Hs Hnd Hcur.
  pose proof (dismiss_cursor_in_range_iff status st cur Hs Hnd Hcur) as H.
  cbv zeta in H.
  assert (Hf : status <> "flagged")
    by (destruct Hs as [-> | ->]; discriminate).
  assert (Hc : status <> "corrected")
    by (destruct Hs as [-> | ->]; discriminate).
  split; [|split; [|exact H]].
  - unfold Review.dismiss. rewrite Hcur. cbn [Review.evalResults].
    fold (result_id cur). rewrite (queue_after_set_status _ _ _ Hf Hc).
    exact (filter_other_ids_delete _ _ cur Hnd Hcur).
  - unfold Review.dismiss. rewrite Hcur. cbn [Review.evalResults].
    apply set_status_keeps_record.
    unfold Review.currentFlagged, Review.flaggedItems in Hcur.
    apply list_elem_of_lookup_2, list_elem_of_In in Hcur.
    apply filter_In in Hcur as [Hin _]. exact Hin.
Qed.

Lemma cursor_after_dismiss_witness :
  Review.currentFlagged two_flagged_at_last
    = Some (result_with "resp_1" "flagged" None) /\
  Review.flaggedItems
    (Review.evalResults (Review.handleRejectItem two_flagged_at_last))
  = [result_with "resp_0" "flagged" None] /\
  Review.cursor_in_range (Review.handleRejectItem two_flagged_at_last) = true.
Proof.
  split; [reflexivity|].
  destruct (cursor_after_dismiss "rejected" two_flagged_at_last
              (result_with "resp_1" "flagged" None)
              (or_intror eq_refl)
              ltac:(vm_compute; repeat constructor;
                    cbn; intuition discriminate)
              eq_refl) as (Hq & _ & _ & Hc).
  unfold Review.handleRejectItem.
  split; [rewrite Hq; vm_compute; reflexivity|].
  apply Hc. right. vm_compute. split; [reflexivity | lia].
Defined.

(** X4.  The Previous and Next buttons never leave a non-empty queue:
    Next lands inside it from any cursor, and Previous lands inside it
    from any cursor that is at most one past the end. *)
Theorem queue_navigation_in_range (st : Review.State) :
  Review.flaggedItems (Review.evalResults st) <> [] ->
  Review.cursor_in_range (Review.next_button st) = true /\
  (Review.flaggedIndex st
     <= length (Review.flaggedItems (Review.evalResults st)) ->
   Review.cursor_in_range (Metrics.prev_button st) = true).
Proof.
  intros Hne.
  unfold Review.cursor_in_range, Review.next_button, Metrics.prev_button.
  cbn [Review.evalResults Review.flaggedIndex].
  destruct (Review.flaggedItems (Review.evalResults st)) as [|r q];
    [contradiction|].
  cbn [length]. split; [apply Nat.ltb_lt; lia|].
  intros Hk. apply Nat.ltb_lt. lia.
Qed.

Lemma queue_navigation_in_range_witness :
  Review.flaggedItems
    (Review.evalResults (Review.handleAcceptAsIs two_flagged)) <> [] /\
  Review.cursor_in_range (Review.handleAcceptAsIs two_flagged) = false /\
  Review.cursor_in_range
    (Metrics.prev_button (Review.handleAcceptAsIs two_flagged)) = true.
Proof.
  split; [vm_compute; discriminate|]. split; [reflexivity|].
  apply (proj2 (queue_navigation_in_range
                  (Review.handleAcceptAsIs two_flagged)
                  ltac:(vm_compute; discriminate))).
  vm_compute. lia.
Defined.

(** ** Evaluation summary *)

Lemma evaluate_one_status threshold outcome item :
  let r := Evaluation.evaluate_one threshold outcome item in
  (Evaluation._status r = "flagged" \/ Evaluation._status r = "passed" \/
   Evaluation._status r = "error") /\
  (1 <= Evaluation._rawScore r <= 5)%Z.
Proof.
  destruct outcome as [message | o]; cbn; [split; [auto | lia]|].
  destruct (Evaluation.judgeOutput o) as [text|]; cbn; [|split; [auto | lia]].
  split; [|apply parseJudgeOutput_score_range].
  destruct (Raft.Qltb _ threshold); auto.
Qed.

Lemma eval_loop_statuses threshold judge (todo : list Evaluation.Response) :
  forall i results,
    Forall (fun r =>
              (Evaluation._status r = "flagged" \/
               Evaluation._status r = "passed" \/
               Evaluation._status r = "error") /\
              (1 <= Evaluation._rawScore r <= 5)%Z) results ->
    Forall (fun r =>
              (Evaluation._status r = "flagged" \/
               Evaluation._status r = "passed" \/
               Evaluation._status r = "error") /\
              (1 <= Evaluation._rawScore r <= 5)%Z)
      (Evaluation.eval_loop threshold judge i todo results).
Proof.
  induction todo as [|item rest IH]; intros i results H;
    cbn [Evaluation.eval_loop]; [exact H|].
  apply IH, Forall_app. split; [exact H|].
  constructor; [apply evaluate_one_status | constructor].
Qed.

(** Three statuses that exclude each other partition a list. *)
Lemma count_three_statuses (rs : list Evaluation.EvalResult) :
  Forall (fun r =>
            Evaluation._status r = "flagged" \/
            Evaluation._status r = "passed" \/
            Evaluation._status r = "error") rs ->
  Metrics.count_status "flagged" rs + Metrics.count_status "passed" rs
  + Metrics.count_status "error" rs = length rs.
Proof.
  unfold Metrics.count_status.
  induction 1 as [|r rs Hr _ IH]; [reflexivity|]. cbn [List.filter length].
  destruct Hr as [E | [E | E]]; rewrite E; cbn [String.eqb Ascii.eqb Bool.eqb];
    cbn [length]; lia.
Qed.

(** Five buckets partition a list of scores between 1 and 5. *)
Lemma count_five_scores (rs : list Evaluation.EvalResult) :
  Forall (fun r => (1 <= Evaluation._rawScore r <= 5)%Z) rs ->
  Metrics.count_score 1 rs + Metrics.count_score 2 rs
  + Metrics.count_score 3 rs + Metrics.count_score 4 rs
  + Metrics.count_score 5 rs = length rs.
Proof.
  unfold Metrics.count_score.
  induction 1 as [|r rs Hr _ IH]; [reflexivity|]. cbn [List.filter length].
  assert (E : Evaluation._rawScore r = 1%Z \/ Evaluation._rawScore r = 2%Z \/
              Evaluation._rawScore r = 3%Z \/ Evaluation._rawScore r = 4%Z \/
              Evaluation._rawScore r = 5%Z) by lia.
  destruct E as [E | [E | [E | [E | E]]]]; rewrite E; cbn [Z.eqb Pos.eqb];
    cbn [length]; lia.
Qed.

Lemma stats_of_nonempty (rs : list Evaluation.EvalResult) :
  rs <> [] ->
  Metrics.stats rs =
    Some {| Metrics.total := length rs;
            Metrics.flagged := Metrics.count_status "flagged" rs;
            Metrics.passed := Metrics.count_status "passed" rs;
            Metrics.errors := Metrics.count_status "error" rs;
            Metrics.scoreDistribution :=
              map (fun s => Metrics.count_score s rs)
                  [1%Z; 2%Z; 3%Z; 4%Z; 5%Z] |}.
Proof. destruct rs; [contradiction | reflexivity]. Qed.

(** X5.  After an evaluation run the summary accounts for every record:
    the counts of flagged, passed and error results add up to the total,
    the total is the number of responses, and the five buckets of the
    raw-score histogram add up to the total as well. *)
Theorem evaluation_summary_accounts_for_all
    (modelResponses : list Evaluation.Response) (cfg : Evaluation.EvalConfig)
    (judge : nat -> Evaluation.Response -> Evaluation.JudgeOutcome)
    (results : list Evaluation.EvalResult) :
  Evaluation.runEvaluation modelResponses cfg judge = inr results ->
  exists s,
    Metrics.stats results = Some s /\
    Metrics.total s = length modelResponses /\
    Metrics.flagged s + Metrics.passed s + Metrics.errors s = Metrics.total s /\
    exists b1 b2 b3 b4 b5,
      Metrics.scoreDistribution s = [b1; b2; b3; b4; b5] /\
      b1 + b2 + b3 + b4 + b5 = Metrics.total s.
Proof.
  unfold Evaluation.runEvaluation.
  destruct modelResponses as [|first others]; [discriminate|].
  destruct (negb _ || negb _)%bool; [discriminate|].
  intros [= <-].
  pose proof (eval_loop_statuses (Evaluation.scoreThreshold cfg) judge
                (first :: others) 0 [] (List.Forall_nil _)) as Hall.
  pose proof (eval_loop_spec (Evaluation.scoreThreshold cfg) judge
                (first :: others) 0 []) as Hspec.
  set (results := Evaluation.eval_loop _ _ _ _ _) in *.
  assert (Hlen : length results = length (first :: others)).
  { rewrite Hspec. cbn [app]. apply length_imap. }
  assert (Hne : results <> []) by (intros E; rewrite E in Hlen; discriminate).
  eexists. split; [exact (stats_of_nonempty results Hne)|].
  cbn [Metrics.total Metrics.flagged Metrics.passed Metrics.errors
       Metrics.scoreDistribution map].
  split; [exact Hlen|]. split.
  - apply count_three_statuses.
    eapply Forall_impl; [exact Hall|]. intros r [H _]. exact H.
  - do 5 eexists. split; [reflexivity|].
    apply count_five_scores.
    eapply Forall_impl; [exact Hall|]. intros r [_ H]. exact H.
Qed.

Lemma evaluation_summary_accounts_for_all_witness :
  exists results s,
    Evaluation.runEvaluation
      [sample_response "resp_0"; sample_response "resp_1";
       sample_response "resp_2"] (configured (7 # 10)) flaky_judge
    = inr results /\
    Metrics.stats results = Some s /\
    Metrics.flagged s + Metrics.passed s + Metrics.errors s = 3 /\
    Metrics.scoreDistribution s = [1; 0; 0; 2; 0].
Proof.
  eexists. 
  destruct (evaluation_summary_accounts_for_all
              [sample_response "resp_0"; sample_response "resp_1";
               sample_response "resp_2"] (configured (7 # 10)) flaky_judge
              _ eq_refl) as (s & Hs & Ht & Hp & _).
  exists s. split; [reflexivity|]. split; [exact Hs|].
  split; [rewrite Hp, Ht; reflexivity|].
  vm_compute in Hs. injection Hs as <-. reflexivity.
Defined.

(** ** Sibling distractors *)

Lemma fallback_loop_contents dataFormat (shuffled : list Raft.Item) :
  forall i count,
    map Raft.content (Raft.fallback_loop dataFormat shuffled i count)
    = map (document_text dataFormat) (take count shuffled).
Proof.
  induction shuffled as [|item rest IH]; intros i [|k]; try reflexivity.
  cbn [Raft.fallback_loop map take Raft.content]. rewrite IH. reflexivity.
Qed.

(** X6.  The sibling fallback samples without replacement among the
    other items: its documents are built, one each, from distinct
    positions of the item list with the current position removed, there
    are min(numDistractors, number of siblings) of them (none when
    numDistractors is negative), and none is tagged as the oracle. *)
Theorem fallback_distractors_from_siblings
    (rnd : Raft.Random) (allItems : list Raft.Item) (currentIndex : nat)
    (numDistractors : Z) (dataFormat : string) :
  Raft.fair rnd ->
  let docs := Raft.createFallbackDistractors rnd allItems currentIndex
                numDistractors dataFormat in
  exists chosen : list Raft.Item,
    chosen ⊆+ delete currentIndex allItems /\
    length chosen =
      Nat.min (Z.to_nat numDistractors)
              (length (delete currentIndex allItems)) /\
    map Raft.content docs = map (document_text dataFormat) chosen /\
    length docs = length chosen /\
    Forall not_oracle docs.
Proof.
  intros [Hfair _] docs. subst docs. unfold Raft.createFallbackDistractors.
  set (siblings := delete currentIndex allItems).
  set (shuffled := Raft.shuffle_items rnd siblings).
  assert (Hperm : siblings ≡ₚ shuffled) by apply Hfair.
  set (count := Z.to_nat (Z.min numDistractors (Z.of_nat (length shuffled)))).
  exists (take count shuffled).
  assert (Hlen : length (take count shuffled)
                 = Nat.min (Z.to_nat numDistractors) (length siblings)).
  { rewrite length_take. rewrite (Permutation_length Hperm).
    subst count. lia. }
  split; [rewrite Hperm; apply submseteq_take|].
  split; [exact Hlen|].
  split; [apply fallback_loop_contents|].
  split; [|apply fallback_loop_not_oracle].
  rewrite <- (length_map Raft.content), fallback_loop_contents, length_map.
  reflexivity.
Qed.

Lemma fallback_distractors_from_siblings_witness :
  Raft.fair (reversing (1 # 2)) /\
  exists chosen : list Raft.Item,
    chosen ⊆+ delete 0 three_items /\
    length chosen = 1 /\
    map Raft.content
      (Raft.createFallbackDistractors (reversing (1 # 2)) three_items 0 1
         "sharegpt")
    = map (document_text "sharegpt") chosen.
Proof.
  split; [apply reversing_fair|].
  destruct (fallback_distractors_from_siblings (reversing (1 # 2))
              three_items 0 1 "sharegpt" (reversing_fair (1 # 2)))
    as (chosen & Hsub & Hlen & Hc & _).
  exists chosen. split; [exact Hsub|]. split; [exact Hlen | exact Hc].
Defined.

(** ** Number of distractors of a sample *)

Lemma slice_to_length {A} (n : Z) (l : list A) :
  (0 <= n)%Z -> length (Raft.slice_to n l) = Nat.min (Z.to_nat n) (length l).
Proof.
  intros Hn. unfold Raft.slice_to.
  destruct (Z.leb_spec 0 n); [apply length_take | lia].
Qed.

Lemma fallback_length rnd allItems currentIndex numDistractors dataFormat :
  Raft.fair rnd ->
  length (Raft.createFallbackDistractors rnd allItems currentIndex
            numDistractors dataFormat)
  = Nat.min (Z.to_nat numDistractors) (length (delete currentIndex allItems)).
Proof.
  intros [Hfair _]. unfold Raft.createFallbackDistractors.
  rewrite <- (length_map Raft.content), fallback_loop_contents, length_map.
  rewrite length_take, <- (Permutation_length (Hfair _)). lia.
Qed.

(** X7.  The remote passages are topped up from the siblings up to the
    configured count: for a non-negative numDistractors a sample has
    min(numDistractors, remote passages + siblings) distractors, and its
    documents are the distractors plus the oracle when it is included:
    a rearrangement of the oracle document of the item and the
    distractors then, the distractors themselves otherwise. *)
Theorem distractors_topped_up
    (acceptedItems : list Raft.Item) (cfg : Raft.RaftConfig)
    (connected : bool) (search : Raft.SearchResult) (rnd : Raft.Random)
    (i : nat) (item : Raft.Item) :
  Raft.fair rnd ->
  (0 <= Raft.numDistractors cfg)%Z ->
  let syn := Raft.synthesize acceptedItems cfg connected search rnd i item in
  length (Raft.s_distractors syn) =
    Nat.min (Z.to_nat (Raft.numDistractors cfg))
            (remote_offer connected search + length (delete i acceptedItems)) /\
  length (Raft.s_documents syn) =
    length (Raft.s_distractors syn)
    + (if Raft.s_includeOracle syn then 1 else 0) /\
  (if Raft.s_includeOracle syn
   then Raft.s_documents syn ≡ₚ
          {| Raft.id :=
               "oracle_" +:+ JS.or_else (Raft._id item) (JS.string_of_nat i);
             Raft.content :=
               Raft.s_question syn +:+ NL +:+ NL +:+ Raft.s_answer syn;
             Raft.is_oracle := true |} :: Raft.s_distractors syn
   else Raft.s_documents syn = Raft.s_distractors syn).
Proof.
  intros Hfair Hn syn.
  assert (Hd : length (Raft.s_distractors syn) =
    Nat.min (Z.to_nat (Raft.numDistractors cfg))
            (remote_offer connected search + length (delete i acceptedItems))).
  { subst syn. unfold Raft.synthesize, remote_offer.
    destruct (Raft.Qltb (Raft.draw rnd) (Raft.oracleProbability cfg));
      cbn [Raft.s_distractors];
      (destruct connected, (Raft.success search); cbn [andb];
       [destruct (Raft.documents search) as [|p ps] eqn:Hdocs;
        cbn [length Nat.ltb Nat.leb map] | | |]);
      repeat match goal with
        | |- context [length (map ?f ?l)] => rewrite (length_map f l)
        | |- context [Raft.slice_to ?n ?l] =>
            rewrite (slice_to_length n l Hn)
        end;
      match goal with
      | |- context [if ?c then _ else _] => destruct c eqn:Hc
      end;
      try rewrite length_app;
      try rewrite (fallback_length rnd acceptedItems i _ "sharegpt" Hfair);
      repeat match goal with
        | |- context [length (map ?f ?l)] => rewrite (length_map f l)
        | |- context [Raft.slice_to ?n ?l] =>
            rewrite (slice_to_length n l Hn)
        end;
      first [apply Z.ltb_lt in Hc | apply Z.ltb_ge in Hc];
      repeat match goal with
        | H : context [length (map ?f ?l)] |- _ => rewrite (length_map f l) in H
        | H : context [Raft.slice_to ?n ?l] |- _ =>
            rewrite (slice_to_length n l Hn) in H
        end;
      cbn [length] in *; lia. }
  split; [exact Hd|].
  destruct Hfair as [_ Hdocs].
  subst syn. unfold Raft.synthesize in *.
  destruct (Raft.Qltb (Raft.draw rnd) (Raft.oracleProbability cfg));
    cbn [Raft.s_distractors Raft.s_documents Raft.s_includeOracle
         Raft.s_question Raft.s_answer] in *.
  - split; [rewrite <- (Permutation_length (Hdocs _)); cbn [length]; lia|].
    symmetry. exact (Hdocs _).
  - split; [lia | reflexivity].
Qed.

Lemma distractors_topped_up_witness :
  Raft.fair (reversing (1 # 2)) /\
  (0 <= Raft.numDistractors default_raftConfig)%Z /\
  length (Raft.s_distractors
            (Raft.synthesize three_items default_raftConfig true one_passage
               (reversing (1 # 2)) 0
               (chat_item "item_1" "What is X?" "X is Y"))) = 3 /\
  length (Raft.s_documents
            (Raft.synthesize three_items default_raftConfig true one_passage
               (reversing (1 # 2)) 0
               (chat_item "item_1" "What is X?" "X is Y"))) = 4.
Proof.
  split; [apply reversing_fair|]. split; [vm_compute; discriminate|].
  destruct (distractors_topped_up three_items default_raftConfig true
              one_passage (reversing (1 # 2)) 0
              (chat_item "item_1" "What is X?" "X is Y")
              (reversing_fair (1 # 2)) ltac:(vm_compute; discriminate))
    as (Hd & Hdocs & _).
  split; [exact Hd|]. rewrite Hdocs, Hd. reflexivity.
Defined.

(** ** The samples of a preparation run *)

Lemma synthesize_searchUsed acceptedItems cfg connected search rnd i item :
  Raft.s_searchUsed
    (Raft.synthesize acceptedItems cfg connected search rnd i item)
  = (connected && Raft.success search
     && (0 <? length (Raft.documents search))%nat)%bool.
Proof.
  unfold Raft.synthesize.
  destruct (Raft.Qltb (Raft.draw rnd) (Raft.oracleProbability cfg));
    reflexivity.
Qed.

Lemma synthesize_includeOracle acceptedItems cfg connected search rnd i item :
  Raft.s_includeOracle
    (Raft.synthesize acceptedItems cfg connected search rnd i item)
  = Raft.Qltb (Raft.draw rnd) (Raft.oracleProbability cfg).
Proof.
  unfold Raft.synthesize.
  destruct (Raft.Qltb (Raft.draw rnd) (Raft.oracleProbability cfg));
    reflexivity.
Qed.

(** The loop appends one sample per remaining item; the flag of a sample
    tells whether the success counter is positive once its item is
    processed. *)
Lemma prepare_loop_spec acceptedItems cfg connected env (todo : list Raft.Item) :
  forall i st,
    let st' := Raft.prepare_loop acceptedItems cfg connected env i todo st in
    length (Raft.prepared st')
      = length (Raft.prepared st) + length todo /\
    (forall k p, Raft.prepared st !! k = Some p ->
                 Raft.prepared st' !! k = Some p) /\
    (forall k item,
        todo !! k = Some item ->
        exists p,
          Raft.prepared st' !! (length (Raft.prepared st) + k) = Some p /\
          Raft.pr_id p = Raft._id item /\
          Raft._raft_prepared p = true /\
          Raft._oracle_included p
            = Raft.Qltb (Raft.draw (snd (env (i + k))))
                        (Raft.oracleProbability cfg) /\
          (Raft._weaviate_distractors p = true <->
           0 < Raft.weaviateSuccessCount st \/
           exists j, j <= k /\ remote_used connected env (i + j) = true)).
Proof.
  induction todo as [|item rest IH]; intros i st; cbn [Raft.prepare_loop].
  - cbn [length]. split; [lia|]. split; [auto|].
    intros k item Hk. discriminate Hk.
  - set (st1 := Raft.step acceptedItems cfg connected (fst (env i))
                  (snd (env i)) i item st).
    destruct (IH (S i) st1) as (Hlen & Hkeep & Hnew). cbv zeta in *.
    set (st' := Raft.prepare_loop acceptedItems cfg connected env (S i)
                  rest st1) in *.
    assert (Hused : Raft.weaviateSuccessCount st1
                    = Raft.weaviateSuccessCount st
                      + (if remote_used connected env i then 1 else 0)).
    { subst st1. unfold Raft.step. cbn [Raft.weaviateSuccessCount].
      rewrite synthesize_searchUsed. unfold remote_used.
      destruct (_ && _ && _)%bool; lia. }
    assert (Hp1 : exists p0,
               Raft.prepared st1 = Raft.prepared st ++ [p0] /\
               Raft.pr_id p0 = Raft._id item /\
               Raft._raft_prepared p0 = true /\
               Raft._oracle_included p0
                 = Raft.Qltb (Raft.draw (snd (env i)))
                             (Raft.oracleProbability cfg) /\
               Raft._weaviate_distractors p0
                 = (0 <? Raft.weaviateSuccessCount st1)%nat).
    { subst st1. unfold Raft.step.
      cbn [Raft.prepared Raft.weaviateSuccessCount].
      eexists. split; [reflexivity|].
      cbn [Raft.pr_id Raft._raft_prepared Raft._oracle_included
           Raft._weaviate_distractors].
      rewrite synthesize_includeOracle. repeat split. }
    destruct Hp1 as (p0 & Ep & Hid & Hrp & Hinc & Hflag).
    assert (Hlen1 : length (Raft.prepared st1)
                    = S (length (Raft.prepared st)))
      by (rewrite Ep, length_app; cbn; lia).
    split; [cbn [length]; lia|].
    split.
    { intros k p Hk. apply Hkeep. rewrite Ep.
      apply lookup_app_l_Some. exact Hk. }
    intros [|k] it Hk.
    + injection Hk as ->. exists p0. rewrite !Nat.add_0_r.
      split; [apply Hkeep; rewrite Ep; apply list_lookup_middle; reflexivity|].
      split; [exact Hid|]. split; [exact Hrp|]. split; [exact Hinc|].
      rewrite Hflag, Nat.ltb_lt, Hused. split.
      * intros H. destruct (remote_used connected env i) eqn:Eu.
        -- right. exists 0. rewrite Nat.add_0_r. split; [lia | exact Eu].
        -- left. lia.
      * intros [H | (j & Hj & Hu)]; [lia|].
        assert (j = 0) as -> by lia. rewrite Nat.add_0_r in Hu.
        rewrite Hu. lia.
    + destruct (Hnew k it Hk) as (p & Hat & Hpid & Hprp & Hpinc & Hpflag).
      exists p. rewrite Hlen1 in Hat.
      replace (length (Raft.prepared st) + S k)
        with (S (length (Raft.prepared st)) + k) by lia.
      split; [exact Hat|]. split; [exact Hpid|]. split; [exact Hprp|].
      split; [rewrite Hpinc; replace (i + S k) with (S i + k) by lia;
              reflexivity|].
      rewrite Hpflag, Hused. split.
      * intros [H | (j & Hj & Hu)].
        -- destruct (remote_used connected env i) eqn:Eu.
           ++ right. exists 0. rewrite Nat.add_0_r. split; [lia | exact Eu].
           ++ left. lia.
        -- right. exists (S j). split; [lia|].
           replace (i + S j) with (S i + j) by lia. exact Hu.
      * intros [H | (j & Hj & Hu)]; [left; lia|].
        destruct j as [|j].
        -- rewrite Nat.add_0_r in Hu. rewrite Hu. left. lia.
        -- right. exists j. split; [lia|].
           replace (S i + j) with (i + S j) by lia. exact Hu.
Qed.

(** X8.  A preparation run returns one sample per accepted item, in
    order, carrying the identifier of its item and the outcome of its
    own oracle draw.  The flag for remote distractors of a sample is set
    exactly when the remote search supplied passages to its item or to
    an earlier one; with no accepted item the run only alerts. *)
Theorem prepare_raft_samples
    (acceptedItems : list Raft.Item) (cfg : Raft.RaftConfig)
    (connected : bool) (env : nat -> Raft.SearchResult * Raft.Random) :
  Raft.handlePrepareRaft [] cfg connected env
  = inl "No accepted items to prepare. Accept some items in Data Review first."
  /\
  (acceptedItems <> [] ->
   exists prepared,
     Raft.handlePrepareRaft acceptedItems cfg connected env = inr prepared /\
     length prepared = length acceptedItems /\
     forall k item,
       acceptedItems !! k = Some item ->
       exists p,
         prepared !! k = Some p /\
         Raft.pr_id p = Raft._id item /\
         Raft._raft_prepared p = true /\
         Raft._oracle_included p
           = Raft.Qltb (Raft.draw (snd (env k)))
               (Raft.oracleProbability cfg) /\
         (Raft._weaviate_distractors p = true <->
          exists j, j <= k /\ remote_used connected env j = true)).
Proof.
  split; [reflexivity|].
  intros Hne. unfold Raft.handlePrepareRaft.
  destruct acceptedItems as [|first others] eqn:E; [contradiction|].
  rewrite <- E. clear Hne.
  destruct (prepare_loop_spec acceptedItems cfg connected env acceptedItems 0
              {| Raft.prepared := []; Raft.weaviateSuccessCount := 0;
                 Raft.fallbackCount := 0 |}) as (Hlen & _ & Hnew).
  cbn [Raft.prepared Raft.weaviateSuccessCount length Nat.add] in *.
  eexists. split; [reflexivity|]. split; [exact Hlen|].
  intros k item Hk.
  destruct (Hnew k item Hk) as (p & Hat & Hid & Hrp & Hinc & Hflag).
  exists p. split; [exact Hat|]. split; [exact Hid|]. split; [exact Hrp|].
  split; [exact Hinc|]. rewrite Hflag. split.
  - intros [H | H]; [lia | exact H].
  - intros H. right. exact H.
Qed.

Lemma prepare_raft_samples_witness :
  three_items <> [] /\
  Raft.handlePrepareRaft [] default_raftConfig true search_at_one
  = inl "No accepted items to prepare. Accept some items in Data Review first."
  /\
  exists prepared,
    Raft.handlePrepareRaft three_items default_raftConfig true search_at_one
      = inr prepared /\
    map Raft._weaviate_distractors prepared = [false; true; true] /\
    map Raft.pr_id prepared = [Some "item_1"; Some "item_2"; Some "item_3"].
Proof.
  split; [discriminate|].
  destruct (prepare_raft_samples three_items default_raftConfig true
              search_at_one) as (Halert & Hsamples).
  split; [exact Halert|].
  destruct (Hsamples ltac:(discriminate)) as (prepared & Hrun & _).
  exists prepared. split; [exact Hrun|].
  vm_compute in Hrun. injection Hrun as <-. split; reflexivity.
Defined.

(** ** The stand-alone sample builder *)



(** ** Remote passages *)

Lemma is_prefix_slice0 (n : nat) :
  forall needle s,
    Judge.is_prefix needle s = true ->
    Judge.is_prefix (JS.slice0 n needle) s = true.
Proof.
  induction n as [|n IH]; intros needle s H; [reflexivity|].
  destruct needle as [|c needle]; [reflexivity|].
  cbn [JS.slice0]. destruct s as [|e s]; [discriminate H|].
  cbn [Judge.is_prefix] in *. apply andb_prop in H as [Hc H].
  rewrite Hc. cbn [andb]. exact (IH _ _ H).
Qed.

Lemma includes_slice0 (n : nat) (needle : string) :
  forall s,
    Search.includes s needle = true ->
    Search.includes s (JS.slice0 n needle) = true.
Proof.
  induction s as [|c s IH]; cbn [Search.includes]; intros H.
  - apply orb_prop in H as [H | H]; [|discriminate].
    rewrite (is_prefix_slice0 n _ _ H). reflexivity.
  - apply orb_prop in H as [H | H].
    + rewrite (is_prefix_slice0 n _ _ H). reflexivity.
    + rewrite (IH H). apply orb_true_r.
Qed.

Lemma is_prefix_refl (s : string) : Judge.is_prefix s s = true.
Proof.
  induction s as [|c s IH]; [reflexivity|].
  cbn [Judge.is_prefix]. rewrite Ascii.eqb_refl. exact IH.
Qed.

Lemma includes_refl (s : string) : Search.includes s s = true.
Proof. destruct s; cbn [Search.includes]; rewrite is_prefix_refl; reflexivity. Qed.

(** X10.  The remote search never returns an empty passage, and with a
    non-empty answer to exclude it never returns a passage whose text
    contains that answer, whatever the letter case; in particular never
    the answer itself.  A failed search returns no passage and an error
    message. *)
Theorem search_never_returns_the_answer
    (cfg : Search.Config) (excludeContent : string) (fresh : nat -> string)
    (reply : Search.Reply) :
  let o := Search.searchWeaviate cfg excludeContent fresh reply in
  Forall (fun d =>
            Search.content d <> "" /\
            (excludeContent <> "" ->
             Search.includes (JS.toLowerCase (Search.content d))
                             (JS.toLowerCase excludeContent) = false /\
             Search.content d <> excludeContent))
         (Search.documents o) /\
  (Search.success o = false ->
   Search.documents o = [] /\ exists message, Search.error o = Some message).
Proof.
  intros o. split.
  - assert (Hkeep : forall d,
               Search.keep excludeContent d = true ->
               Search.content d <> "" /\
               (excludeContent <> "" ->
                Search.includes (JS.toLowerCase (Search.content d))
                                (JS.toLowerCase excludeContent) = false /\
                Search.content d <> excludeContent)).
    { intros d. unfold Search.keep.
      destruct (JS.truthy excludeContent) eqn:Ht; cbn [andb].
      - destruct (Search.includes _ (JS.slice0 100 _)) eqn:Hi; [discriminate|].
        intros Hlen.
        assert (Hno : Search.includes (JS.toLowerCase (Search.content d))
                        (JS.toLowerCase excludeContent) = false).
        { destruct (Search.includes _ (JS.toLowerCase excludeContent)) eqn:Hf;
            [|reflexivity].
          rewrite (includes_slice0 100 _ _ Hf) in Hi. discriminate Hi. }
        split; [destruct (Search.content d); [discriminate Hlen | discriminate]|].
        intros _. split; [exact Hno|].
        intros Heq. rewrite Heq, includes_refl in Hno. discriminate Hno.
      - intros Hlen.
        split; [destruct (Search.content d); [discriminate Hlen | discriminate]|].
        intros Hne. apply truthy_nonempty in Hne. congruence. }
    subst o. unfold Search.searchWeaviate.
    destruct (negb _ || negb _)%bool; [constructor|].
    destruct reply; cbn [Search.documents]; try constructor.
    apply Forall_forall. intros d Hd.
    apply list_elem_of_In, filter_In in Hd as [_ Hd]. exact (Hkeep d Hd).
  - subst o. unfold Search.searchWeaviate.
    destruct (negb _ || negb _)%bool; [intros _; split; eauto|].
    destruct reply; cbn [Search.success Search.documents Search.error];
      intros H; try discriminate H; split; eauto.
Qed.

(** ** Quoted CSV text parses back to the table *)

Lemma parse_open_quote s rows cr cf :
  Csv.parse_loop (String Csv.DQUOTE s) rows cr cf false
  = Csv.parse_loop s rows cr cf true.
Proof. destruct s; reflexivity. Qed.

Lemma parse_close_quote rest rows cr cf :
  no_quote_head rest = true ->
  Csv.parse_loop (String Csv.DQUOTE rest) rows cr cf true
  = Csv.parse_loop rest rows cr cf false.
Proof.
  destruct rest as [|c r]; [reflexivity|]. cbn [no_quote_head]. intros Hc.
  apply negb_true_iff in Hc. cbn [Csv.parse_loop].
  change (Ascii.eqb Csv.DQUOTE Csv.DQUOTE) with true. cbv iota.
  rewrite Hc. reflexivity.
Qed.

Lemma parse_quoted_char c s rows cr cf :
  Ascii.eqb c Csv.DQUOTE = false ->
  Csv.parse_loop (String c s) rows cr cf true
  = Csv.parse_loop s rows cr (cf +:+ String c "") true.
Proof.
  intros Hc. cbn [Csv.parse_loop]. rewrite Hc.
  rewrite !andb_false_r. reflexivity.
Qed.

(** Inside quotes the escaped field is read back up to its closing
    quote. *)
Lemma parse_escaped_field f :
  forall rest rows cr cf,
    no_quote_head rest = true ->
    Csv.parse_loop (escape_quotes f +:+ String Csv.DQUOTE rest) rows cr cf true
    = Csv.parse_loop rest rows cr (cf +:+ f) false.
Proof.
  induction f as [|c f IH]; intros rest rows cr cf Hrest.
  - change ("" +:+ String Csv.DQUOTE rest) with (String Csv.DQUOTE rest).
    rewrite append_empty_r. apply parse_close_quote, Hrest.
  - cbn [escape_quotes]. destruct (Ascii.eqb c Csv.DQUOTE) eqn:Hc.
    + apply Ascii.eqb_eq in Hc. subst c. rewrite !append_cons.
      change (Csv.parse_loop
                (String Csv.DQUOTE (String Csv.DQUOTE
                   (escape_quotes f +:+ String Csv.DQUOTE rest)))
                rows cr cf true)
        with (Csv.parse_loop (escape_quotes f +:+ String Csv.DQUOTE rest)
                rows cr (cf +:+ String Csv.DQUOTE "") true).
      rewrite (IH rest rows cr _ Hrest), append_assoc. reflexivity.
    + rewrite append_cons, (parse_quoted_char c _ rows cr cf Hc).
      rewrite (IH rest rows cr _ Hrest), append_assoc. reflexivity.
Qed.

Lemma parse_quoted_field f rest rows cr :
  no_quote_head rest = true ->
  Csv.parse_loop (quote_field f +:+ rest) rows cr "" false
  = Csv.parse_loop rest rows cr f false.
Proof.
  intros Hrest. unfold quote_field.
  rewrite append_cons, append_assoc, parse_open_quote.
  change (String Csv.DQUOTE "" +:+ rest) with (String Csv.DQUOTE rest).
  exact (parse_escaped_field f rest rows cr "" Hrest).
Qed.

(** A rendered row leaves its last field pending and the others pushed. *)
Lemma parse_rendered_row (fields : list string) :
  forall f rest rows cr,
    no_quote_head rest = true ->
    Csv.parse_loop (render_row (f :: fields) +:+ rest) rows cr "" false
    = Csv.parse_loop rest rows
        (cr ++ map JS.trim (List.removelast (f :: fields)))
        (List.last (f :: fields) "") false.
Proof.
  induction fields as [|g gs IH]; intros f rest rows cr Hrest.
  - cbn [render_row List.removelast List.last map]. rewrite app_nil_r.
    apply parse_quoted_field, Hrest.
  - change (render_row (f :: g :: gs))
      with (quote_field f +:+ String Csv.COMMA (render_row (g :: gs))).
    rewrite append_assoc, append_cons.
    rewrite parse_quoted_field by reflexivity.
    change (Csv.parse_loop
              (String Csv.COMMA (render_row (g :: gs) +:+ rest)) rows cr f false)
      with (Csv.parse_loop (render_row (g :: gs) +:+ rest) rows
              (cr ++ [JS.trim f]) "" false).
    rewrite (IH g rest rows _ Hrest).
    change (List.removelast (f :: g :: gs)) with (f :: List.removelast (g :: gs)).
    change (List.last (f :: g :: gs) "") with (List.last (g :: gs) "").
    cbn [map]. rewrite <- app_assoc. reflexivity.
Qed.

Lemma render_rows_head eol (r : list string) rest :
  r <> [] -> exists x, render_rows eol (r :: rest) = String Csv.DQUOTE x.
Proof.
  intros Hr. destruct r as [|f fs]; [contradiction|].
  assert (Hrow : exists y, render_row (f :: fs) = String Csv.DQUOTE y).
  { destruct fs; cbn [render_row]; unfold quote_field;
      [|rewrite append_cons]; eauto. }
  destruct Hrow as [y Hy].
  destruct rest; cbn [render_rows]; rewrite Hy; [|rewrite append_cons]; eauto.
Qed.

Lemma parse_line_ending eol x rows cr cf :
  line_ending eol ->
  Csv.parse_loop (eol +:+ String Csv.DQUOTE x) rows cr cf false
  = Csv.parse_loop (String Csv.DQUOTE x) (Csv.close_row rows cr cf) [] "" false.
Proof. intros [-> | [-> | ->]]; reflexivity. Qed.

Lemma line_ending_head eol rest :
  line_ending eol -> no_quote_head (eol +:+ rest) = true.
Proof. intros [-> | [-> | ->]]; reflexivity. Qed.

Lemma good_row_nonempty (r : list string) :
  good_row (map JS.trim r) -> r <> [].
Proof. intros H ->. discriminate H. Qed.

Lemma close_trimmed_row rows (r : list string) :
  good_row (map JS.trim r) ->
  Csv.close_row rows (map JS.trim (List.removelast r)) (List.last r "")
  = rows ++ [map JS.trim r].
Proof.
  intros Hgood. unfold Csv.close_row.
  assert (E : map JS.trim (List.removelast r) ++ [JS.trim (List.last r "")]
              = map JS.trim r).
  { rewrite (app_removelast_last "" (good_row_nonempty r Hgood)) at 3.
    rewrite map_app. reflexivity. }
  rewrite E. unfold good_row in Hgood. rewrite Hgood. reflexivity.
Qed.

(** The loop over a rendered table leaves the last row pending. *)
Lemma parse_rendered_rows eol (rows : list (list string)) :
  line_ending eol ->
  forall r acc,
    Forall (fun r => good_row (map JS.trim r)) (r :: rows) ->
    Csv.parse_loop (render_rows eol (r :: rows)) acc [] "" false
    = (acc ++ map (map JS.trim) (List.removelast (r :: rows)),
       map JS.trim (List.removelast (List.last (r :: rows) [])),
       List.last (List.last (r :: rows) []) "").
Proof.
  intros Heol. induction rows as [|r2 rs IH]; intros r acc Hall.
  - inversion Hall as [|? ? Hr _]; subst.
    destruct r as [|f fs]; [discriminate Hr|].
    cbn [render_rows List.removelast List.last map]. rewrite app_nil_r.
    rewrite <- (append_empty_r (render_row (f :: fs))).
    rewrite parse_rendered_row by reflexivity. reflexivity.
  - inversion Hall as [|? ? Hr Hrest]; subst.
    inversion Hrest as [|? ? Hr2 _]; subst.
    destruct r as [|f fs]; [discriminate Hr|].
    change (render_rows eol ((f :: fs) :: r2 :: rs))
      with (render_row (f :: fs) +:+ eol +:+ render_rows eol (r2 :: rs)).
    rewrite parse_rendered_row by (apply line_ending_head, Heol).
    destruct (render_rows_head eol r2 rs (good_row_nonempty r2 Hr2))
      as [x Hx].
    rewrite Hx, (parse_line_ending eol x _ _ _ Heol), <- Hx.
    cbn [app]. rewrite (close_trimmed_row acc (f :: fs) Hr).
    rewrite (IH r2 _ Hrest).
    change (List.removelast ((f :: fs) :: r2 :: rs))
      with ((f :: fs) :: List.removelast (r2 :: rs)).
    change (List.last ((f :: fs) :: r2 :: rs) []) with (List.last (r2 :: rs) []).
    cbn [map]. rewrite <- app_assoc. reflexivity.
Qed.

(** X11.  Quoted CSV text parses back to the table it was written from:
    when every field is written in double quotes with inner quotes
    doubled, fields joined by commas and rows by LF, CRLF or CR, the
    parser returns the rows in order with each field trimmed, whatever
    commas, quotes and line breaks the fields hold, provided every row
    has a field that is not blank. *)
Theorem csv_quoted_round_trip (eol : string) (rows : list (list string)) :
  line_ending eol ->
  Forall (fun r => good_row (map JS.trim r)) rows ->
  Csv.parseCSV (render_rows eol rows) = map (map JS.trim) rows.
Proof.
  intros Heol Hall. destruct rows as [|r rows]; [reflexivity|].
  unfold Csv.parseCSV.
  rewrite (parse_rendered_rows eol rows Heol r [] Hall). cbn [app].
  assert (Hne : r :: rows <> []) by discriminate.
  assert (Hlast : good_row (map JS.trim (List.last (r :: rows) []))).
  { rewrite Forall_forall in Hall. apply Hall.
    rewrite (app_removelast_last [] Hne) at 2.
    apply elem_of_app. right. left. }
  set (lr := List.last (r :: rows) []) in *.
  assert (Hcond : (JS.truthy (List.last lr "")
                   || (0 <? length (map JS.trim (List.removelast lr)))%nat)%bool
                  = true).
  { destruct lr as [|f fs]; [discriminate Hlast|].
    destruct fs as [|g gs].
    - cbn [List.last List.removelast map length]. unfold good_row in Hlast.
      cbn in Hlast. rewrite orb_false_r in Hlast.
      destruct f; [discriminate Hlast | reflexivity].
    - change (List.removelast (f :: g :: gs)) with (f :: List.removelast (g :: gs)).
      cbn [map length]. apply orb_true_r. }
  rewrite Hcond, (close_trimmed_row _ lr Hlast).
  rewrite (app_removelast_last [] Hne) at 2. rewrite map_app. reflexivity.
Qed.

Lemma csv_quoted_round_trip_witness :
  line_ending (String Csv.CR (String Csv.LF "")) /\
  Forall (fun r => good_row (map JS.trim r)) tricky_table /\
  Csv.parseCSV (render_rows (String Csv.CR (String Csv.LF "")) tricky_table)
  = [ ["question"; "answer"];
      ["Who said " +:+ quoted "hi" +:+ ", and when?"; "Nobody"];
      ["Two" +:+ NL +:+ "lines"; ""] ].
Proof.
  assert (Heol : line_ending (String Csv.CR (String Csv.LF "")))
    by (right; left; reflexivity).
  assert (Hall : Forall (fun r => good_row (map JS.trim r)) tricky_table)
    by (repeat constructor).
  split; [exact Heol|]. split; [exact Hall|].
  rewrite (csv_quoted_round_trip _ tricky_table Heol Hall).
  vm_compute. reflexivity.
Defined.

(** ** Columns are found by name, then by position *)

Lemma fill_row_absent (values : list string) (name : string) headers :
  forall idx (row : gmap string string),
    name ∉ headers ->
    Csv.fill_row headers idx values row !! name = row !! name.
Proof.
  induction headers as [|h hs IH]; intros idx row Hn; [reflexivity|].
  cbn [Csv.fill_row]. apply not_elem_of_cons in Hn as [Hne Hn].
  rewrite (IH _ _ Hn). apply lookup_insert_ne. congruence.
Qed.

Lemma fill_row_last (values : list string) (name : string) headers :
  forall i idx (row : gmap string string),
    last_position headers name i ->
    Csv.fill_row headers idx values row !! name
    = Some (JS.or_else (values !! (idx + i)) "").
Proof.
  induction headers as [|h hs IH]; intros i idx row [Hat Hlast];
    [discriminate Hat|].
  cbn [Csv.fill_row]. destruct i as [|i].
  - injection Hat as ->. rewrite Nat.add_0_r.
    rewrite fill_row_absent; [apply lookup_insert_eq|].
    intros Hin. apply list_elem_of_lookup in Hin as [k Hk].
    apply (Hlast (S k)); [lia | exact Hk].
  - rewrite (IH i (S idx)).
    + replace (S idx + i) with (idx + S i) by lia. reflexivity.
    + split; [exact Hat|]. intros k Hk. apply (Hlast (S k)). lia.
Qed.

(** X12.  Columns are found by name, not by position: when the header
    row has a column named question and a column named answer (the last
    one of each name counts), a row whose cells in these columns are not
    empty becomes the pair of these two cells, wherever the columns are
    and whatever the other columns hold. *)
Theorem csv_columns_by_name
    (headers values : list string) (i j : nat) (q a : string) :
  last_position headers "question" i ->
  last_position headers "answer" j ->
  values !! i = Some q -> values !! j = Some a ->
  q <> "" -> a <> "" ->
  Csv.convert_row "sharegpt" headers values =
    Some (Csv.ShareGPT [ {| Csv.role := "user"; Csv.content := q |};
                         {| Csv.role := "assistant"; Csv.content := a |} ]).
Proof.
  intros Hi Hj Hq Ha Hqne Hane. unfold Csv.convert_row.
  change (String.eqb "sharegpt" "sharegpt") with true. cbv iota.
  rewrite (fill_row_last values "question" headers i 0 ∅ Hi).
  rewrite (fill_row_last values "answer" headers j 0 ∅ Hj).
  cbn [Nat.add]. rewrite Hq, Ha.
  apply truthy_nonempty in Hqne, Hane.
  cbn [JS.or_else]. rewrite Hqne, Hane. cbn [JS.or_else].
  rewrite Hqne, Hane. reflexivity.
Qed.

Lemma csv_columns_by_name_witness :
  last_position ["answer"; "notes"; "question"] "question" 2 /\
  last_position ["answer"; "notes"; "question"] "answer" 0 /\
  Csv.parseCSV csv_answer_first
    = [["Answer"; "Notes"; "QUESTION"]; ["X is Y"; "checked"; "What is X?"]] /\
  headers_of csv_answer_first = ["answer"; "notes"; "question"] /\
  Csv.convert_row "sharegpt" ["answer"; "notes"; "question"]
    ["X is Y"; "checked"; "What is X?"]
  = Some (Csv.ShareGPT
            [ {| Csv.role := "user"; Csv.content := "What is X?" |};
              {| Csv.role := "assistant"; Csv.content := "X is Y" |} ]).
Proof.
  assert (H2 : last_position ["answer"; "notes"; "question"] "question" 2).
  { split; [reflexivity|]. intros [|[|[|k]]] Hk; try lia; discriminate. }
  assert (H0 : last_position ["answer"; "notes"; "question"] "answer" 0).
  { split; [reflexivity|]. intros [|[|[|k]]] Hk; try lia; discriminate. }
  split; [exact H2|]. split; [exact H0|].
  split; [vm_compute; reflexivity|]. split; [vm_compute; reflexivity|].
  apply (csv_columns_by_name _ _ 2 0 "What is X?" "X is Y" H2 H0);
    try reflexivity; discriminate.
Defined.

(** X13.  Without a known column name the first two columns are used:
    when no header is one of question, prompt, input, q and none is one
    of answer, response, output, a, a row becomes the pair of its first
    and second fields. *)
Theorem csv_positional_fallback (headers values : list string) :
  Forall (fun name => name ∉ headers) question_aliases ->
  Forall (fun name => name ∉ headers) answer_aliases ->
  Csv.convert_row "sharegpt" headers values =
    Some (Csv.ShareGPT
            [ {| Csv.role := "user";
                 Csv.content := Csv.nth_field values 0 |};
              {| Csv.role := "assistant";
                 Csv.content := Csv.nth_field values 1 |} ]).
Proof.
  intros Hq Ha. unfold Csv.convert_row.
  change (String.eqb "sharegpt" "sharegpt") with true. cbv iota.
  unfold question_aliases, answer_aliases in *.
  repeat match goal with
         | H : Forall _ (_ :: _) |- _ =>
             apply Forall_cons_1 in H; destruct H as [? H]
         end.
  rewrite !fill_row_absent by assumption.
  rewrite !lookup_empty. reflexivity.
Qed.

Lemma csv_positional_fallback_witness :
  Forall (fun name => name ∉ ["term"; "definition"]) question_aliases /\
  Forall (fun name => name ∉ ["term"; "definition"]) answer_aliases /\
  Csv.csvToJson ("Term,Definition" +:+ NL +:+ "X,The letter X") "sharegpt"
  = [ Csv.ShareGPT
        [ {| Csv.role := "user"; Csv.content := "X" |};
          {| Csv.role := "assistant"; Csv.content := "The letter X" |} ] ] /\
  Csv.convert_row "sharegpt" ["term"; "definition"] ["X"; "The letter X"]
  = Some (Csv.ShareGPT
            [ {| Csv.role := "user"; Csv.content := "X" |};
              {| Csv.role := "assistant"; Csv.content := "The letter X" |} ]).
Proof.
  assert (Hq : Forall (fun name => name ∉ ["term"; "definition"])
                 question_aliases).
  { repeat constructor; intros H; repeat (apply elem_of_cons in H as [H|H];
      [discriminate H|]); inversion H. }
  assert (Ha : Forall (fun name => name ∉ ["term"; "definition"])
                 answer_aliases).
  { repeat constructor; intros H; repeat (apply elem_of_cons in H as [H|H];
      [discriminate H|]); inversion H. }
  split; [exact Hq|]. split; [exact Ha|].
  split; [vm_compute; reflexivity|].
  exact (csv_positional_fallback ["term"; "definition"] ["X"; "The letter X"]
           Hq Ha).
Defined.

(* ================================================================== *)
(** ** Data review                                                      *)
(* ================================================================== *)

(** *** Properties of an item *)

Lemma assoc_set_prop_eq k v props :
  Store.assoc k (DataReview.set_prop k v props) = Some v.
Proof.
  induction props as [|[k' v'] rest IH]; cbn.
  - rewrite String.eqb_refl. reflexivity.
  - destruct (String.eqb k k') eqn:E; cbn; rewrite E; [reflexivity | exact IH].
Qed.

Lemma assoc_set_prop_ne k k' v props :
  k <> k' ->
  Store.assoc k' (DataReview.set_prop k v props) = Store.assoc k' props.
Proof.
  intros Hne. induction props as [|[k0 v0] rest IH]; cbn.
  - destruct (String.eqb k' k) eqn:E; [|reflexivity].
    apply String.eqb_eq in E. congruence.
  - destruct (String.eqb k k0) eqn:E; cbn.
    + apply String.eqb_eq in E. subst k0.
      destruct (String.eqb k' k) eqn:E2; [|reflexivity].
      apply String.eqb_eq in E2. congruence.
    + destruct (String.eqb k' k0); [reflexivity | exact IH].
Qed.

Lemma set_prop_same k v props :
  Store.assoc k props = Some v -> DataReview.set_prop k v props = props.
Proof.
  induction props as [|[k0 v0] rest IH]; cbn; [discriminate|].
  destruct (String.eqb k k0) eqn:E.
  - intros [= ->]. reflexivity.
  - intros H. rewrite (IH H). reflexivity.
Qed.

Lemma assoc_remove_prop_eq k props :
  Store.assoc k (DataReview.remove_prop k props) = None.
Proof.
  induction props as [|[k0 v0] rest IH]; cbn; [reflexivity|].
  destruct (String.eqb k k0) eqn:E; cbn; [exact IH|].
  rewrite E. exact IH.
Qed.

Lemma assoc_remove_prop_ne k k' props :
  k <> k' ->
  Store.assoc k' (DataReview.remove_prop k props) = Store.assoc k' props.
Proof.
  intros Hne. induction props as [|[k0 v0] rest IH]; cbn; [reflexivity|].
  destruct (String.eqb k k0) eqn:E; cbn.
  - apply String.eqb_eq in E. subst k0.
    destruct (String.eqb k' k) eqn:E2; [|exact IH].
    apply String.eqb_eq in E2. congruence.
  - destruct (String.eqb k' k0); [reflexivity | exact IH].
Qed.

Lemma or_json_truthy v d :
  Store.truthy d = true -> Store.truthy (Store.or_json v d) = true.
Proof.
  intros Hd. destruct v as [x|]; cbn; [|exact Hd].
  destruct (Store.truthy x) eqn:E; [exact E | exact Hd].
Qed.

Lemma or_json_of_truthy x d :
  Store.truthy x = true -> Store.or_json (Some x) d = x.
Proof. intros H. cbn. rewrite H. reflexivity. Qed.

(** A value that is not truthy has no property to copy. *)
Lemma falsy_own_props v :
  Store.truthy v = false -> v = Store.JNull \/ DataReview.own_props v = [].
Proof.
  destruct v as [|b|n|s|l|p]; cbn; intros H; try discriminate; auto.
  destruct s; [right; reflexivity | discriminate].
Qed.

(** *** Initialisation *)

Lemma fresh_id_truthy now index :
  Store.truthy (Store.JStr (DataReview.fresh_id now index)) = true.
Proof. reflexivity. Qed.

Lemma fresh_id_inj now i j :
  DataReview.fresh_id (now i) i = DataReview.fresh_id (now j) j -> i = j.
Proof.
  unfold DataReview.fresh_id. intros H.
  apply append_cancel_l in H.
  apply string_of_nat_inj.
  refine (proj2 (decimal_prefix_unique _ _ "_"%char _ _ _ _ _ H));
    try apply string_of_uint_decimal; reflexivity.
Qed.

Lemma init_from_spec now data :
  forall idx,
    existsb DataReview.is_null data = false ->
    exists out,
      DataReview.init_from now idx data = DataReview.Ok out /\
      length out = length data /\
      forall i item,
        data !! i = Some item ->
        exists o,
          out !! i = Some o /\
          DataReview.init_item (now (idx + i)) (idx + i) item
          = DataReview.Ok o.
Proof.
  induction data as [|item rest IH]; intros idx Hnull.
  - exists []. split; [reflexivity|]. split; [reflexivity|].
    intros i x H. discriminate H.
  - cbn in Hnull. apply orb_false_elim in Hnull as [Hitem Hrest].
    cbn [DataReview.init_from].
    destruct (DataReview.init_item (now idx) idx item) as [first|] eqn:Ei.
    2:{ unfold DataReview.init_item in Ei. rewrite Hitem in Ei.
        discriminate Ei. }
    destruct (IH (S idx) Hrest) as (out & E & Hlen & Hout). rewrite E.
    exists (first :: out). split; [reflexivity|].
    split; [cbn; rewrite Hlen; reflexivity|].
    intros [|i] x Hx; cbn in Hx.
    + injection Hx as <-. exists first. rewrite Nat.add_0_r.
      split; [reflexivity | exact Ei].
    + destruct (Hout i x Hx) as (o & Ho & Eo). exists o.
      replace (idx + S i) with (S idx + i) by lia.
      split; [exact Ho | exact Eo].
Qed.

(** What [initializeWithStatus] leaves in place of a record. *)
Lemma init_item_props now index item o :
  DataReview.init_item now index item = DataReview.Ok o ->
  exists props,
    o = Store.JObj props /\
    Store.assoc "_id" props
    = Some (Store.or_json (DataReview.prop item "_id")
              (Store.JStr (DataReview.fresh_id now index))) /\
    Store.assoc "_status" props
    = Some (Store.or_json (DataReview.prop item "_status")
              (Store.JStr "pending")) /\
    forall k, k <> "_id" -> k <> "_status" ->
              Store.assoc k props = DataReview.prop item k.
Proof.
  unfold DataReview.init_item.
  destruct (DataReview.is_null item); [discriminate|].
  intros [= <-]. eexists. split; [reflexivity|].
  split; [|split].
  - rewrite assoc_set_prop_ne by discriminate. apply assoc_set_prop_eq.
  - apply assoc_set_prop_eq.
  - intros k H1 H2. rewrite !assoc_set_prop_ne by congruence. reflexivity.
Qed.

(** X14.  Initialising records that contain no null keeps their number
    and order and turns each into an object that has the properties it
    came with, its own [_id] when that is truthy and a generated one
    otherwise, and its own [_status] when that is truthy and pending
    otherwise.  Two records that arrive without an id never get the
    same one. *)
Theorem initialize_assigns_ids_and_statuses
    (now : nat -> nat) (data : list Store.json) :
  existsb DataReview.is_null data = false ->
  exists out,
    DataReview.initializeWithStatus now data = DataReview.Ok out /\
    length out = length data /\
    (forall i item,
        data !! i = Some item ->
        exists props,
          out !! i = Some (Store.JObj props) /\
          Store.assoc "_id" props
          = Some (Store.or_json (DataReview.prop item "_id")
                    (Store.JStr (DataReview.fresh_id (now i) i))) /\
          Store.assoc "_status" props
          = Some (Store.or_json (DataReview.prop item "_status")
                    (Store.JStr "pending")) /\
          forall k, k <> "_id" -> k <> "_status" ->
                    Store.assoc k props = DataReview.prop item k) /\
    (forall i j a b oa ob,
        i <> j ->
        data !! i = Some a -> data !! j = Some b ->
        DataReview.prop a "_id" = None -> DataReview.prop b "_id" = None ->
        out !! i = Some oa -> out !! j = Some ob ->
        DataReview.prop oa "_id" <> DataReview.prop ob "_id").
Proof.
  intros Hnull. unfold DataReview.initializeWithStatus.
  destruct (init_from_spec now data 0 Hnull) as (out & E & Hlen & Hout).
  exists out. split; [exact E|]. split; [exact Hlen|]. split.
  - intros i item Hi. destruct (Hout i item Hi) as (o & Ho & Eo).
    cbn in Eo. destruct (init_item_props _ _ _ _ Eo) as (props & -> & P).
    exists props. split; [exact Ho | exact P].
  - intros i j a b oa ob Hij Ha Hb Ia Ib Hoa Hob Heq.
    destruct (Hout i a Ha) as (o1 & Ho1 & E1).
    destruct (Hout j b Hb) as (o2 & Ho2 & E2).
    cbn in E1, E2.
    destruct (init_item_props _ _ _ _ E1) as (p1 & -> & P1 & _).
    destruct (init_item_props _ _ _ _ E2) as (p2 & -> & P2 & _).
    rewrite Ho1 in Hoa. rewrite Ho2 in Hob.
    injection Hoa as <-. injection Hob as <-.
    unfold DataReview.prop in Heq. cbn [DataReview.own_props] in Heq.
    rewrite P1, P2, Ia, Ib in Heq. cbn [Store.or_json] in Heq.
    apply Hij, (fresh_id_inj now). congruence.
Qed.

Lemma initialize_assigns_ids_and_statuses_witness :
  exists out,
    DataReview.initializeWithStatus (fixed_clock 1700) incoming_records
    = DataReview.Ok out /\
    length out = 3 /\
    (fun o => DataReview.prop o "_id") <$> out !! 0
    = Some (Some (Store.JStr "item_1700_0")) /\
    (fun o => DataReview.prop o "_id") <$> out !! 1
    = Some (Some (Store.JStr "row-7")) /\
    (fun o => DataReview.prop o "_status") <$> out !! 2
    = Some (Some (Store.JStr "pending")).
Proof.
  destruct (initialize_assigns_ids_and_statuses (fixed_clock 1700)
              incoming_records eq_refl) as (out & E & Hlen & _).
  exists out. split; [exact E|]. split; [exact Hlen|].
  vm_compute in E. injection E as <-. vm_compute. repeat split.
Defined.
(** An item as [initializeWithStatus] leaves it: an object whose
    [_id] and [_status] are truthy. *)
Lemma init_item_fixed now index item o :
  DataReview.init_item now index item = DataReview.Ok o ->
  forall now' index', DataReview.init_item now' index' o = DataReview.Ok o.
Proof.
  intros E now' index'.
  destruct (init_item_props _ _ _ _ E) as (props & -> & Hid & Hst & _).
  unfold DataReview.init_item, DataReview.prop.
  cbn [DataReview.is_null DataReview.own_props].
  rewrite Hid, Hst.
  rewrite !or_json_of_truthy
    by (apply or_json_truthy; reflexivity).
  rewrite (set_prop_same _ _ _ Hid), (set_prop_same _ _ _ Hst).
  reflexivity.
Qed.

Lemma init_from_fixed later out :
  forall idx,
    Forall (fun o => forall now' index',
                DataReview.init_item now' index' o = DataReview.Ok o) out ->
    DataReview.init_from later idx out = DataReview.Ok out.
Proof.
  induction out as [|o rest IH]; intros idx H; [reflexivity|].
  apply Forall_cons in H as [Ho Hrest].
  cbn [DataReview.init_from]. rewrite Ho, (IH _ Hrest). reflexivity.
Qed.

Lemma init_from_items now data :
  forall idx out,
    DataReview.init_from now idx data = DataReview.Ok out ->
    Forall (fun o => exists t i item,
                DataReview.init_item t i item = DataReview.Ok o) out.
Proof.
  induction data as [|item rest IH]; intros idx out; cbn [DataReview.init_from].
  - intros [= <-]. constructor.
  - destruct (DataReview.init_item (now idx) idx item) as [first|] eqn:Ei;
      [|discriminate].
    destruct (DataReview.init_from now (S idx) rest) as [others|] eqn:Er;
      [|discriminate].
    intros [= <-]. constructor; [eauto | exact (IH _ _ Er)].
Qed.

(** X15.  Initialising is idempotent: records that were initialised
    once come back unchanged from a second initialisation, whatever the
    clock shows then, so ids and statuses of a resumed session are
    kept. *)
Theorem initialize_is_idempotent
    (now later : nat -> nat) (data out : list Store.json) :
  DataReview.initializeWithStatus now data = DataReview.Ok out ->
  DataReview.initializeWithStatus later out = DataReview.Ok out.
Proof.
  unfold DataReview.initializeWithStatus. intros E.
  apply init_from_fixed.
  eapply Forall_impl; [exact (init_from_items _ _ _ _ E)|].
  intros o (t & i & item & Eo). exact (init_item_fixed _ _ _ _ Eo).
Qed.

Lemma initialize_is_idempotent_witness :
  exists out,
    DataReview.initializeWithStatus (fixed_clock 1700) incoming_records
    = DataReview.Ok out /\
    DataReview.initializeWithStatus (fixed_clock 1800) out
    = DataReview.Ok out.
Proof.
  eexists. split; [vm_compute; reflexivity|].
  apply (initialize_is_idempotent (fixed_clock 1700) (fixed_clock 1800)
           incoming_records).
  vm_compute. reflexivity.
Defined.

(** *** Reading the question and the answer *)

Lemma prop_object props k :
  DataReview.prop (Store.JObj props) k = Store.assoc k props.
Proof. reflexivity. Qed.

(** The question and the answer depend on the properties of the item
    only. *)
Lemma getQuestion_props item props :
  (forall k, k = "messages" \/ k = "question" \/ k = "instruction" ->
             Store.assoc k props = DataReview.prop item k) ->
  DataReview.getQuestion (Store.JObj props) = DataReview.getQuestion item.
Proof.
  intros H. unfold DataReview.getQuestion, DataReview.message_content.
  cbn [Store.truthy negb].
  rewrite !prop_object, !H by auto.
  destruct (Store.truthy item) eqn:T; [reflexivity|]. cbn [negb].
  destruct (falsy_own_props item T) as [-> | E]; [reflexivity|].
  unfold DataReview.prop. rewrite E. reflexivity.
Qed.

Lemma getAnswer_props item props :
  (forall k, k = "messages" \/ k = "answer" \/ k = "cot_answer" ->
             Store.assoc k props = DataReview.prop item k) ->
  DataReview.getAnswer (Store.JObj props) = DataReview.getAnswer item.
Proof.
  intros H. unfold DataReview.getAnswer, DataReview.message_content.
  cbn [Store.truthy negb].
  rewrite !prop_object, !H by auto.
  destruct (Store.truthy item) eqn:T; [reflexivity|]. cbn [negb].
  destruct (falsy_own_props item T) as [-> | E]; [reflexivity|].
  unfold DataReview.prop. rewrite E. reflexivity.
Qed.

Lemma with_status_question item status :
  DataReview.getQuestion (DataReview.with_status (Some item) status)
  = DataReview.getQuestion item.
Proof.
  apply getQuestion_props. intros k Hk.
  apply assoc_set_prop_ne. intros <-. decompose [or] Hk; discriminate.
Qed.

Lemma with_status_answer item status :
  DataReview.getAnswer (DataReview.with_status (Some item) status)
  = DataReview.getAnswer item.
Proof.
  apply getAnswer_props. intros k Hk.
  apply assoc_set_prop_ne. intros <-. decompose [or] Hk; discriminate.
Qed.

Lemma with_status_is item status :
  DataReview.status_is status (DataReview.with_status item status) = true.
Proof.
  unfold DataReview.status_is, DataReview.with_status, DataReview.prop.
  cbn [DataReview.own_props]. rewrite assoc_set_prop_eq.
  apply String.eqb_refl.
Qed.

Lemma status_is_exclusive s s' item :
  DataReview.status_is s item = true -> s <> s' ->
  DataReview.status_is s' item = false.
Proof.
  unfold DataReview.status_is.
  destruct (DataReview.prop item "_status") as [[| | |x| |]|];
    try discriminate.
  intros H Hne. apply String.eqb_eq in H. subst x.
  apply String.eqb_neq. exact Hne.
Qed.
(** *** Importing a CSV file *)

Lemma convert_row_sharegpt_shape headers values r :
  Csv.convert_row "sharegpt" headers values = Some r ->
  r = Csv.ShareGPT
        [ {| Csv.role := "user"; Csv.content := Csv.question_of r |};
          {| Csv.role := "assistant"; Csv.content := Csv.answer_of r |} ].
Proof.
  unfold Csv.convert_row.
  change (String.eqb "sharegpt" "sharegpt") with true. cbv iota.
  intros [= <-]. reflexivity.
Qed.

Lemma csvToJson_sharegpt_shape text :
  Forall (fun r =>
            r = Csv.ShareGPT
                  [ {| Csv.role := "user";
                       Csv.content := Csv.question_of r |};
                    {| Csv.role := "assistant";
                       Csv.content := Csv.answer_of r |} ])
    (Csv.csvToJson text "sharegpt").
Proof.
  unfold Csv.csvToJson. cbv zeta.
  destruct (length (Csv.parseCSV text) <? 2)%nat; [constructor|].
  destruct (Csv.parseCSV text) as [|header dataRows]; [constructor|].
  destruct (row_loop_sharegpt
              (map (fun h => JS.remove_quotes (JS.toLowerCase h)) header)
              dataRows []) as (rs & E & F).
  rewrite E. cbn [app]. clear E.
  induction F as [|values r vs rs [_ Hr] _ IH]; constructor; [|exact IH].
  exact (convert_row_sharegpt_shape _ _ _ Hr).
Qed.

Lemma or_json_string s :
  Store.or_json (Some (Store.JStr s)) (Store.JStr "") = Store.JStr s.
Proof. destruct s; reflexivity. Qed.

(** A converted chat record after initialisation. *)
Lemma init_chat_record now index q a :
  exists o,
    DataReview.init_item now index
      (DataReview.of_converted
         (Csv.ShareGPT [ {| Csv.role := "user"; Csv.content := q |};
                         {| Csv.role := "assistant"; Csv.content := a |} ]))
    = DataReview.Ok o /\
    DataReview.status_is "pending" o = true /\
    DataReview.getQuestion o = Store.JStr q /\
    DataReview.getAnswer o = Store.JStr a.
Proof.
  eexists. split; [reflexivity|]. split; [reflexivity|].
  split; [exact (or_json_string q) | exact (or_json_string a)].
Qed.

Lemma init_from_chat_records now rs :
  forall idx,
    Forall (fun r =>
              r = Csv.ShareGPT
                    [ {| Csv.role := "user";
                         Csv.content := Csv.question_of r |};
                      {| Csv.role := "assistant";
                         Csv.content := Csv.answer_of r |} ]) rs ->
    exists data,
      DataReview.init_from now idx (map DataReview.of_converted rs)
      = DataReview.Ok data /\
      Forall2 (fun r item =>
                 DataReview.status_is "pending" item = true /\
                 DataReview.getQuestion item
                 = Store.JStr (Csv.question_of r) /\
                 DataReview.getAnswer item = Store.JStr (Csv.answer_of r))
        rs data.
Proof.
  induction rs as [|r rest IH]; intros idx H.
  - exists []. split; [reflexivity | constructor].
  - apply Forall_cons in H as [Hr Hrest].
    destruct (IH (S idx) Hrest) as (data & E & F).
    destruct (init_chat_record (now idx) idx (Csv.question_of r)
                (Csv.answer_of r)) as (o & Eo & P).
    rewrite <- Hr in Eo.
    exists (o :: data). split.
    + cbn [map DataReview.init_from]. rewrite Eo, E. reflexivity.
    + constructor; [exact P | exact F].
Qed.

(** *** Counting by status *)

Lemma status_is_not_null s item :
  DataReview.status_is s item = true -> DataReview.is_null item = false.
Proof. destruct item; [discriminate | reflexivity ..]. Qed.

Lemma no_null_of_statuses (P : Store.json -> bool) data :
  (forall item, P item = true -> DataReview.is_null item = false) ->
  forallb P data = true -> existsb DataReview.is_null data = false.
Proof.
  intros HP. induction data as [|item rest IH]; cbn; [reflexivity|].
  intros H. apply andb_prop in H as [Hi Hr].
  rewrite (HP _ Hi), (IH Hr). reflexivity.
Qed.

Lemma count_all s data :
  Forall (fun item => DataReview.status_is s item = true) data ->
  DataReview.count s data = length data.
Proof.
  unfold DataReview.count.
  induction 1 as [|item rest Hi _ IH]; cbn; [reflexivity|].
  rewrite Hi. cbn. rewrite IH. reflexivity.
Qed.

Lemma count_none s s' data :
  s <> s' ->
  Forall (fun item => DataReview.status_is s item = true) data ->
  DataReview.count s' data = 0.
Proof.
  unfold DataReview.count. intros Hne.
  induction 1 as [|item rest Hi _ IH]; cbn; [reflexivity|].
  rewrite (status_is_exclusive _ _ _ Hi Hne). exact IH.
Qed.

(** X16.  Choosing a CSV file starts a review of its records: the
    store holds one record for each record of the converter, in order,
    each pending and showing the converter's question and answer; the
    cursor is on the first record, edit mode is off, and the statistics
    count every record as pending. *)
Theorem csv_upload_starts_review
    (parse : string -> string + Store.json) (now : nat -> nat)
    (name content : string) (st : Store.State) :
  DataReview.endsWith name ".csv" = true ->
  exists data,
    DataReview.handleFileUpload parse now (Some (name, content)) st
    = DataReview.Uploaded
        {| Store.trainingData := data;
           Store.fileInfo := DataReview.file_info name "CSV" true;
           Store.currentIndex := 0;
           Store.editMode := false;
           Store.editedAnswer := Store.editedAnswer st |} /\
    Forall2 (fun r item =>
               DataReview.status_is "pending" item = true /\
               DataReview.getQuestion item = Store.JStr (Csv.question_of r) /\
               DataReview.getAnswer item = Store.JStr (Csv.answer_of r))
      (Csv.csvToJson content "sharegpt") data /\
    DataReview.stats data
    = DataReview.Ok
        {| DataReview.total := length data;
           DataReview.accepted := 0;
           DataReview.edited := 0;
           DataReview.rejected := 0;
           DataReview.pending := length data;
           DataReview.reviewed := 0 |}.
Proof.
  intros Hcsv.
  destruct (init_from_chat_records now (Csv.csvToJson content "sharegpt") 0
              (csvToJson_sharegpt_shape content)) as (data & E & F).
  exists data. split; [|split; [exact F|]].
  - unfold DataReview.handleFileUpload. rewrite Hcsv.
    unfold DataReview.load, DataReview.initializeWithStatus. rewrite E.
    reflexivity.
  - assert (Hall : Forall (fun item =>
                             DataReview.status_is "pending" item = true)
                     data).
    { clear E. induction F as [|r item rs items [P _] _ IH];
        constructor; assumption. }
    unfold DataReview.stats.
    rewrite (no_null_of_statuses (DataReview.status_is "pending"))
      by (try exact (status_is_not_null "pending");
          apply forallb_forall; intros x Hx;
          rewrite Forall_forall in Hall; apply Hall;
          apply list_elem_of_In; exact Hx).
    rewrite (count_all _ _ Hall).
    rewrite !(count_none "pending" _ data) by (try discriminate; exact Hall).
    reflexivity.
Qed.

Lemma csv_upload_starts_review_witness :
  exists data,
    DataReview.handleFileUpload (fun _ => inl "unused") (fixed_clock 1700)
      (Some ("qa.csv", csv_answer_first)) (review_state 2 true "draft")
    = DataReview.Uploaded
        {| Store.trainingData := data;
           Store.fileInfo := DataReview.file_info "qa.csv" "CSV" true;
           Store.currentIndex := 0;
           Store.editMode := false;
           Store.editedAnswer := "draft" |} /\
    length data = length (Csv.csvToJson csv_answer_first "sharegpt") /\
    DataReview.count "pending" data = 1.
Proof.
  destruct (csv_upload_starts_review (fun _ => inl "unused")
              (fixed_clock 1700) "qa.csv" csv_answer_first
              (review_state 2 true "draft") eq_refl)
    as (data & E & F & S).
  exists data. split; [exact E|].
  vm_compute in E. injection E as <-. vm_compute. split; reflexivity.
Defined.
(** *** Decisions on the current record *)

Lemma set_index_nat l m v :
  DataReview.set_index l (Z.of_nat m) v = <[m := v]> l.
Proof.
  unfold DataReview.set_index.
  destruct (Z.leb_spec 0 (Z.of_nat m)); [|lia].
  rewrite Nat2Z.id. reflexivity.
Qed.

Lemma at_index_nat l m : DataReview.at_index l (Z.of_nat m) = l !! m.
Proof.
  unfold DataReview.at_index.
  destruct (Z.leb_spec 0 (Z.of_nat m)); [|lia].
  rewrite Nat2Z.id. reflexivity.
Qed.

Lemma in_range_nat (st : Store.State) m item :
  Store.currentIndex st = Z.of_nat m ->
  Store.trainingData st !! m = Some item ->
  DataReview.out_of_range st = false.
Proof.
  intros Hc Hm. unfold DataReview.out_of_range.
  pose proof (lookup_lt_Some _ _ _ Hm) as Hlt.
  destruct (Store.trainingData st) as [|x l] eqn:E; [discriminate Hm|].
  rewrite Hc. apply Z.leb_gt. lia.
Qed.

Lemma advance_nat m len :
  DataReview.advance (Z.of_nat m) len
  = Z.of_nat (if (S m <? len)%nat then S m else m).
Proof.
  unfold DataReview.advance.
  destruct (S m <? len)%nat eqn:E.
  - apply Nat.ltb_lt in E.
    destruct (Z.ltb_spec (Z.of_nat m) (Z.of_nat len - 1)); lia.
  - apply Nat.ltb_ge in E.
    destruct (Z.ltb_spec (Z.of_nat m) (Z.of_nat len - 1)); lia.
Qed.

Lemma handleAccept_at (st : Store.State) m item :
  Store.currentIndex st = Z.of_nat m ->
  Store.trainingData st !! m = Some item ->
  DataReview.handleAccept st
  = {| Store.trainingData :=
         <[m := DataReview.with_status (Some item)
                  (if Store.editMode st then "edited" else "accepted")]>
           (Store.trainingData st);
       Store.fileInfo := Store.fileInfo st;
       Store.currentIndex :=
         Z.of_nat (if (S m <? length (Store.trainingData st))%nat
                   then S m else m);
       Store.editMode := false;
       Store.editedAnswer := Store.editedAnswer st |}.
Proof.
  intros Hc Hm. unfold DataReview.handleAccept.
  rewrite (in_range_nat st m item Hc Hm). cbv zeta.
  unfold DataReview.last_set. rewrite last_last.
  rewrite Hc, set_index_nat, at_index_nat, advance_nat, Hm. reflexivity.
Qed.

Lemma handleReject_at (st : Store.State) m item :
  Store.currentIndex st = Z.of_nat m ->
  Store.trainingData st !! m = Some item ->
  DataReview.handleReject st
  = {| Store.trainingData :=
         <[m := DataReview.with_status (Some item) "rejected"]>
           (Store.trainingData st);
       Store.fileInfo := Store.fileInfo st;
       Store.currentIndex :=
         Z.of_nat (if (S m <? length (Store.trainingData st))%nat
                   then S m else m);
       Store.editMode := false;
       Store.editedAnswer := Store.editedAnswer st |}.
Proof.
  intros Hc Hm. unfold DataReview.handleReject.
  rewrite (in_range_nat st m item Hc Hm). cbv zeta.
  unfold DataReview.last_set. cbn [List.last].
  rewrite Hc, set_index_nat, at_index_nat, advance_nat, Hm. reflexivity.
Qed.

Lemma decide_at (st : Store.State) m item accept :
  Store.currentIndex st = Z.of_nat m ->
  Store.editMode st = false ->
  Store.trainingData st !! m = Some item ->
  decide st accept
  = {| Store.trainingData :=
         <[m := decided item accept]> (Store.trainingData st);
       Store.fileInfo := Store.fileInfo st;
       Store.currentIndex :=
         Z.of_nat (if (S m <? length (Store.trainingData st))%nat
                   then S m else m);
       Store.editMode := false;
       Store.editedAnswer := Store.editedAnswer st |}.
Proof.
  intros Hc He Hm. unfold decide, decided. destruct accept.
  - rewrite (handleAccept_at st m item Hc Hm), He. reflexivity.
  - exact (handleReject_at st m item Hc Hm).
Qed.

(** A run of decisions over a stretch of records. *)
Lemma review_stretch decisions :
  forall (st : Store.State) pre items post,
    Store.trainingData st = pre ++ items ++ post ->
    length items = length decisions ->
    (decisions <> [] -> Store.currentIndex st = Z.of_nat (length pre)) ->
    Store.editMode st = false ->
    Store.trainingData (review decisions st)
    = pre ++ zip_with decided items decisions ++ post.
Proof.
  induction decisions as [|d ds IH]; intros st pre items post Hd Hl Hc He.
  - destruct items; [|discriminate Hl]. exact Hd.
  - destruct items as [|item items]; [discriminate Hl|].
    injection Hl as Hl.
    specialize (Hc ltac:(discriminate)).
    assert (Hm : Store.trainingData st !! length pre = Some item).
    { rewrite Hd. rewrite lookup_app_r by lia.
      rewrite Nat.sub_diag. reflexivity. }
    unfold review. cbn [fold_left]. fold (review ds (decide st d)).
    rewrite (IH (decide st d) (pre ++ [decided item d]) items post).
    + rewrite <- app_assoc. reflexivity.
    + rewrite (decide_at st _ item d Hc He Hm). cbn [Store.trainingData].
      rewrite Hd.
      replace (length pre) with (length pre + 0) at 1 by lia.
      rewrite insert_app_r. cbn. rewrite <- app_assoc. reflexivity.
    + exact Hl.
    + intros Hne. rewrite (decide_at st _ item d Hc He Hm).
      cbn [Store.currentIndex]. rewrite Hd.
      destruct ds as [|d' ds']; [contradiction|]. cbn [length] in Hl.
      rewrite !length_app. cbn [length].
      match goal with
      | |- context [(?a <? ?b)%nat] => destruct (Nat.ltb_spec a b)
      end; [f_equal; lia | lia].
    + rewrite (decide_at st _ item d Hc He Hm). reflexivity.
Qed.

Lemma decided_status item accept :
  DataReview.status_is "accepted" (decided item accept) = accept /\
  DataReview.status_is "rejected" (decided item accept) = negb accept /\
  DataReview.status_is "pending" (decided item accept) = false.
Proof.
  unfold decided. destruct accept.
  - repeat split; [apply with_status_is | |];
      (apply (status_is_exclusive "accepted");
       [apply with_status_is | discriminate]).
  - repeat split; [| apply with_status_is |];
      (apply (status_is_exclusive "rejected");
       [apply with_status_is | discriminate]).
Qed.

Lemma count_decided data :
  forall decisions,
    length data = length decisions ->
    DataReview.count "accepted" (zip_with decided data decisions)
    = length (List.filter id decisions) /\
    DataReview.count "rejected" (zip_with decided data decisions)
    = length (List.filter negb decisions) /\
    DataReview.count "pending" (zip_with decided data decisions) = 0.
Proof.
  unfold DataReview.count.
  induction data as [|item rest IH]; intros [|d ds] Hl; try discriminate Hl.
  - repeat split.
  - injection Hl as Hl. destruct (IH ds Hl) as (Ha & Hr & Hp).
    destruct (decided_status item d) as (Sa & Sr & Sp).
    cbn [zip_with List.filter]. rewrite Sa, Sr, Sp.
    destruct d; cbn; rewrite ?Ha, ?Hr, ?Hp; repeat split.
Qed.

(** X17.  A review pass: starting on the first record outside edit
    mode, one decision for each record leaves every record with the
    status of its own decision, accepted or rejected, and otherwise as
    it was; nothing is pending afterwards and the accepted records are
    as many as the accept decisions. *)
Theorem review_pass_records_decisions
    (st : Store.State) (decisions : list bool) :
  Store.currentIndex st = 0%Z ->
  Store.editMode st = false ->
  length decisions = length (Store.trainingData st) ->
  Store.trainingData (review decisions st)
  = zip_with decided (Store.trainingData st) decisions /\
  DataReview.count "accepted" (Store.trainingData (review decisions st))
  = length (List.filter id decisions) /\
  DataReview.count "rejected" (Store.trainingData (review decisions st))
  = length (List.filter negb decisions) /\
  DataReview.count "pending" (Store.trainingData (review decisions st)) = 0.
Proof.
  intros Hc He Hl.
  assert (E : Store.trainingData (review decisions st)
              = zip_with decided (Store.trainingData st) decisions).
  { rewrite (review_stretch decisions st [] (Store.trainingData st) []).
    - cbn [app]. apply app_nil_r.
    - cbn [app]. symmetry. apply app_nil_r.
    - symmetry. exact Hl.
    - intros _. exact Hc.
    - exact He. }
  rewrite E. split; [reflexivity|].
  apply count_decided. symmetry. exact Hl.
Qed.

Lemma review_pass_records_decisions_witness :
  Store.trainingData (review [true; false; true] (review_state 0 false ""))
  = [ reviewed_record "a" "accepted" "Q1" "A1";
      reviewed_record "b" "rejected" "Q2" "A2";
      reviewed_record "c" "accepted" "Q3" "A3" ].
Proof.
  rewrite (proj1 (review_pass_records_decisions (review_state 0 false "")
                    [true; false; true] eq_refl eq_refl eq_refl)).
  vm_compute. reflexivity.
Defined.

(** X18.  Accepting while the answer is being edited marks the record
    as edited but stores it with the answer and the question it had
    before: the array built for the status replaces the one that held
    the edit, whatever the edited text is.  Edit mode is left. *)
Theorem accept_in_edit_mode_drops_edit
    (st : Store.State) (m : nat) (item : Store.json) :
  Store.editMode st = true ->
  Store.currentIndex st = Z.of_nat m ->
  Store.trainingData st !! m = Some item ->
  exists stored,
    Store.trainingData (DataReview.handleAccept st)
    = <[m := stored]> (Store.trainingData st) /\
    DataReview.status_is "edited" stored = true /\
    DataReview.getAnswer stored = DataReview.getAnswer item /\
    DataReview.getQuestion stored = DataReview.getQuestion item /\
    Store.editMode (DataReview.handleAccept st) = false.
Proof.
  intros He Hc Hm. rewrite (handleAccept_at st m item Hc Hm), He.
  eexists. split; [reflexivity|].
  split; [apply with_status_is|].
  split; [apply with_status_answer|].
  split; [apply with_status_question | reflexivity].
Qed.

Lemma accept_in_edit_mode_drops_edit_witness :
  Store.trainingData
    (DataReview.handleAccept (review_state 0 true "A1, improved"))
  = [ reviewed_record "a" "edited" "Q1" "A1";
      reviewed_record "b" "edited" "Q2" "A2";
      reviewed_record "c" "pending" "Q3" "A3" ] /\
  (exists stored,
      Store.trainingData
        (DataReview.handleAccept (review_state 0 true "A1, improved"))
      = <[0 := stored]> review_records /\
      DataReview.getAnswer stored = Store.JStr "A1").
Proof.
  split; [vm_compute; reflexivity|].
  destruct (accept_in_edit_mode_drops_edit
              (review_state 0 true "A1, improved") 0
              (reviewed_record "a" "pending" "Q1" "A1")
              eq_refl eq_refl eq_refl) as (stored & E & _ & A & _).
  exists stored. split; [exact E | exact A].
Defined.
(** *** Editing the answer *)

Lemma message_content_ext x y k :
  DataReview.prop x "messages" = DataReview.prop y "messages" ->
  DataReview.message_content x k = DataReview.message_content y k.
Proof. unfold DataReview.message_content. intros ->. reflexivity. Qed.

Lemma message_content_none item k :
  DataReview.prop item "messages" = None ->
  DataReview.message_content item k = None.
Proof. unfold DataReview.message_content. intros ->. reflexivity. Qed.

Lemma message_content_falsy item ms k :
  DataReview.prop item "messages" = Some ms ->
  Store.truthy ms = false ->
  DataReview.message_content item k = None.
Proof.
  unfold DataReview.message_content. intros -> T.
  destruct (falsy_own_props ms T) as [-> | E]; [reflexivity|].
  unfold DataReview.index. rewrite E. destruct ms; reflexivity.
Qed.

Lemma or_json_nonempty a d :
  a <> "" -> Store.or_json (Some (Store.JStr a)) d = Store.JStr a.
Proof. destruct a; [congruence | reflexivity]. Qed.

(** The item written by an edit whose record has a chat. *)
Lemma with_answer_chat item ms a :
  DataReview.prop item "messages" = Some ms ->
  Store.truthy ms = true ->
  Store.truthy item = true ->
  a <> "" ->
  DataReview.getAnswer (DataReview.with_answer item a) = Store.JStr a /\
  DataReview.getQuestion (DataReview.with_answer item a)
  = DataReview.getQuestion item.
Proof.
  intros Em Tm Ti Ha.
  assert (Ew : DataReview.with_answer item a
               = Store.JObj
                   (DataReview.set_prop "messages"
                      (Store.JArr
                         [ default Store.JNull (DataReview.index ms 0);
                           Store.JObj [ ("role", Store.JStr "assistant");
                                        ("content", Store.JStr a) ] ])
                      (DataReview.own_props item))).
  { unfold DataReview.with_answer. cbv zeta.
    unfold DataReview.prop in Em. rewrite Em, Tm. reflexivity. }
  rewrite Ew. split.
  - unfold DataReview.getAnswer. cbn [Store.truthy negb].
    replace (DataReview.message_content _ 1) with (Some (Store.JStr a)).
    + apply or_json_nonempty, Ha.
    + unfold DataReview.message_content.
      rewrite prop_object, assoc_set_prop_eq. reflexivity.
  - unfold DataReview.getQuestion. rewrite Ti. cbn [Store.truthy negb].
    rewrite !prop_object, !assoc_set_prop_ne by discriminate.
    f_equal. unfold DataReview.message_content.
    rewrite prop_object, assoc_set_prop_eq, Em.
    change (DataReview.index (Store.JArr ?l) 0) with (l !! 0).
    destruct (DataReview.index ms 0) as [m0|] eqn:E0;
      destruct ms; try discriminate Tm; cbn; try reflexivity;
      destruct m0; reflexivity.
Qed.

(** The item written by an edit whose record has no chat. *)
Lemma with_answer_field item a :
  (DataReview.prop item "messages" = None \/
   exists ms, DataReview.prop item "messages" = Some ms /\
              Store.truthy ms = false) ->
  DataReview.with_answer item a
  = Store.JObj
      (DataReview.set_prop
         (if DataReview.is_Some_json (DataReview.prop item "cot_answer")
          then "cot_answer" else "answer")
         (Store.JStr a) (DataReview.own_props item)).
Proof.
  unfold DataReview.with_answer, DataReview.prop. cbv zeta.
  intros [-> | (ms & -> & ->)];
    destruct (DataReview.is_Some_json _); reflexivity.
Qed.

Lemma no_chat_content item k :
  (DataReview.prop item "messages" = None \/
   exists ms, DataReview.prop item "messages" = Some ms /\
              Store.truthy ms = false) ->
  DataReview.message_content item k = None.
Proof.
  intros [H | (ms & H & T)];
    [exact (message_content_none _ _ H)
    | exact (message_content_falsy _ _ _ H T)].
Qed.

Lemma chat_or_not item :
  (exists ms, DataReview.prop item "messages" = Some ms /\
              Store.truthy ms = true) \/
  (DataReview.prop item "messages" = None \/
   exists ms, DataReview.prop item "messages" = Some ms /\
              Store.truthy ms = false).
Proof.
  destruct (DataReview.prop item "messages") as [ms|]; [|auto].
  destruct (Store.truthy ms) eqn:T; eauto.
Qed.

Lemma with_answer_keeps_question item a :
  (DataReview.prop item "messages" = None \/
   exists ms, DataReview.prop item "messages" = Some ms /\
              Store.truthy ms = false) ->
  DataReview.getQuestion (DataReview.with_answer item a)
  = DataReview.getQuestion item.
Proof.
  intros H. rewrite (with_answer_field item a H).
  apply getQuestion_props. intros k Hk.
  apply assoc_set_prop_ne. intros <-.
  destruct (DataReview.is_Some_json _); decompose [or] Hk; discriminate.
Qed.

(** X19.  An edit can be read back: for a truthy current record and a
    non-empty text, the array that [updateCurrentAnswer] sets differs
    from the records at the cursor only, and the record written there
    shows the new text as its answer and the question it had, provided
    the record has a chat, or lacks one of [answer] and [cot_answer]. *)
Theorem answer_update_round_trip
    (st : Store.State) (m : nat) (item : Store.json) (a : string) :
  Store.currentIndex st = Z.of_nat m ->
  Store.trainingData st !! m = Some item ->
  Store.truthy item = true ->
  a <> "" ->
  (exists ms, DataReview.prop item "messages" = Some ms /\
              Store.truthy ms = true) \/
  DataReview.prop item "cot_answer" = None \/
  DataReview.prop item "answer" = None ->
  exists stored,
    DataReview.updateCurrentAnswer st a
    = Some (<[m := stored]> (Store.trainingData st)) /\
    DataReview.getAnswer stored = Store.JStr a /\
    DataReview.getQuestion stored = DataReview.getQuestion item.
Proof.
  intros Hc Hm Ti Ha Hshape.
  exists (DataReview.with_answer item a). split.
  { unfold DataReview.updateCurrentAnswer.
    rewrite Hc, at_index_nat, Hm, Ti, set_index_nat. reflexivity. }
  destruct (chat_or_not item) as [(ms & Em & Tm) | Hno].
  { exact (with_answer_chat item ms a Em Tm Ti Ha). }
  split; [|exact (with_answer_keeps_question item a Hno)].
  rewrite (with_answer_field item a Hno).
  unfold DataReview.getAnswer. cbn [Store.truthy negb].
  rewrite (message_content_ext _ item) , (no_chat_content item 1 Hno).
  2:{ rewrite prop_object. apply assoc_set_prop_ne.
      destruct (DataReview.is_Some_json _); discriminate. }
  rewrite !prop_object.
  destruct (DataReview.prop item "cot_answer") as [c|] eqn:Ec;
    cbn [DataReview.is_Some_json].
  - destruct Hshape as [(ms & Em & Tm) | [Hcot | Hans]].
    + destruct Hno as [Hn | (ms' & Em' & Tm')]; congruence.
    + discriminate Hcot.
    + rewrite assoc_set_prop_ne by discriminate.
      unfold DataReview.prop in Hans. rewrite Hans.
      rewrite assoc_set_prop_eq. cbn [Store.or_json].
      apply or_json_nonempty, Ha.
  - rewrite assoc_set_prop_eq. apply or_json_nonempty, Ha.
Qed.

Lemma answer_update_round_trip_witness :
  exists stored,
    DataReview.updateCurrentAnswer (review_state 2 true "") "A3, improved"
    = Some (<[2 := stored]> review_records) /\
    DataReview.getAnswer stored = Store.JStr "A3, improved" /\
    DataReview.getQuestion stored = Store.JStr "Q3".
Proof.
  apply (answer_update_round_trip (review_state 2 true "") 2
           (reviewed_record "c" "pending" "Q3" "A3") "A3, improved");
    try reflexivity; [discriminate | right; left; reflexivity].
Defined.

(** X20.  An edit that cannot be read back: on a record without a chat
    that has both a [cot_answer] and a truthy [answer], the edit is
    written to [cot_answer] while the record keeps showing its
    [answer]. *)
Theorem answer_update_shadowed
    (st : Store.State) (m : nat) (item shown c : Store.json) (a : string) :
  Store.currentIndex st = Z.of_nat m ->
  Store.trainingData st !! m = Some item ->
  Store.truthy item = true ->
  DataReview.prop item "messages" = None ->
  DataReview.prop item "cot_answer" = Some c ->
  DataReview.prop item "answer" = Some shown ->
  Store.truthy shown = true ->
  exists stored,
    DataReview.updateCurrentAnswer st a
    = Some (<[m := stored]> (Store.trainingData st)) /\
    DataReview.prop stored "cot_answer" = Some (Store.JStr a) /\
    DataReview.getAnswer stored = shown /\
    DataReview.getAnswer item = shown.
Proof.
  intros Hc Hm Ti Em Ec Ea Ts.
  exists (DataReview.with_answer item a). split.
  { unfold DataReview.updateCurrentAnswer.
    rewrite Hc, at_index_nat, Hm, Ti, set_index_nat. reflexivity. }
  rewrite (with_answer_field item a (or_introl Em)), Ec.
  cbn [DataReview.is_Some_json].
  split; [rewrite prop_object; apply assoc_set_prop_eq|].
  assert (Hitem : DataReview.getAnswer item = shown).
  { unfold DataReview.getAnswer. rewrite Ti. cbn [negb].
    rewrite (message_content_none _ _ Em), Ea.
    cbn [Store.or_json]. rewrite Ts. reflexivity. }
  split; [|exact Hitem].
  unfold DataReview.getAnswer. cbn [Store.truthy negb].
  rewrite (message_content_ext _ item), (message_content_none _ _ Em).
  2:{ rewrite prop_object. apply assoc_set_prop_ne. discriminate. }
  rewrite !prop_object, assoc_set_prop_ne by discriminate.
  unfold DataReview.prop in Ea. rewrite Ea.
  cbn [Store.or_json]. rewrite Ts. reflexivity.
Qed.

Lemma answer_update_shadowed_witness :
  exists stored,
    DataReview.updateCurrentAnswer two_answers_state "better"
    = Some (<[0 := stored]> [two_answers_record]) /\
    DataReview.prop stored "cot_answer" = Some (Store.JStr "better") /\
    DataReview.getAnswer stored = Store.JStr "short" /\
    DataReview.getAnswer two_answers_record = Store.JStr "short".
Proof.
  apply (answer_update_shadowed two_answers_state 0 two_answers_record
           (Store.JStr "short") (Store.JStr "long") "better");
    reflexivity.
Defined.
(** *** Accept All *)

Lemma is_object_not_null data :
  forallb is_object data = true ->
  existsb DataReview.is_null data = false.
Proof.
  apply no_null_of_statuses. intros [] H; try discriminate H; reflexivity.
Qed.

Lemma accept_pending_object item :
  is_object item = true ->
  DataReview.accept_pending item = accepted_if_pending item.
Proof.
  destruct item as [| | | | |props]; try discriminate. intros _.
  unfold DataReview.accept_pending, accepted_if_pending.
  destruct (DataReview.status_is "pending" _); [reflexivity|].
  rewrite prop_object. cbn [DataReview.own_props].
  destruct (Store.assoc "_status" props) as [s|] eqn:E; [|reflexivity].
  rewrite (set_prop_same _ _ _ E). reflexivity.
Qed.

Lemma accepted_if_pending_status item :
  DataReview.status_is "pending" (accepted_if_pending item) = false /\
  DataReview.status_is "accepted" (accepted_if_pending item)
  = (DataReview.status_is "accepted" item
     || DataReview.status_is "pending" item) /\
  DataReview.status_is "edited" (accepted_if_pending item)
  = DataReview.status_is "edited" item /\
  DataReview.status_is "rejected" (accepted_if_pending item)
  = DataReview.status_is "rejected" item.
Proof.
  unfold accepted_if_pending.
  destruct (DataReview.status_is "pending" item) eqn:P.
  - rewrite with_status_is.
    rewrite !(status_is_exclusive "accepted" _ _ (with_status_is _ _))
      by discriminate.
    rewrite !(status_is_exclusive "pending" _ item P) by discriminate.
    repeat split.
  - rewrite P, orb_false_r. repeat split.
Qed.

Lemma count_cons s item rest :
  DataReview.count s (item :: rest)
  = (if DataReview.status_is s item then 1 else 0) + DataReview.count s rest.
Proof.
  unfold DataReview.count. cbn [List.filter].
  destruct (DataReview.status_is s item); reflexivity.
Qed.

Lemma count_accepted_if_pending data :
  DataReview.count "pending" (map accepted_if_pending data) = 0 /\
  DataReview.count "accepted" (map accepted_if_pending data)
  = DataReview.count "accepted" data + DataReview.count "pending" data /\
  DataReview.count "edited" (map accepted_if_pending data)
  = DataReview.count "edited" data /\
  DataReview.count "rejected" (map accepted_if_pending data)
  = DataReview.count "rejected" data.
Proof.
  induction data as [|item rest (Hp & Ha & He & Hr)];
    [repeat split|].
  cbn [map]. rewrite !count_cons, Hp, Ha, He, Hr.
  destruct (accepted_if_pending_status item) as (-> & -> & -> & ->).
  destruct (DataReview.status_is "pending" item) eqn:P.
  - rewrite (status_is_exclusive "pending" "accepted" item P)
      by discriminate.
    cbn. repeat split; lia.
  - rewrite orb_false_r.
    destruct (DataReview.status_is "accepted" item); repeat split; lia.
Qed.

(** X21.  Accept All, once confirmed, accepts exactly the pending
    records: when the records are objects and some are pending, every
    pending one gets the status accepted and every other one stays as
    it is, so no record is pending afterwards, the
    accepted ones grow by the number that was pending, and the edited
    and rejected counts, the cursor and the edit mode are unchanged.
    Declining the dialog changes nothing. *)
Theorem accept_all_accepts_exactly_pending (st : Store.State) :
  forallb is_object (Store.trainingData st) = true ->
  DataReview.count "pending" (Store.trainingData st) <> 0 ->
  exists data,
    DataReview.handleAcceptAll true st
    = DataReview.Updated
        {| Store.trainingData := data;
           Store.fileInfo := Store.fileInfo st;
           Store.currentIndex := Store.currentIndex st;
           Store.editMode := Store.editMode st;
           Store.editedAnswer := Store.editedAnswer st |} /\
    data = map accepted_if_pending (Store.trainingData st) /\
    DataReview.count "pending" data = 0 /\
    DataReview.count "accepted" data
    = DataReview.count "accepted" (Store.trainingData st)
      + DataReview.count "pending" (Store.trainingData st) /\
    DataReview.count "edited" data
    = DataReview.count "edited" (Store.trainingData st) /\
    DataReview.count "rejected" data
    = DataReview.count "rejected" (Store.trainingData st) /\
    DataReview.handleAcceptAll false st = DataReview.Unchanged.
Proof.
  intros Hobj Hpending.
  exists (map accepted_if_pending (Store.trainingData st)).
  assert (Hmap : map DataReview.accept_pending (Store.trainingData st)
                 = map accepted_if_pending (Store.trainingData st)).
  { apply map_ext_in. intros item Hin. apply accept_pending_object.
    rewrite forallb_forall in Hobj. exact (Hobj _ Hin). }
  pose proof (is_object_not_null _ Hobj) as Hnull.
  unfold DataReview.handleAcceptAll.
  unfold DataReview.count in Hpending.
  destruct (Store.trainingData st) as [|x l] eqn:Ed; [contradiction|].
  rewrite Hnull, Hmap.
  destruct (Nat.eqb_spec
              (length (List.filter (DataReview.status_is "pending")
                         (x :: l))) 0) as [E0|_]; [contradiction|].
  split; [reflexivity|]. split; [reflexivity|].
  destruct (count_accepted_if_pending (x :: l)) as (Hp & Ha & He & Hr).
  repeat split; assumption.
Qed.

Lemma accept_all_accepts_exactly_pending_witness :
  DataReview.handleAcceptAll true (review_state 1 false "")
  = DataReview.Updated
      {| Store.trainingData :=
           [ reviewed_record "a" "accepted" "Q1" "A1";
             reviewed_record "b" "edited" "Q2" "A2";
             reviewed_record "c" "accepted" "Q3" "A3" ];
         Store.fileInfo := Store.JNull;
         Store.currentIndex := 1;
         Store.editMode := false;
         Store.editedAnswer := "" |}.
Proof.
  destruct (accept_all_accepts_exactly_pending (review_state 1 false "")
              eq_refl ltac:(vm_compute; discriminate))
    as (data & E & -> & _).
  rewrite E. vm_compute. reflexivity.
Defined.

(** *** The review invariant *)

Lemma known_status_with_status item status :
  status = "accepted" \/ status = "edited" \/ status = "rejected" ->
  known_status (DataReview.with_status item status) = true.
Proof.
  unfold known_status.
  intros [-> | [-> | ->]]; rewrite with_status_is;
    rewrite ?orb_true_r; reflexivity.
Qed.

Lemma known_status_not_null item :
  known_status item = true -> DataReview.is_null item = false.
Proof. destruct item; [discriminate | reflexivity ..]. Qed.

Lemma known_status_accept_pending item :
  known_status item = true ->
  known_status (DataReview.accept_pending item) = true.
Proof.
  intros K. unfold DataReview.accept_pending.
  destruct (DataReview.status_is "pending" item) eqn:P.
  { apply (known_status_with_status (Some item)). auto. }
  destruct (DataReview.prop item "_status") as [s|] eqn:E.
  - unfold known_status, DataReview.status_is in *.
    rewrite prop_object, assoc_set_prop_eq. rewrite E in K. exact K.
  - unfold known_status, DataReview.status_is in K. rewrite E in K.
    discriminate K.
Qed.

Lemma forallb_insert {A} (P : A -> bool) (l : list A) i x :
  forallb P l = true -> P x = true -> forallb P (<[i := x]> l) = true.
Proof.
  revert i. induction l as [|y l IH]; intros i Hl Hx; [exact Hl|].
  cbn in Hl. apply andb_prop in Hl as [Hy Hl].
  destruct i as [|i]; cbn.
  - rewrite Hx. exact Hl.
  - rewrite Hy. exact (IH i Hl Hx).
Qed.

Lemma forallb_map {A B} (P : B -> bool) (f : A -> B) (l : list A) :
  forallb P (map f l) = forallb (fun x => P (f x)) l.
Proof. induction l as [|x l IH]; cbn; [|rewrite IH]; reflexivity. Qed.

Lemma reviewable_cursor (st : Store.State) :
  reviewable st = true ->
  forallb known_status (Store.trainingData st) = true /\
  exists m item,
    Store.currentIndex st = Z.of_nat m /\
    Store.trainingData st !! m = Some item.
Proof.
  unfold reviewable. intros H.
  apply andb_prop in H as [H Hhi]. apply andb_prop in H as [Hall Hlo].
  split; [exact Hall|].
  apply Z.leb_le in Hlo. apply Z.ltb_lt in Hhi.
  exists (Z.to_nat (Store.currentIndex st)).
  destruct (lookup_lt_is_Some_2 (Store.trainingData st)
              (Z.to_nat (Store.currentIndex st)) ltac:(lia)) as [item Hm].
  exists item. split; [lia | exact Hm].
Qed.

Lemma reviewable_after (st : Store.State) m item stored :
  forallb known_status (Store.trainingData st) = true ->
  Store.trainingData st !! m = Some item ->
  known_status stored = true ->
  reviewable
    {| Store.trainingData := <[m := stored]> (Store.trainingData st);
       Store.fileInfo := Store.fileInfo st;
       Store.currentIndex :=
         Z.of_nat (if (S m <? length (Store.trainingData st))%nat
                   then S m else m);
       Store.editMode := false;
       Store.editedAnswer := Store.editedAnswer st |} = true.
Proof.
  intros Hall Hm Hk. unfold reviewable.
  cbn [Store.trainingData Store.currentIndex].
  rewrite (forallb_insert _ _ _ _ Hall Hk), length_insert.
  pose proof (lookup_lt_Some _ _ _ Hm) as Hlt.
  apply andb_true_intro. split; [apply Z.leb_le; lia|].
  apply Z.ltb_lt.
  destruct (Nat.ltb_spec (S m) (length (Store.trainingData st))); lia.
Qed.

(** X22.  The review invariant: when every record has one of the four
    statuses and the cursor is on a record, this is still so after an
    accept and after a reject, and Accept All, which then never stops
    on an error, keeps it in the state it sets. *)
Theorem decisions_keep_store_reviewable
    (st : Store.State) (confirmed : bool) :
  reviewable st = true ->
  reviewable (DataReview.handleAccept st) = true /\
  reviewable (DataReview.handleReject st) = true /\
  match DataReview.handleAcceptAll confirmed st with
  | DataReview.Updated st' => reviewable st' = true
  | DataReview.Threw => False
  | _ => True
  end.
Proof.
  intros H.
  destruct (reviewable_cursor st H) as (Hall & m & item & Hc & Hm).
  split; [|split].
  - rewrite (handleAccept_at st m item Hc Hm).
    apply (reviewable_after st m item _ Hall Hm).
    apply known_status_with_status. destruct (Store.editMode st); auto.
  - rewrite (handleReject_at st m item Hc Hm).
    apply (reviewable_after st m item _ Hall Hm).
    apply known_status_with_status. auto.
  - unfold DataReview.handleAcceptAll.
    pose proof (no_null_of_statuses known_status _ known_status_not_null
                  Hall) as Hnull.
    unfold reviewable in H.
    destruct (Store.trainingData st) as [|x l] eqn:Ed; [exact I|].
    rewrite Hnull.
    destruct (Nat.eqb _ 0); [exact I|].
    destruct confirmed; [|exact I].
    unfold reviewable. cbn [Store.trainingData Store.currentIndex].
    rewrite length_map.
    apply andb_prop in H as [H Hhi]. apply andb_prop in H as [_ Hlo].
    rewrite Hlo, Hhi, !andb_true_r.
    rewrite forallb_map. apply forallb_forall. intros y Hy.
    apply known_status_accept_pending.
    rewrite forallb_forall in Hall. exact (Hall y Hy).
Qed.

Lemma decisions_keep_store_reviewable_witness :
  reviewable (DataReview.handleAccept (review_state 2 true "x")) = true /\
  reviewable (DataReview.handleReject (review_state 2 true "x")) = true /\
  match DataReview.handleAcceptAll true (review_state 2 true "x") with
  | DataReview.Updated st' => reviewable st' = true
  | DataReview.Threw => False
  | _ => True
  end.
Proof.
  apply (decisions_keep_store_reviewable (review_state 2 true "x") true).
  vm_compute. reflexivity.
Defined.

Lemma known_status_one item :
  known_status item = true ->
  (if DataReview.status_is "accepted" item then 1 else 0)
  + (if DataReview.status_is "edited" item then 1 else 0)
  + (if DataReview.status_is "rejected" item then 1 else 0)
  + (if DataReview.status_is "pending" item then 1 else 0) = 1.
Proof.
  unfold known_status, DataReview.status_is.
  destruct (DataReview.prop item "_status") as [[| | |s| |]|];
    try discriminate.
  destruct (String.eqb_spec s "pending") as [->|]; [reflexivity|].
  destruct (String.eqb_spec s "accepted") as [->|]; [reflexivity|].
  destruct (String.eqb_spec s "edited") as [->|]; [reflexivity|].
  destruct (String.eqb_spec s "rejected") as [->|]; [reflexivity|].
  discriminate.
Qed.

(** X23.  Under known statuses the statistics are defined and add up:
    reviewed and pending records together are all the records. *)
Theorem reviewed_plus_pending_is_total (data : list Store.json) :
  forallb known_status data = true ->
  exists s,
    DataReview.stats data = DataReview.Ok s /\
    DataReview.total s = length data /\
    DataReview.reviewed s + DataReview.pending s = DataReview.total s.
Proof.
  intros Hall. unfold DataReview.stats.
  rewrite (no_null_of_statuses known_status _ known_status_not_null Hall).
  eexists. split; [reflexivity|]. split; [reflexivity|].
  cbn [DataReview.reviewed DataReview.pending DataReview.total].
  induction data as [|item rest IH]; [reflexivity|].
  cbn in Hall. apply andb_prop in Hall as [Hi Hr].
  specialize (IH Hr). rewrite !count_cons. cbn [length].
  pose proof (known_status_one item Hi). lia.
Qed.

Lemma reviewed_plus_pending_is_total_witness :
  exists s,
    DataReview.stats review_records = DataReview.Ok s /\
    DataReview.total s = 3 /\
    DataReview.reviewed s + DataReview.pending s = DataReview.total s.
Proof.
  apply (reviewed_plus_pending_is_total review_records).
  vm_compute. reflexivity.
Defined.
(** *** Export *)

Lemma exportAsJsonl_kept data :
  existsb DataReview.is_null data = false ->
  List.filter kept_for_export data <> [] ->
  DataReview.exportAsJsonl data
  = DataReview.Exported
      (map DataReview.strip (List.filter kept_for_export data))
      "training_data.jsonl".
Proof.
  intros Hnull Hne. unfold DataReview.exportAsJsonl.
  destruct data as [|x l]; [contradiction|].
  rewrite Hnull.
  change (fun item : Store.json =>
            (DataReview.status_is "accepted" item
             || DataReview.status_is "edited" item)%bool)
    with kept_for_export.
  destruct (List.filter kept_for_export (x :: l)); [contradiction|].
  reflexivity.
Qed.

Lemma strip_internal item :
  DataReview.prop (DataReview.strip item) "_id" = None /\
  DataReview.prop (DataReview.strip item) "_status" = None.
Proof.
  unfold DataReview.strip. rewrite !prop_object. split.
  - rewrite assoc_remove_prop_ne by discriminate.
    apply assoc_remove_prop_eq.
  - apply assoc_remove_prop_eq.
Qed.

Lemma strip_question item :
  DataReview.getQuestion (DataReview.strip item)
  = DataReview.getQuestion item.
Proof.
  apply getQuestion_props. intros k Hk.
  rewrite !assoc_remove_prop_ne; [reflexivity | |];
    intros <-; decompose [or] Hk; discriminate.
Qed.

Lemma strip_answer item :
  DataReview.getAnswer (DataReview.strip item) = DataReview.getAnswer item.
Proof.
  apply getAnswer_props. intros k Hk.
  rewrite !assoc_remove_prop_ne; [reflexivity | |];
    intros <-; decompose [or] Hk; discriminate.
Qed.

Lemma kept_count data :
  length (List.filter kept_for_export data)
  = DataReview.count "accepted" data + DataReview.count "edited" data.
Proof.
  induction data as [|item rest IH]; [reflexivity|].
  rewrite !count_cons. cbn [List.filter]. unfold kept_for_export at 1.
  destruct (DataReview.status_is "accepted" item) eqn:A.
  - rewrite (status_is_exclusive "accepted" "edited" item A)
      by discriminate.
    cbn. rewrite IH. lia.
  - destruct (DataReview.status_is "edited" item); cbn; rewrite IH; lia.
Qed.

(** X24.  The export holds exactly the accepted and the edited records,
    in order and as many as the statistics count, each without its
    [_id] and [_status], with every other property as it is and showing
    the same question and answer as the record under review; pending
    and rejected records are left out. *)
Theorem export_holds_reviewed_records (data : list Store.json) :
  existsb DataReview.is_null data = false ->
  List.filter kept_for_export data <> [] ->
  exists exportData,
    DataReview.exportAsJsonl data
    = DataReview.Exported exportData "training_data.jsonl" /\
    length exportData
    = DataReview.count "accepted" data + DataReview.count "edited" data /\
    Forall2 (fun item exported =>
               DataReview.prop exported "_id" = None /\
               DataReview.prop exported "_status" = None /\
               (forall k, k <> "_id" -> k <> "_status" ->
                          DataReview.prop exported k
                          = DataReview.prop item k) /\
               DataReview.getQuestion exported
               = DataReview.getQuestion item /\
               DataReview.getAnswer exported = DataReview.getAnswer item)
      (List.filter kept_for_export data) exportData.
Proof.
  intros Hnull Hne. eexists.
  split; [exact (exportAsJsonl_kept data Hnull Hne)|].
  split; [rewrite length_map; apply kept_count|].
  apply Forall2_fmap_r, Forall_Forall2_diag, Forall_forall.
  intros item _. destruct (strip_internal item) as [Hid Hst].
  split; [exact Hid|]. split; [exact Hst|].
  split; [|split; [apply strip_question | apply strip_answer]].
  intros k H1 H2. unfold DataReview.strip. rewrite prop_object.
  rewrite !assoc_remove_prop_ne by congruence. reflexivity.
Qed.

Lemma export_holds_reviewed_records_witness :
  DataReview.exportAsJsonl review_records
  = DataReview.Exported
      [ Store.JObj [ ("question", Store.JStr "Q2");
                     ("answer", Store.JStr "A2") ] ]
      "training_data.jsonl".
Proof.
  destruct (export_holds_reviewed_records review_records eq_refl
              ltac:(vm_compute; discriminate)) as (out & E & _).
  rewrite E. vm_compute in E. injection E as <-. reflexivity.
Defined.

Lemma kept_decided data :
  forall decisions,
    List.filter kept_for_export (zip_with decided data decisions)
    = map (fun p => decided p.1 true)
        (List.filter snd (zip data decisions)).
Proof.
  induction data as [|item rest IH]; intros [|d ds]; try reflexivity.
  cbn [zip_with List.filter]. rewrite IH.
  unfold kept_for_export at 1.
  destruct (decided_status item d) as (-> & _ & _).
  destruct d; cbn [orb snd map]; [reflexivity|].
  rewrite (status_is_exclusive "rejected" "edited")
    by (try discriminate; apply with_status_is).
  reflexivity.
Qed.

Lemma decided_not_null data :
  forall decisions,
    existsb DataReview.is_null (zip_with decided data decisions) = false.
Proof.
  induction data as [|item rest IH]; intros [|d ds]; try reflexivity.
  cbn [zip_with existsb]. rewrite IH. reflexivity.
Qed.

Lemma filter_snd_true {A} (l : list A) :
  forall decisions,
    length l = length decisions ->
    In true decisions ->
    List.filter snd (zip l decisions) <> [].
Proof.
  induction l as [|x l IH]; intros [|d ds] Hl Hin; try discriminate Hl.
  - destruct Hin.
  - injection Hl as Hl. destruct d; cbn; [discriminate|].
    destruct Hin as [|Hin]; [discriminate|]. exact (IH ds Hl Hin).
Qed.

(** X25.  Review, then export: after a pass of one decision for each
    record with at least one accept, the export is made and holds the
    accepted records, in order, each with the properties it came with
    and without [_status] and [_id]; rejected records are not in it. *)
Theorem export_after_review (st : Store.State) (decisions : list bool) :
  Store.currentIndex st = 0%Z ->
  Store.editMode st = false ->
  length decisions = length (Store.trainingData st) ->
  In true decisions ->
  DataReview.exportAsJsonl (Store.trainingData (review decisions st))
  = DataReview.Exported
      (accepted_exports (Store.trainingData st) decisions)
      "training_data.jsonl" /\
  length (accepted_exports (Store.trainingData st) decisions)
  = length (List.filter id decisions).
Proof.
  intros Hc He Hl Hin.
  assert (E : Store.trainingData (review decisions st)
              = zip_with decided (Store.trainingData st) decisions).
  { rewrite (review_stretch decisions st [] (Store.trainingData st) []).
    - cbn [app]. apply app_nil_r.
    - cbn [app]. symmetry. apply app_nil_r.
    - symmetry. exact Hl.
    - intros _. exact Hc.
    - exact He. }
  rewrite E. split.
  - rewrite exportAsJsonl_kept.
    + rewrite kept_decided. unfold accepted_exports.
      rewrite map_map. reflexivity.
    + apply decided_not_null.
    + rewrite kept_decided. intros Hnil.
      apply map_eq_nil in Hnil.
      exact (filter_snd_true _ decisions (eq_sym Hl) Hin Hnil).
  - unfold accepted_exports. rewrite length_map.
    clear E Hc He Hin. revert decisions Hl.
    induction (Store.trainingData st) as [|x l IH]; intros [|d ds] Hl;
      try discriminate Hl; [reflexivity|].
    injection Hl as Hl. cbn [zip zip_with List.filter snd id].
    destruct d; cbn [length]; rewrite (IH ds Hl); reflexivity.
Qed.

Lemma export_after_review_witness :
  DataReview.exportAsJsonl
    (Store.trainingData
       (review [false; false; true] (review_state 0 false "")))
  = DataReview.Exported
      [ Store.JObj [ ("question", Store.JStr "Q3");
                     ("answer", Store.JStr "A3") ] ]
      "training_data.jsonl".
Proof.
  rewrite (proj1 (export_after_review (review_state 0 false "")
                    [false; false; true] eq_refl eq_refl eq_refl
                    ltac:(cbn; tauto))).
  vm_compute. reflexivity.
Defined.

(* ================================================================== *)
(** ** Loading model responses                                          *)
(* ================================================================== *)

Lemma resp_id_inj i j : Responses.resp_id i = Responses.resp_id j -> i = j.
Proof.
  unfold Responses.resp_id. intros H.
  apply append_cancel_l in H. exact (string_of_nat_inj _ _ H).
Qed.

Lemma normalize_from_spec responses :
  forall idx,
    existsb DataReview.is_null responses = false ->
    exists out,
      Responses.normalize_from idx responses = DataReview.Ok out /\
      length out = length responses /\
      forall i item,
        responses !! i = Some item ->
        exists o,
          out !! i = Some o /\
          Responses.normalize (idx + i) item = DataReview.Ok o.
Proof.
  induction responses as [|item rest IH]; intros idx Hnull.
  - exists []. split; [reflexivity|]. split; [reflexivity|].
    intros i x H. discriminate H.
  - cbn in Hnull. apply orb_false_elim in Hnull as [Hitem Hrest].
    cbn [Responses.normalize_from].
    destruct (Responses.normalize idx item) as [first|] eqn:Ei.
    2:{ unfold Responses.normalize in Ei. rewrite Hitem in Ei.
        discriminate Ei. }
    destruct (IH (S idx) Hrest) as (out & E & Hlen & Hout). rewrite E.
    exists (first :: out). split; [reflexivity|].
    split; [cbn; rewrite Hlen; reflexivity|].
    intros [|i] x Hx; cbn in Hx.
    + injection Hx as <-. exists first. rewrite Nat.add_0_r.
      split; [reflexivity | exact Ei].
    + destruct (Hout i x Hx) as (o & Ho & Eo). exists o.
      replace (idx + S i) with (S idx + i) by lia.
      split; [exact Ho | exact Eo].
Qed.

Lemma normalize_props i item o :
  Responses.normalize i item = DataReview.Ok o ->
  DataReview.prop o "_id"
  = Some (Store.or_json (DataReview.prop item "_id")
            (Store.or_json (DataReview.prop item "id")
               (Store.JStr (Responses.resp_id i)))) /\
  DataReview.prop o "question"
  = Some (Store.or_json (DataReview.prop item "question")
            (Store.or_json (DataReview.message_content item 0)
               (Store.or_json (DataReview.prop item "instruction")
                  (Store.JStr "")))) /\
  DataReview.prop o "expected_answer"
  = Some (Store.or_json (DataReview.prop item "expected_answer")
            (Store.or_json (DataReview.prop item "expected")
               (Store.or_json (DataReview.prop item "answer")
                  (Store.or_json (DataReview.message_content item 1)
                     (Store.or_json (DataReview.prop item "cot_answer")
                        (Store.JStr "")))))) /\
  DataReview.prop o "_status" = Some (Store.JStr "pending").
Proof.
  unfold Responses.normalize.
  destruct (DataReview.is_null item); [discriminate|].
  intros [= <-]. repeat split.
Qed.

Lemma or_json_swap a b d :
  (falsy a || falsy b)%bool = true ->
  Store.or_json a (Store.or_json b d) = Store.or_json b (Store.or_json a d).
Proof.
  destruct a as [x|], b as [y|]; cbn; try reflexivity;
    destruct (Store.truthy x), (Store.truthy y); cbn;
    try reflexivity; discriminate.
Qed.

Lemma or_json_falsy a d : falsy a = true -> Store.or_json a d = d.
Proof.
  destruct a as [x|]; cbn; [|reflexivity].
  destruct (Store.truthy x); [discriminate | reflexivity].
Qed.

(** X26.  Loading a responses file whose records contain no null gives
    one normalised record for each, in order, and clears earlier
    results.  Every normalised record is pending, whatever status the
    file gave it, and has a truthy [_id]: the record's [_id], else its
    [id], else one made from its position; two records that come with
    neither never get the same one. *)
Theorem loaded_responses_are_normalized
    (parse : string -> string + Store.json) (typeError : string)
    (name content : string) (responses : list Store.json) :
  DataReview.json_data parse name content = inr responses ->
  existsb DataReview.is_null responses = false ->
  exists normalized,
    Responses.handleLoadResponses parse typeError (Some (name, content))
    = Responses.Loaded normalized []
        ("Loaded " +:+ JS.string_of_nat (length responses) +:+
         " model responses") /\
    length normalized = length responses /\
    (forall i item,
        responses !! i = Some item ->
        exists o,
          normalized !! i = Some o /\
          DataReview.prop o "_status" = Some (Store.JStr "pending") /\
          DataReview.prop o "_id"
          = Some (Store.or_json (DataReview.prop item "_id")
                    (Store.or_json (DataReview.prop item "id")
                       (Store.JStr (Responses.resp_id i)))) /\
          falsy (DataReview.prop o "_id") = false) /\
    (forall i j a b oa ob,
        i <> j ->
        responses !! i = Some a -> responses !! j = Some b ->
        falsy (DataReview.prop a "_id") = true ->
        falsy (DataReview.prop a "id") = true ->
        falsy (DataReview.prop b "_id") = true ->
        falsy (DataReview.prop b "id") = true ->
        normalized !! i = Some oa -> normalized !! j = Some ob ->
        DataReview.prop oa "_id" <> DataReview.prop ob "_id").
Proof.
  intros Hdata Hnull.
  destruct (normalize_from_spec responses 0 Hnull)
    as (out & E & Hlen & Hout).
  exists out. split; [|split; [exact Hlen|split]].
  - unfold Responses.handleLoadResponses. rewrite Hdata, E, Hlen.
    reflexivity.
  - intros i item Hi. destruct (Hout i item Hi) as (o & Ho & Eo).
    exists o. split; [exact Ho|]. cbn in Eo.
    destruct (normalize_props _ _ _ Eo) as (Hid & _ & _ & Hst).
    split; [exact Hst|]. split; [exact Hid|].
    rewrite Hid. cbn [falsy].
    rewrite or_json_truthy; [reflexivity|].
    apply or_json_truthy. reflexivity.
  - intros i j a b oa ob Hij Ha Hb Ia1 Ia2 Ib1 Ib2 Hoa Hob Heq.
    destruct (Hout i a Ha) as (o1 & Ho1 & E1).
    destruct (Hout j b Hb) as (o2 & Ho2 & E2).
    cbn in E1, E2.
    destruct (normalize_props _ _ _ E1) as (H1 & _).
    destruct (normalize_props _ _ _ E2) as (H2 & _).
    rewrite Ho1 in Hoa. rewrite Ho2 in Hob.
    injection Hoa as <-. injection Hob as <-.
    rewrite H1, H2 in Heq.
    rewrite !or_json_falsy in Heq by assumption.
    apply Hij, resp_id_inj. congruence.
Qed.

Lemma loaded_responses_are_normalized_witness :
  Responses.handleLoadResponses parse_responses "null" (Some ("r.json", ""))
  = Responses.Loaded
      [ Store.JObj [ ("_id", Store.JStr "r-1");
                     ("question", Store.JStr "Q1");
                     ("expected_answer", Store.JStr "E1");
                     ("model_response", Store.JStr "M1");
                     ("_status", Store.JStr "pending") ];
        Store.JObj [ ("_id", Store.JStr "resp_1");
                     ("question", Store.JStr "Q2");
                     ("expected_answer", Store.JStr "E2");
                     ("model_response", Store.JStr "");
                     ("_status", Store.JStr "pending") ] ]
      [] "Loaded 2 model responses".
Proof.
  destruct (loaded_responses_are_normalized parse_responses "null"
              "r.json" ""
              [ Store.JObj [ ("id", Store.JStr "r-1");
                             ("question", Store.JStr "Q1");
                             ("expected", Store.JStr "E1");
                             ("response", Store.JStr "M1");
                             ("_status", Store.JStr "flagged") ];
                chat_record "Q2" "E2" ] eq_refl eq_refl)
    as (normalized & E & _).
  rewrite E. vm_compute in E. injection E as <-. reflexivity.
Defined.

(** X27.  The loader and the review read a record alike: the
    normalised question is the question shown in the review unless the
    record has both a truthy [question] and a truthy first chat
    message, and the normalised expected answer is the answer shown in
    the review when the record has no truthy [expected_answer] or
    [expected] and not both a truthy [answer] and a truthy second chat
    message. *)
Theorem loaded_fields_match_review
    (i : nat) (item normalized : Store.json) :
  Responses.normalize i item = DataReview.Ok normalized ->
  ((falsy (DataReview.prop item "question")
    || falsy (DataReview.message_content item 0))%bool = true ->
   DataReview.prop normalized "question"
   = Some (DataReview.getQuestion item)) /\
  (falsy (DataReview.prop item "expected_answer") = true ->
   falsy (DataReview.prop item "expected") = true ->
   (falsy (DataReview.prop item "answer")
    || falsy (DataReview.message_content item 1))%bool = true ->
   DataReview.prop normalized "expected_answer"
   = Some (DataReview.getAnswer item)).
Proof.
  intros E.
  destruct (normalize_props _ _ _ E) as (_ & Hq & He & _).
  rewrite Hq, He. unfold DataReview.getQuestion, DataReview.getAnswer.
  destruct (Store.truthy item) eqn:Ti; cbn [negb].
  2:{ destruct (falsy_own_props item Ti) as [-> | Eo]; [discriminate E|].
      unfold DataReview.message_content, DataReview.prop.
      rewrite Eo. split; reflexivity. }
  split.
  - intros H. f_equal. exact (or_json_swap _ _ _ H).
  - intros H1 H2 H. f_equal.
    rewrite (or_json_falsy _ _ H1), (or_json_falsy _ _ H2).
    exact (or_json_swap _ _ _ H).
Qed.

Lemma loaded_fields_match_review_witness :
  DataReview.prop
    (Store.JObj [ ("_id", Store.JStr "resp_1");
                  ("question", Store.JStr "Q2");
                  ("expected_answer", Store.JStr "E2");
                  ("model_response", Store.JStr "");
                  ("_status", Store.JStr "pending") ]) "question"
  = Some (DataReview.getQuestion (chat_record "Q2" "E2")).
Proof.
  apply (loaded_fields_match_review 1 (chat_record "Q2" "E2"));
    reflexivity.
Defined.
